(** * Stripe subscription service: pricing calculator and webhook glue

    A shallow embedding of [StripeSubscriptionService]
    (stripe-subscription.service.ts): the pricing calculator
    [getSubscriptionPricing], the schedule lookup [getSchedule], the webhook
    entry point [handlePaymentCompleteEvent] and the job body
    [createSubscriptions].

    - JavaScript numbers are modelled by [JsNumber.number]: exact rationals
      together with the special values -0, +Infinity, -Infinity and NaN.
      Finite arithmetic is exact; the rounding and the overflow of binary64
      are not modelled, so the model agrees with the program wherever the
      binary64 operation is exact. Where a result is stated as a value,
      [safeInteger] and [binary64] say that no operation on the way rounds,
      and [rounded] bounds what binary64 may make of it otherwise.
    - [async] methods run sequentially: they are computations in a state and
      exception monad over a [World] holding the clock and the trace of the
      calls made to the framework and to Stripe. A call leaves the clock of
      the world as it is; time that passes during a run is in the helpers
      of [Util.t], whose clock may hang on the calls made so far.
    - What the service only imports or is constructed with ([./util],
      [./schedules], the Vendure services, the Stripe client) is not defined
      here: a [Service] record holds it, and every method takes the record
      as its [this]. *)

From Stdlib Require Import ZArith QArith Qround Qreduction Qabs Lqa.
From Stdlib Require Import List String Bool Lia.
Import ListNotations.

Set Implicit Arguments.
Local Open Scope Z_scope.

(** ** JavaScript numbers *)

Module JsNumber.

Inductive number : Type :=
| Fin (q : Q)      (* a finite value, kept in lowest terms; [Fin 0] is +0 *)
| NegZero          (* -0 *)
| PInf             (* Infinity *)
| NInf             (* -Infinity *)
| NaN.

Definition ofZ (z : Z) : number := Fin (inject_Z z).

(** The sign bit. *)
Definition negative (x : number) : bool :=
  match x with
  | Fin q => (Qnum q <? 0)%Z
  | NegZero | NInf => true
  | PInf | NaN => false
  end.

(** The rational value of a finite number. *)
Definition value (x : number) : Q :=
  match x with
  | Fin q => q
  | _ => 0%Q
  end.

Definition is_zero (x : number) : bool :=
  match x with
  | Fin q => (Qnum q =? 0)%Z
  | NegZero => true
  | _ => false
  end.

Definition is_infinite (x : number) : bool :=
  match x with
  | PInf | NInf => true
  | _ => false
  end.

Definition is_nan (x : number) : bool :=
  match x with
  | NaN => true
  | _ => false
  end.

Definition zero (neg : bool) : number := if neg then NegZero else Fin 0.
Definition infinity (neg : bool) : number := if neg then NInf else PInf.

(** A finite result [q] whose sign, when it is zero, is [neg]. *)
Definition finite (neg : bool) (q : Q) : number :=
  if (Qnum q =? 0)%Z then zero neg else Fin (Qred q).

(** [x * y] *)
Definition mul (x y : number) : number :=
  let s := xorb (negative x) (negative y) in
  if is_nan x || is_nan y then NaN
  else if is_infinite x || is_infinite y then
    if is_zero x || is_zero y then NaN else infinity s
  else finite s (value x * value y)%Q.

(** [x / y] *)
Definition div (x y : number) : number :=
  let s := xorb (negative x) (negative y) in
  if is_nan x || is_nan y then NaN
  else if is_infinite x then
    if is_infinite y then NaN else infinity s
  else if is_infinite y then zero s
  else if is_zero y then
    if is_zero x then NaN else infinity s
  else finite s (value x / value y)%Q.

(** [x + y]; a zero sum is -0 only when both operands are -0. *)
Definition add (x y : number) : number :=
  if is_nan x || is_nan y then NaN
  else if is_infinite x then
    if is_infinite y && negb (Bool.eqb (negative x) (negative y)) then NaN
    else x
  else if is_infinite y then y
  else finite (negative x && negative y && is_zero x && is_zero y)
              (value x + value y)%Q.

(** [-x] *)
Definition opp (x : number) : number :=
  match x with
  | Fin q => if (Qnum q =? 0)%Z then NegZero else Fin (- q)%Q
  | NegZero => Fin 0
  | PInf => NInf
  | NInf => PInf
  | NaN => NaN
  end.

(** [x - y] *)
Definition sub (x y : number) : number := add x (opp y).

(** [Math.floor(x)] *)
Definition floor (x : number) : number :=
  match x with
  | Fin q => ofZ (Qfloor q)
  | _ => x
  end.

(** Truthiness of a number: 0, -0 and NaN are falsy. *)
Definition truthy (x : number) : bool :=
  negb (is_zero x || is_nan x).

(** [x >= 0] *)
Definition nonneg (x : number) : bool :=
  match x with
  | Fin q => (0 <=? Qnum q)%Z
  | NegZero | PInf => true
  | NInf | NaN => false
  end.

(** A finite number whose value is an integer. *)
Definition is_integer (x : number) : bool :=
  match x with
  | Fin q => Qeq_bool q (inject_Z (Qfloor q))
  | NegZero => true
  | _ => false
  end.

End JsNumber.
Import JsNumber.

(** *** Where the arithmetic of the program is exact

    The program computes in binary64: every operation rounds its exact
    result to the nearest binary64 number, and returns it as it is when it
    is one. The operations of [JsNumber] return the exact result, so they
    are the program's wherever that result is a binary64 number; the
    definitions below say where that is, and what rounding may do
    elsewhere. *)

(** [Number.isSafeInteger] *)
Definition safeInteger (z : Z) : Prop := Z.abs z < 2 ^ 53.

(** A binary64 number: a special value, or [m * 2 ^ e] for a significand
    [m] of 53 bits and an exponent [e] in range. *)
Definition binary64 (x : number) : Prop :=
  match x with
  | Fin q =>
      exists m e : Z,
        Z.abs m < 2 ^ 53 /\ -1074 <= e <= 971
        /\ (q == inject_Z m * 2 ^ e)%Q
  | _ => True
  end.

(** The unit roundoff of binary64: rounding to nearest changes a number in
    the normal range by this fraction of it at most. *)
Definition roundoff : Q := 1 # (2 ^ 53).

(** [y] is [x] up to rounding: within the unit roundoff of it, and [x]
    itself when [x] is an integer of 53 bits. *)
Definition rounded (x y : Q) : Prop :=
  (Qabs (y - x) <= roundoff * Qabs x)%Q
  /\ (forall z : Z, safeInteger z -> (x == inject_Z z)%Q -> (y == x)%Q).

(** [Math.floor(price - downpayment / (durationCount / billingCount))] as
    binary64 computes it for counts other than 0: the quotient, the share of
    the downpayment and the rest of the price are each the exact result up
    to rounding. [r] is a result it may have. *)
Definition recurringPrice_rounded
    (price downpayment durationCount billingCount : Z) (r : Z) : Prop :=
  exists quotient share rest : Q,
    rounded (inject_Z durationCount / inject_Z billingCount) quotient
    /\ rounded (inject_Z downpayment / quotient) share
    /\ rounded (inject_Z price - share) rest
    /\ r = Qfloor rest.


(** ** Data model *)

(** A [Date] is a valid JavaScript date: milliseconds since the epoch. *)
Definition Date : Type := Z.

(** Vendure's [ID = string | number]. *)
Inductive ID : Type :=
| IdStr (s : string)
| IdNum (n : Z).

Definition ID_truthy (i : ID) : bool :=
  match i with
  | IdStr s => negb (s =? EmptyString)%string
  | IdNum n => negb (n =? 0)%Z
  end.

(** Truthiness of an optional string ([undefined] and the empty string are
    falsy). *)
Definition string_truthy (s : option string) : bool :=
  match s with
  | Some s => negb (s =? EmptyString)%string
  | None => false
  end.

(** Modelled from the spec: the interval enums of [./schedules] and of the
    generated GraphQL types are not part of the sources at hand; the data
    model lists day, week, month and year. [valueOf()] of two members is
    equal exactly when the members are. *)
Inductive Interval : Type := Day | Week | Month | Year.

Definition Interval_eqb (a b : Interval) : bool :=
  match a, b with
  | Day, Day | Week, Week | Month, Month | Year, Year => true
  | _, _ => false
  end.

(** [Schedule] of [./schedules]. The start-date policy is only handed on to
    [getNextStartDate], so its type is a parameter. Counts and money are
    integers. *)
Module Schedule.
Record t (StartDate : Type) : Type := mk {
  name : string;
  downpayment : Z;
  durationInterval : Interval;
  durationCount : Z;
  startDate : StartDate;
  billingInterval : Interval;
  billingCount : Z
}.
End Schedule.

(** [VariantWithSubscriptionFields]: the fields the service reads. *)
Module Variant.
Record CustomFields : Type := mkCustomFields {
  subscriptionSchedule : option string
}.
Record t : Type := mk {
  id : ID;
  name : string;
  price : Z;
  customFields : CustomFields
}.
End Variant.

(** [Partial<StripeSubscriptionPricingInput>]: every field may be absent.
    [downpayment] is a GraphQL [Int]. *)
Module PricingInput.
Record t : Type := mk {
  productVariantId : option ID;
  downpayment : option Z;
  startDate : option Date
}.
End PricingInput.

(** [StripeSubscriptionPricing] *)
Module Pricing.
Record t : Type := mk {
  downpayment : Z;
  totalProratedAmount : number;
  proratedDays : number;
  dayRate : number;
  recurringPrice : number;
  interval : Interval;
  intervalCount : Z;
  amountDueNow : number;
  subscriptionStartDate : Date
}.
End Pricing.

Record Channel : Type := { token : string }.

(** [RequestContext], as [createContext] builds it. *)
Record RequestContext : Type := {
  apiType : string;
  isAuthorized : bool;
  authorizedAsOwnerOnly : bool;
  channel : Channel;
  languageCode : string
}.

Record Customer : Type := {
  customer_id : ID;
  emailAddress : string
}.

Record OrderLine : Type := { productVariant : Variant.t }.

(** [OrderWithSubscriptions] *)
Module Order.
Record t : Type := mk {
  id : ID;
  code : string;
  state : string;
  currencyCode : string;
  customer : Customer;
  lines : list OrderLine
}.
End Order.

(** [IncomingStripeWebhook] *)
Module Webhook.
Record Metadata : Type := mkMetadata {
  orderCode : option string;
  channelToken : option string;
  amount : option string
}.
Record EventData : Type := mkEventData {
  id : string;
  metadata : Metadata;
  customer : option string;
  payment_method : string
}.
Record t : Type := mk {
  type : string;
  object : EventData
}.
End Webhook.

(** [JobData] *)
Record JobData : Type := {
  action : string;
  ctx : RequestContext;
  job_orderCode : string;
  stripeCustomerId : string;
  stripePaymentMethodId : string
}.

(** Argument of [stripeClient.createOffSessionSubscription]. *)
Module Subscription.
Record t : Type := mk {
  customerId : string;
  productId : string;
  currencyCode : string;
  amount : number;
  interval : Interval;
  intervalCount : Z;
  paymentMethodId : string;
  startDate : Date;
  proration : bool;
  description : string
}.
End Subscription.

Record ConfigArg : Type := { arg_name : string; arg_value : string }.

Record PaymentMethodQuote : Type := { quote_id : ID; quote_code : string }.

Record PaymentMethod : Type := {
  method_code : string;
  handler_code : string;
  handler_args : list ConfigArg
}.

(** ** Errors, calls and the monad of the service *)

(** One constructor per [throw] of the service and per failure of a callee
    that the service lets through. *)
Inductive Error : Type :=
| EitherVariantOrIdNeeded
| NoVariantFound (id : option ID)                (* a [UserInputError] *)
| NoScheduleFound (name : option string)
| NotImplementedIntervals
| MissingOrderCode
| MissingChannelToken
| CannotFindOrder (code : string)
| NoCustomerInWebhook (code : string)
| NoPaymentMethodFound
| HandlerNotConfigured (code : string)
| NoApiKeyOrSecret (code : string)
| CustomerDoesNotExist (stripeCustomerId : string)
| TransitionError (code : string) (message : string)
| AddPaymentError (code : string) (message : string)
| StripeError (message : string)                 (* thrown by the client *)
| UtilError (message : string).                  (* thrown by a helper *)

Definition isUserInputError (e : Error) : bool :=
  match e with
  | NoVariantFound _ => true
  | _ => false
  end.

Inductive LogLevel : Type := Info | Warn.

Inductive LogMessage : Type :=
| NotProcessingEvent (type : string)
| CreatingSubscriptions (pricing : Pricing.t)
| CreatedRecurring (code : string)
| CreatedDownpayment (code : string)
| SettledPayment (code : string) (channelToken : string)
| NoApiKeyConfigured (code : string).

Inductive HistoryNote : Type :=
| NoCustomerIdFound
| CreatedSubscription (id : string) (amount : number) (count : Z)
    (interval : Interval)
| CreatedDownpaymentSubscription (id : string) (amount : Z) (count : Z)
    (interval : Interval)
| FailedToCreateSubscriptions (e : Error).

(** A call that leaves the service. *)
Inductive Call : Type :=
| LoggerCall (level : LogLevel) (message : LogMessage)
| VariantFindOne (ctx : RequestContext) (id : option ID)
| GetChannelFromToken (token : string)
| OrderFindOneByCode (ctx : RequestContext) (code : string)
| GetEligiblePaymentMethods (ctx : RequestContext) (orderId : ID)
| PaymentMethodFindOne (ctx : RequestContext) (id : ID)
| ValidateWebhookSignature (payload : string) (signature : option string)
| JobQueueAdd (job : JobData) (retries : nat)
| TransitionToState (ctx : RequestContext) (orderId : ID) (state : string)
| AddPaymentToOrder (ctx : RequestContext) (orderId : ID) (method : string)
    (setupIntentId : string) (amount : option string)
| CreateHistoryEntry (ctx : RequestContext) (orderId : ID)
    (note : HistoryNote)
| CustomersRetrieve (stripeCustomerId : string)
| ProductsCreate (name : string)
| CreateOffSessionSubscription (args : Subscription.t).

(** The part of the outside world the service touches: the clock that
    [new Date()] reads and the calls made so far, oldest first. *)
Record World : Type := {
  clock : Date;
  calls : list Call
}.

Inductive Outcome (A : Type) : Type :=
| Returned (a : A)
| Thrown (e : Error).
Arguments Thrown {A} e.

Definition M (A : Type) : Type := World -> Outcome A * World.

Definition ret {A} (a : A) : M A := fun w => (Returned a, w).

Definition throw {A} (e : Error) : M A := fun w => (Thrown e, w).

Definition bind {A B} (m : M A) (k : A -> M B) : M B :=
  fun w =>
    match m w with
    | (Returned a, w') => k a w'
    | (Thrown e, w') => (Thrown e, w')
    end.

(** [try { m } catch (e) { h e }] *)
Definition try_catch {A} (m : M A) (h : Error -> M A) : M A :=
  fun w =>
    match m w with
    | (Returned a, w') => (Returned a, w')
    | (Thrown e, w') => h e w'
    end.

(** Record a call. The clock of the world stays as it is. *)
Definition call (c : Call) : M unit :=
  fun w => (Returned tt, {| clock := clock w; calls := calls w ++ [c] |}).

(** [new Date()] when no time has passed since the world's clock was set. *)
Definition newDate : M Date := fun w => (Returned (clock w), w).

Declare Scope service_scope.
Delimit Scope service_scope with service.
Notation "x <- m ;; k" := (bind m (fun x => k))
  (at level 61, m at next level, right associativity) : service_scope.
Notation "m ;; k" := (bind m (fun _ => k))
  (at level 61, right associativity) : service_scope.
Notation "'when' b 'then' m ;; k" :=
  (bind (if b then m else ret tt) (fun _ => k))
  (at level 61, b at next level, m at next level, right associativity)
  : service_scope.
Local Open Scope service_scope.

(** [outcome m w] is what [m] returns or throws from the world [w], and
    [after m w] the world it leaves. *)
Definition outcome {A} (m : M A) (w : World) : Outcome A := fst (m w).
Definition after {A} (m : M A) (w : World) : World := snd (m w).

(** The subscriptions that a list of calls asks Stripe to create. *)
Fixpoint subscriptions_created (cs : list Call) : list Subscription.t :=
  match cs with
  | [] => []
  | CreateOffSessionSubscription args :: cs' =>
      args :: subscriptions_created cs'
  | _ :: cs' => subscriptions_created cs'
  end.

(** The calls that change something outside the service: every call but the
    log lines and the look-ups. *)
Definition changes_state (c : Call) : bool :=
  match c with
  | JobQueueAdd _ _
  | TransitionToState _ _ _
  | AddPaymentToOrder _ _ _ _ _
  | CreateHistoryEntry _ _ _
  | ProductsCreate _
  | CreateOffSessionSubscription _ => true
  | _ => false
  end.

(** [s.indexOf(sub) > -1] *)
Fixpoint includes (sub s : string) : bool :=
  String.prefix sub s ||
  match s with
  | EmptyString => false
  | String _ s' => includes sub s'
  end.

Definition isSome {A} (o : option A) : bool :=
  match o with
  | Some _ => true
  | None => false
  end.

(** [new StripeClient(webhookSecret, apiKey, ...)] *)
Record StripeClient : Type := {
  client_webhookSecret : string;
  client_apiKey : string
}.

(** [StripeHandlerConfig] *)
Record StripeHandlerConfig : Type := {
  paymentMethodCode : string;
  stripeClient : StripeClient;
  webhookSecret : string;
  downpaymentLabel : option string;
  prorationLabel : option string
}.

(** ** The service *)

(** What the service is constructed with and imports: the schedules of
    [./schedules], the helpers of [./util], the plugin options, the Vendure
    services and the Stripe client. Each service answers as a function of the
    request.
    - A state transition and an added payment answer [Some message] for an
      error result.
    - A failed signature check and a failed subscription creation throw. *)
Record Service (StartDate : Type) : Type := {
  schedules : list (Schedule.t StartDate);
  getDayRate : number -> Interval -> Z -> number;
  getNextStartDate : Date -> Interval -> StartDate -> Date;
  getDaysUntilNextStartDate : Date -> Date -> number;
  stripeSubscriptionHandler_code : string;
  disableWebhookSignatureChecking : bool;
  variantService_findOne : RequestContext -> ID -> option Variant.t;
  channelService_getChannelFromToken : string -> Channel;
  orderService_findOneByCode : RequestContext -> string -> option Order.t;
  orderService_getEligiblePaymentMethods :
    RequestContext -> ID -> list PaymentMethodQuote;
  paymentMethodService_findOne : RequestContext -> ID -> option PaymentMethod;
  orderService_transitionToState :
    RequestContext -> ID -> string -> option string;
  orderService_addPaymentToOrder :
    RequestContext -> ID -> string -> option string;
  stripe_validateWebhookSignature :
    StripeClient -> string -> option string -> option Error;
  stripe_customers_retrieve : StripeClient -> string -> option string;
  stripe_products_create : StripeClient -> string -> string;
  stripe_createOffSessionSubscription :
    StripeClient -> Subscription.t -> Outcome string
}.

(** The helpers of [./util] and [new Date()] as the calculator runs them:
    computations like any other, which may throw or call before they
    answer. What comes before what in the calculator shows in them. *)
Module Util.
Record t (StartDate : Type) : Type := mk {
  getDayRate : number -> Interval -> Z -> M number;
  getNextStartDate : Date -> Interval -> StartDate -> M Date;
  getDaysUntilNextStartDate : Date -> Date -> M number;
  newDate : M Date
}.
End Util.

Section Service.

Variable StartDate : Type.
Variable this : Service StartDate.

(** *** [getSchedule] *)

Definition name_matches (v : Variant.t) (s : Schedule.t StartDate) : bool :=
  match Variant.subscriptionSchedule (Variant.customFields v) with
  | Some n => (Schedule.name s =? n)%string
  | None => false
  end.

(** [schedules.find((s) => s.name === ...)] *)
Definition scheduleOf (variant : Variant.t) : option (Schedule.t StartDate) :=
  find (name_matches variant) this.(schedules).

Definition getSchedule (variant : Variant.t) : M (Schedule.t StartDate) :=
  match scheduleOf variant with
  | None =>
      throw (NoScheduleFound
               (Variant.subscriptionSchedule (Variant.customFields variant)))
  | Some schedule => ret schedule
  end.

(** *** [getSubscriptionPricing] *)

(** [input?.productVariantId] *)
Definition input_productVariantId (input : option PricingInput.t)
  : option ID :=
  match input with
  | Some i => PricingInput.productVariantId i
  | None => None
  end.

(** [input?.downpayment] *)
Definition input_downpayment (input : option PricingInput.t) : option Z :=
  match input with
  | Some i => PricingInput.downpayment i
  | None => None
  end.

(** [input?.startDate] *)
Definition input_startDate (input : option PricingInput.t) : option Date :=
  match input with
  | Some i => PricingInput.startDate i
  | None => None
  end.

(** [input?.downpayment || input?.downpayment === 0
       ? input.downpayment : schedule.downpayment] *)
Definition effective_downpayment (input : option PricingInput.t)
    (schedule : Schedule.t StartDate) : Z :=
  match input_downpayment input with
  | Some d =>
      if negb (d =? 0)%Z || (d =? 0)%Z then d
      else Schedule.downpayment schedule
  | None => Schedule.downpayment schedule
  end.

(** [schedule.durationCount / schedule.billingCount] *)
Definition billingsPerDuration (schedule : Schedule.t StartDate) : number :=
  div (ofZ (Schedule.durationCount schedule))
      (ofZ (Schedule.billingCount schedule)).

(** The helpers of the service, which answer without more ado, and the
    clock of the world. *)
Definition util_of : Util.t StartDate :=
  {| Util.getDayRate :=
       fun total interval count =>
         ret (this.(getDayRate) total interval count);
     Util.getNextStartDate :=
       fun now interval startDate =>
         ret (this.(getNextStartDate) now interval startDate);
     Util.getDaysUntilNextStartDate :=
       fun from to => ret (this.(getDaysUntilNextStartDate) from to);
     Util.newDate := newDate |}.

(** The calculator, running the helpers [util]. *)
Definition getSubscriptionPricingWith (util : Util.t StartDate)
    (ctx : RequestContext) (input : option PricingInput.t)
    (variant : option Variant.t) : M Pricing.t :=
  let productVariantId := input_productVariantId input in
  if negb (isSome variant)
     && negb (match productVariantId with
              | Some i => ID_truthy i
              | None => false
              end)
  then throw EitherVariantOrIdNeeded
  else
    variant <-
      match variant, productVariantId with
      | Some v, _ => ret (Some v)
      | None, Some i =>
          call (VariantFindOne ctx (Some i)) ;;
          ret (this.(variantService_findOne) ctx i)
      | None, None => ret None   (* excluded by the test above *)
      end ;;
    match variant with
    | None => throw (NoVariantFound productVariantId)
    | Some variant =>
        schedule <- getSchedule variant ;;
        if negb (Interval_eqb (Schedule.billingInterval schedule)
                              (Schedule.durationInterval schedule))
        then throw NotImplementedIntervals
        else
          let billingsPerDuration := billingsPerDuration schedule in
          let totalSubscriptionPrice :=
            mul (ofZ (Variant.price variant)) billingsPerDuration in
          dayRate <-
            Util.getDayRate util totalSubscriptionPrice
              (Schedule.durationInterval schedule)
              (Schedule.durationCount schedule) ;;
          let downpayment := effective_downpayment input schedule in
          let recurringPrice :=
            floor (sub (ofZ (Variant.price variant))
                       (div (ofZ downpayment) billingsPerDuration)) in
          now <- Util.newDate util ;;
          subscriptionStartDate <-
            Util.getNextStartDate util now
              (Schedule.billingInterval schedule)
              (Schedule.startDate schedule) ;;
          daysUntilStart <-
            Util.getDaysUntilNextStartDate util
              (match input_startDate input with
               | Some d => d
               | None => now
               end)
              subscriptionStartDate ;;
          let totalProratedAmount := mul daysUntilStart dayRate in
          ret {| Pricing.downpayment := downpayment;
                 Pricing.totalProratedAmount := totalProratedAmount;
                 Pricing.proratedDays := daysUntilStart;
                 Pricing.dayRate := dayRate;
                 Pricing.recurringPrice := recurringPrice;
                 Pricing.interval := Schedule.billingInterval schedule;
                 Pricing.intervalCount := Schedule.billingCount schedule;
                 Pricing.amountDueNow :=
                   add (ofZ downpayment) totalProratedAmount;
                 Pricing.subscriptionStartDate := subscriptionStartDate |}
    end.

(** [getSubscriptionPricing], with the helpers and the clock of the
    service. *)
Definition getSubscriptionPricing (ctx : RequestContext)
    (input : option PricingInput.t) (variant : option Variant.t)
  : M Pricing.t :=
  getSubscriptionPricingWith util_of ctx input variant.

(** *** [createContext], [logOrderHistory], [getStripeHandler] *)

Definition createContext (channelToken : string) : M RequestContext :=
  call (GetChannelFromToken channelToken) ;;
  ret {| apiType := "admin";
         isAuthorized := true;
         authorizedAsOwnerOnly := false;
         channel := this.(channelService_getChannelFromToken) channelToken;
         languageCode := "en" |}.

Definition logOrderHistory (ctx : RequestContext) (orderId : ID)
    (message : HistoryNote) : M unit :=
  call (CreateHistoryEntry ctx orderId message).

(** [args.find((arg) => arg.name === n)?.value] *)
Definition arg_named (n : string) (args : list ConfigArg) : option string :=
  match find (fun a => (arg_name a =? n)%string) args with
  | Some a => Some (arg_value a)
  | None => None
  end.

Definition getStripeHandler (ctx : RequestContext) (orderId : ID)
  : M StripeHandlerConfig :=
  call (GetEligiblePaymentMethods ctx orderId) ;;
  let paymentMethodQuotes :=
    this.(orderService_getEligiblePaymentMethods) ctx orderId in
  match find (fun pm => includes "stripe-subscription" (quote_code pm))
             paymentMethodQuotes with
  | None => throw NoPaymentMethodFound
  | Some paymentMethodQuote =>
      call (PaymentMethodFindOne ctx (quote_id paymentMethodQuote)) ;;
      match this.(paymentMethodService_findOne) ctx
              (quote_id paymentMethodQuote) with
      | None => throw (HandlerNotConfigured (quote_code paymentMethodQuote))
      | Some paymentMethod =>
          if negb (handler_code paymentMethod
                   =? this.(stripeSubscriptionHandler_code))%string
          then throw (HandlerNotConfigured (quote_code paymentMethodQuote))
          else
            let apiKey := arg_named "apiKey" (handler_args paymentMethod) in
            let webhookSecret :=
              arg_named "webhookSecret" (handler_args paymentMethod) in
            match apiKey, webhookSecret with
            | Some k, Some s =>
                if negb (k =? EmptyString)%string
                   && negb (s =? EmptyString)%string then
                  ret {| paymentMethodCode := method_code paymentMethod;
                         stripeClient := {| client_webhookSecret := s;
                                            client_apiKey := k |};
                         webhookSecret := s;
                         downpaymentLabel :=
                           arg_named "downpaymentLabel"
                             (handler_args paymentMethod);
                         prorationLabel :=
                           arg_named "prorationLabel"
                             (handler_args paymentMethod) |}
                else
                  call (LoggerCall Warn
                          (NoApiKeyConfigured (method_code paymentMethod))) ;;
                  throw (NoApiKeyOrSecret (method_code paymentMethod))
            | _, _ =>
                call (LoggerCall Warn
                        (NoApiKeyConfigured (method_code paymentMethod))) ;;
                throw (NoApiKeyOrSecret (method_code paymentMethod))
            end
      end
  end.

(** *** [handlePaymentCompleteEvent] *)

Definition handlePaymentCompleteEvent (event : Webhook.t)
    (signature : option string) (rawBodyPayload : string) : M unit :=
  let type := Webhook.type event in
  let eventData := Webhook.object event in
  if negb (type =? "setup_intent.succeeded")%string then
    call (LoggerCall Info (NotProcessingEvent type)) ;;
    ret tt
  else
    let orderCode := Webhook.orderCode (Webhook.metadata eventData) in
    let channelToken := Webhook.channelToken (Webhook.metadata eventData) in
    match orderCode, channelToken with
    | None, _ => throw MissingOrderCode
    | Some orderCode, channelToken =>
    if (orderCode =? EmptyString)%string then throw MissingOrderCode else
    match channelToken with
    | None => throw MissingChannelToken
    | Some channelToken =>
    if (channelToken =? EmptyString)%string then throw MissingChannelToken else
    ctx <- createContext channelToken ;;
    call (OrderFindOneByCode ctx orderCode) ;;
    match this.(orderService_findOneByCode) ctx orderCode with
    | None => throw (CannotFindOrder orderCode)
    | Some order =>
    if negb (string_truthy (Webhook.customer eventData)) then
      logOrderHistory ctx (Order.id order) NoCustomerIdFound ;;
      throw (NoCustomerInWebhook (Order.code order))
    else
    match Webhook.customer eventData with
    | None => throw (NoCustomerInWebhook (Order.code order))
    | Some customer =>
    handler <- getStripeHandler ctx (Order.id order) ;;
    (if negb this.(disableWebhookSignatureChecking) then
       call (ValidateWebhookSignature rawBodyPayload signature) ;;
       match this.(stripe_validateWebhookSignature) (stripeClient handler)
               rawBodyPayload signature with
       | Some e => throw e
       | None => ret tt
       end
     else ret tt) ;;
    call (JobQueueAdd
            {| action := "createSubscriptionsForOrder";
               ctx := ctx;
               job_orderCode := Order.code order;
               stripeCustomerId := customer;
               stripePaymentMethodId := Webhook.payment_method eventData |}
            1) ;;
    (if negb (Order.state order =? "ArrangingPayment")%string then
       call (TransitionToState ctx (Order.id order) "ArrangingPayment") ;;
       match this.(orderService_transitionToState) ctx (Order.id order)
               "ArrangingPayment" with
       | Some message => throw (TransitionError (Order.code order) message)
       | None => ret tt
       end
     else ret tt) ;;
    call (AddPaymentToOrder ctx (Order.id order) (paymentMethodCode handler)
            (Webhook.id eventData)
            (Webhook.amount (Webhook.metadata eventData))) ;;
    match this.(orderService_addPaymentToOrder) ctx (Order.id order)
            (paymentMethodCode handler) with
    | Some message => throw (AddPaymentError (Order.code order) message)
    | None =>
        call (LoggerCall Info
                (SettledPayment (Order.code order) channelToken)) ;;
        ret tt
    end
    end end end end.

(** *** [createSubscriptions] *)

(** [await stripeClient.createOffSessionSubscription(args)] *)
Definition createOffSessionSubscription (client : StripeClient)
    (args : Subscription.t) : M string :=
  call (CreateOffSessionSubscription args) ;;
  match this.(stripe_createOffSessionSubscription) client args with
  | Returned id => ret id
  | Thrown e => throw e
  end.

(** The recurring subscription of an order line. *)
Definition recurringSubscription (order : Order.t) (productId : string)
    (stripeCustomerId stripePaymentMethodId : string)
    (orderLine : OrderLine) (pricing : Pricing.t) : Subscription.t :=
  {| Subscription.customerId := stripeCustomerId;
     Subscription.productId := productId;
     Subscription.currencyCode := Order.currencyCode order;
     Subscription.amount := Pricing.recurringPrice pricing;
     Subscription.interval := Pricing.interval pricing;
     Subscription.intervalCount := Pricing.intervalCount pricing;
     Subscription.paymentMethodId := stripePaymentMethodId;
     Subscription.startDate := Pricing.subscriptionStartDate pricing;
     Subscription.proration := true;
     Subscription.description := Variant.name (productVariant orderLine) |}.

(** The downpayment subscription of an order line. *)
Definition downpaymentSubscription (order : Order.t) (productId : string)
    (stripeCustomerId stripePaymentMethodId : string)
    (schedule : Schedule.t StartDate) (pricing : Pricing.t)
  : Subscription.t :=
  let downpaymentInterval := Schedule.durationInterval schedule in
  let downpaymentIntervalCount := Schedule.durationCount schedule in
  {| Subscription.customerId := stripeCustomerId;
     Subscription.productId := productId;
     Subscription.currencyCode := Order.currencyCode order;
     Subscription.amount := ofZ (Pricing.downpayment pricing);
     Subscription.interval := downpaymentInterval;
     Subscription.intervalCount := downpaymentIntervalCount;
     Subscription.paymentMethodId := stripePaymentMethodId;
     Subscription.startDate := Pricing.subscriptionStartDate pricing;
     Subscription.proration := false;   (* no proration for downpayments *)
     Subscription.description := "Downpayment" |}.

(** The body of [for (const orderLine of order.lines)], pricing the line
    with the helpers [util]. *)
Definition createSubscriptionsForLineWith (util : Util.t StartDate)
    (ctx : RequestContext)
    (client : StripeClient) (order : Order.t) (productId : string)
    (stripeCustomerId stripePaymentMethodId : string)
    (orderLine : OrderLine) : M unit :=
  pricing <- getSubscriptionPricingWith util ctx None
               (Some (productVariant orderLine)) ;;
  call (LoggerCall Info (CreatingSubscriptions pricing)) ;;
  try_catch
    (recurring <-
       createOffSessionSubscription client
         (recurringSubscription order productId stripeCustomerId
            stripePaymentMethodId orderLine pricing) ;;
     call (LoggerCall Info (CreatedRecurring (Order.code order))) ;;
     logOrderHistory ctx (Order.id order)
       (CreatedSubscription recurring (Pricing.recurringPrice pricing)
          (Pricing.intervalCount pricing) (Pricing.interval pricing)) ;;
     if negb (Pricing.downpayment pricing =? 0)%Z then
       schedule <- getSchedule (productVariant orderLine) ;;
       downpayment <-
         createOffSessionSubscription client
           (downpaymentSubscription order productId stripeCustomerId
              stripePaymentMethodId schedule pricing) ;;
       call (LoggerCall Info (CreatedDownpayment (Order.code order))) ;;
       logOrderHistory ctx (Order.id order)
         (CreatedDownpaymentSubscription downpayment
            (Pricing.downpayment pricing) (Schedule.durationCount schedule)
            (Schedule.durationInterval schedule))
     else ret tt)
    (fun e =>
       logOrderHistory ctx (Order.id order) (FailedToCreateSubscriptions e) ;;
       throw e).

(** The body of the loop, with the helpers and the clock of the service. *)
Definition createSubscriptionsForLine (ctx : RequestContext)
    (client : StripeClient) (order : Order.t) (productId : string)
    (stripeCustomerId stripePaymentMethodId : string)
    (orderLine : OrderLine) : M unit :=
  createSubscriptionsForLineWith util_of ctx client order productId
    stripeCustomerId stripePaymentMethodId orderLine.

(** [for (const x of xs) { await body(x) }] *)
Fixpoint forEach {A} (body : A -> M unit) (xs : list A) : M unit :=
  match xs with
  | [] => ret tt
  | x :: xs' => body x ;; forEach body xs'
  end.

(** [createSubscriptions], pricing the lines with the helpers [util]. *)
Definition createSubscriptionsWith (util : Util.t StartDate)
    (ctx : RequestContext) (orderCode : string)
    (stripeCustomerId stripePaymentMethodId : string) : M unit :=
  call (OrderFindOneByCode ctx orderCode) ;;
  match this.(orderService_findOneByCode) ctx orderCode with
  | None => throw (CannotFindOrder orderCode)
  | Some order =>
      handler <- getStripeHandler ctx (Order.id order) ;;
      let client := stripeClient handler in
      call (CustomersRetrieve stripeCustomerId) ;;
      match this.(stripe_customers_retrieve) client stripeCustomerId with
      | None => throw (CustomerDoesNotExist stripeCustomerId)
      | Some _ =>
          let name :=
            ("Order " ++ Order.code order ++ " - "
               ++ emailAddress (Order.customer order))%string in
          call (ProductsCreate name) ;;
          let productId := this.(stripe_products_create) client name in
          forEach
            (createSubscriptionsForLineWith util ctx client order productId
               stripeCustomerId stripePaymentMethodId)
            (Order.lines order)
      end
  end.

(** [createSubscriptions], with the helpers and the clock of the service. *)
Definition createSubscriptions (ctx : RequestContext) (orderCode : string)
    (stripeCustomerId stripePaymentMethodId : string) : M unit :=
  createSubscriptionsWith util_of ctx orderCode stripeCustomerId
    stripePaymentMethodId.


(** The variant the calculator prices when it gets that far: the one it
    is given, else the one [variantService.findOne] answers for a truthy
    [input.productVariantId]. *)
Definition pricedVariant (ctx : RequestContext)
    (input : option PricingInput.t) (variant : option Variant.t)
  : option Variant.t :=
  match variant, input_productVariantId input with
  | Some v, _ => Some v
  | None, Some i =>
      if ID_truthy i then this.(variantService_findOne) ctx i else None
  | None, None => None
  end.

End Service.

Arguments getSchedule {StartDate} this variant.
Arguments getSubscriptionPricing {StartDate} this ctx input variant.
Arguments getSubscriptionPricingWith {StartDate} this util ctx input variant.
Arguments handlePaymentCompleteEvent {StartDate} this event signature
  rawBodyPayload.
Arguments createSubscriptions {StartDate} this ctx orderCode stripeCustomerId
  stripePaymentMethodId.
Arguments createSubscriptionsWith {StartDate} this util ctx orderCode
  stripeCustomerId stripePaymentMethodId.

(** ** The day count of [./util] *)

Definition msPerDay : Z := 86400000.

(** The calendar day (UTC) a date falls on, counted from the epoch. *)
Definition dayOf (d : Date) : Z := d / msPerDay.

(** Modelled from the spec: [getDaysUntilNextStartDate] of [./util] is not
    part of the sources at hand. The spec has
    [daysUntilStart = calendarDaysBetween(effectiveInputStartDate or now,
    subscriptionStartDate)]: the number of calendar days from the first date
    to the second. *)
Definition calendarDaysBetween (from to : Date) : Z := dayOf to - dayOf from.

(** The service with the day count of the spec for
    [getDaysUntilNextStartDate]. *)
Definition withCalendarDays {StartDate} (this : Service StartDate)
  : Service StartDate :=
  {| schedules := this.(schedules);
     getDayRate := this.(getDayRate);
     getNextStartDate := this.(getNextStartDate);
     getDaysUntilNextStartDate :=
       fun from to => ofZ (calendarDaysBetween from to);
     stripeSubscriptionHandler_code := this.(stripeSubscriptionHandler_code);
     disableWebhookSignatureChecking :=
       this.(disableWebhookSignatureChecking);
     variantService_findOne := this.(variantService_findOne);
     channelService_getChannelFromToken :=
       this.(channelService_getChannelFromToken);
     orderService_findOneByCode := this.(orderService_findOneByCode);
     orderService_getEligiblePaymentMethods :=
       this.(orderService_getEligiblePaymentMethods);
     paymentMethodService_findOne := this.(paymentMethodService_findOne);
     orderService_transitionToState := this.(orderService_transitionToState);
     orderService_addPaymentToOrder := this.(orderService_addPaymentToOrder);
     stripe_validateWebhookSignature :=
       this.(stripe_validateWebhookSignature);
     stripe_customers_retrieve := this.(stripe_customers_retrieve);
     stripe_products_create := this.(stripe_products_create);
     stripe_createOffSessionSubscription :=
       this.(stripe_createOffSessionSubscription) |}.

(** ** A shop to run the service on *)

Module Shop.

Local Open Scope string_scope.

Definition schedule (name : string) (downpayment : Z)
    (durationInterval : Interval) (durationCount : Z)
    (billingInterval : Interval) (billingCount : Z) : Schedule.t unit :=
  {| Schedule.name := name;
     Schedule.downpayment := downpayment;
     Schedule.durationInterval := durationInterval;
     Schedule.durationCount := durationCount;
     Schedule.startDate := tt;
     Schedule.billingInterval := billingInterval;
     Schedule.billingCount := billingCount |}.

Definition monthly := schedule "monthly" 0 Month 1 Month 1.
Definition halfYear :=
  schedule "6 months, paid monthly" 19900 Month 6 Month 1.
Definition mixed := schedule "1 year, paid monthly" 0 Year 1 Month 1.
Definition uneven := schedule "3 months, paid every 2" 300 Month 3 Month 2.
Definition countless := schedule "no count" 0 Month 0 Month 0.

Definition variant (id : Z) (price : Z) (scheduleName : string)
  : Variant.t :=
  {| Variant.id := IdNum id;
     Variant.name := scheduleName;
     Variant.price := price;
     Variant.customFields :=
       {| Variant.subscriptionSchedule := Some scheduleName |} |}.

Definition monthlyBox := variant 1 12000 "monthly".
Definition halfYearBox := variant 2 9000 "6 months, paid monthly".
Definition mixedBox := variant 3 9000 "1 year, paid monthly".
Definition unevenBox := variant 4 1000 "3 months, paid every 2".
Definition countlessBox := variant 5 1000 "no count".
Definition strayBox := variant 6 1000 "weekly".

Definition variants : list Variant.t :=
  [monthlyBox; halfYearBox; mixedBox; unevenBox; countlessBox; strayBox].

Definition ID_eqb (a b : ID) : bool :=
  match a, b with
  | IdStr s, IdStr t => (s =? t)%string
  | IdNum n, IdNum m => (n =? m)%Z
  | _, _ => false
  end.

(** A nominal day count, standing in for the calendar of [getDayRate]. *)
Definition nominalDays (i : Interval) : Z :=
  match i with
  | Day => 1
  | Week => 7
  | Month => 30
  | Year => 365
  end.

Definition order : Order.t :=
  {| Order.id := IdNum 10;
     Order.code := "ORDER10";
     Order.state := "AddingItems";
     Order.currencyCode := "EUR";
     Order.customer :=
       {| customer_id := IdNum 20; emailAddress := "jo@example.com" |};
     Order.lines :=
       [ {| productVariant := monthlyBox |};
         {| productVariant := halfYearBox |} ] |}.

Definition service : Service unit :=
  {| schedules := [monthly; halfYear; mixed; uneven; countless];
     getDayRate :=
       fun total interval count =>
         div total (ofZ (nominalDays interval * count));
     getNextStartDate :=
       fun now _ _ => (dayOf now + 1) * msPerDay;   (* the next midnight *)
     getDaysUntilNextStartDate :=
       fun from to => ofZ (calendarDaysBetween from to);
     stripeSubscriptionHandler_code := "stripe-subscription";
     disableWebhookSignatureChecking := false;
     variantService_findOne :=
       fun _ id => find (fun v => ID_eqb (Variant.id v) id) variants;
     channelService_getChannelFromToken := fun t => {| token := t |};
     orderService_findOneByCode :=
       fun _ code =>
         if (code =? "ORDER10")%string then Some order else None;
     orderService_getEligiblePaymentMethods :=
       fun _ _ =>
         [ {| quote_id := IdNum 30;
              quote_code := "stripe-subscription-1" |} ];
     paymentMethodService_findOne :=
       fun _ _ =>
         Some {| method_code := "stripe-subscription-1";
                 handler_code := "stripe-subscription";
                 handler_args :=
                   [ {| arg_name := "apiKey"; arg_value := "sk_test" |};
                     {| arg_name := "webhookSecret";
                        arg_value := "whsec_test" |} ] |};
     orderService_transitionToState := fun _ _ _ => None;
     orderService_addPaymentToOrder := fun _ _ _ => None;
     stripe_validateWebhookSignature := fun _ _ _ => None;
     stripe_customers_retrieve := fun _ id => Some id;
     stripe_products_create := fun _ _ => "prod_1";
     stripe_createOffSessionSubscription :=
       fun _ args =>
         Returned (if Subscription.proration args then "sub_recurring"
                   else "sub_downpayment") |}.

Definition ctx : RequestContext :=
  {| apiType := "admin";
     isAuthorized := true;
     authorizedAsOwnerOnly := false;
     channel := {| token := "shop" |};
     languageCode := "en" |}.

(** Noon of some day, and nothing called yet. *)
Definition noon : Date := 20000 * msPerDay + msPerDay / 2.
Definition world : World := {| clock := noon; calls := [] |}.

(** The same moment, later in a request. *)
Definition busy : World :=
  {| clock := noon; calls := [GetChannelFromToken "shop"] |}.

Definition byId (id : Z) : PricingInput.t :=
  {| PricingInput.productVariantId := Some (IdNum id);
     PricingInput.downpayment := None;
     PricingInput.startDate := None |}.


(** A start date three days from now. *)
Definition lateStart : PricingInput.t :=
  {| PricingInput.productVariantId := None;
     PricingInput.downpayment := None;
     PricingInput.startDate := Some (noon + 3 * msPerDay) |}.

Definition client : StripeClient :=
  {| client_webhookSecret := "whsec_test"; client_apiKey := "sk_test" |}.

(** The raw body of a webhook request. *)
Definition payload : string := "{ }".

Definition webhook (type : string) : Webhook.t :=
  {| Webhook.type := type;
     Webhook.object :=
       {| Webhook.id := "seti_1";
          Webhook.metadata :=
            {| Webhook.orderCode := Some "ORDER10";
               Webhook.channelToken := Some "shop";
               Webhook.amount := Some "12000" |};
          Webhook.customer := Some "cus_1";
          Webhook.payment_method := "pm_1" |} |}.

End Shop.

(** ** Reading the trace *)

(** The world [w] after the calls [cs]. *)
Definition extend (w : World) (cs : list Call) : World :=
  {| clock := clock w; calls := calls w ++ cs |}.

(** [m], started when the clock shows [now], ends in [o] after making the
    calls [cs], whatever was called before. *)
Definition runs_at {A} (now : Date) (m : M A) (o : Outcome A)
    (cs : list Call) : Prop :=
  forall w, clock w = now -> m w = (o, extend w cs).

(** The calls by which the webhook settles an order: the job, the state
    transition and the payment. *)
Definition settles (c : Call) : bool :=
  match c with
  | JobQueueAdd _ _
  | TransitionToState _ _ _
  | AddPaymentToOrder _ _ _ _ _ => true
  | _ => false
  end.

(** The calls of [stripeClient.validateWebhookSignature]. *)
Definition validates (c : Call) : bool :=
  match c with
  | ValidateWebhookSignature _ _ => true
  | _ => false
  end.

(** The calls [getStripeHandler] may make. *)
Definition handler_lookup (c : Call) : bool :=
  match c with
  | GetEligiblePaymentMethods _ _
  | PaymentMethodFindOne _ _
  | LoggerCall Warn (NoApiKeyConfigured _) => true
  | _ => false
  end.

(** The context [createContext] returns for a channel token. *)
Definition adminContext {StartDate} (this : Service StartDate)
    (channelToken : string) : RequestContext :=
  {| apiType := "admin";
     isAuthorized := true;
     authorizedAsOwnerOnly := false;
     channel := this.(channelService_getChannelFromToken) channelToken;
     languageCode := "en" |}.

(** The name [createSubscriptions] gives the Stripe product of an order. *)
Definition productName (order : Order.t) : string :=
  ("Order " ++ Order.code order ++ " - "
     ++ emailAddress (Order.customer order))%string.

(** The calls of [stripeClient.products.create]. *)
Definition creates_product (c : Call) : bool :=
  match c with
  | ProductsCreate _ => true
  | _ => false
  end.

(** The job [handlePaymentCompleteEvent] adds for an order. *)
Definition subscriptionsJob (ctx : RequestContext) (order : Order.t)
    (event : Webhook.t) (customer : string) : JobData :=
  {| action := "createSubscriptionsForOrder";
     ctx := ctx;
     job_orderCode := Order.code order;
     stripeCustomerId := customer;
     stripePaymentMethodId :=
       Webhook.payment_method (Webhook.object event) |}.

(** The subscriptions of an order line when nothing fails: the recurring
    one, and the downpayment one for a downpayment other than 0. *)
Definition lineSubscriptions {StartDate} (this : Service StartDate)
    (ctx : RequestContext) (now : Date) (order : Order.t)
    (productId stripeCustomerId stripePaymentMethodId : string)
    (orderLine : OrderLine) : list Subscription.t :=
  match outcome (getSubscriptionPricing this ctx None
                   (Some (productVariant orderLine)))
          {| clock := now; calls := [] |},
        scheduleOf this (productVariant orderLine) with
  | Returned pricing, Some schedule =>
      recurringSubscription order productId stripeCustomerId
        stripePaymentMethodId orderLine pricing
      :: (if (Pricing.downpayment pricing =? 0)%Z then []
          else [downpaymentSubscription order productId stripeCustomerId
                  stripePaymentMethodId schedule pricing])
  | _, _ => []
  end.

(** The webhook is accepted: it reports a completed setup intent, it names
    an order of a channel and a customer, that order has a handler, and the
    signature passes or is not checked. *)
Definition accepted {StartDate} (this : Service StartDate)
    (event : Webhook.t) (signature : option string) (rawBodyPayload : string)
    (channelToken customer : string) (order : Order.t)
    (handler : StripeHandlerConfig) : Prop :=
  let eventData := Webhook.object event in
  let ctx := adminContext this channelToken in
  Webhook.type event = "setup_intent.succeeded"%string
  /\ (exists orderCode,
        Webhook.orderCode (Webhook.metadata eventData) = Some orderCode
        /\ orderCode <> EmptyString
        /\ this.(orderService_findOneByCode) ctx orderCode = Some order)
  /\ Webhook.channelToken (Webhook.metadata eventData) = Some channelToken
  /\ channelToken <> EmptyString
  /\ Webhook.customer eventData = Some customer
  /\ customer <> EmptyString
  /\ outcome (getStripeHandler this ctx (Order.id order))
       {| clock := 0; calls := [] |} = Returned handler
  /\ (this.(disableWebhookSignatureChecking) = true
      \/ this.(stripe_validateWebhookSignature) (stripeClient handler)
           rawBodyPayload signature = None).

(** The handler's client refuses the signature: the client of the handler
    found for the order the event names, in the channel it names. *)
Definition signature_refused {StartDate} (this : Service StartDate)
    (event : Webhook.t) (signature : option string) (rawBodyPayload : string)
  : Prop :=
  let eventData := Webhook.object event in
  forall orderCode channelToken order handler,
    Webhook.orderCode (Webhook.metadata eventData) = Some orderCode ->
    Webhook.channelToken (Webhook.metadata eventData) = Some channelToken ->
    this.(orderService_findOneByCode) (adminContext this channelToken)
      orderCode = Some order ->
    outcome (getStripeHandler this (adminContext this channelToken)
               (Order.id order))
      {| clock := 0; calls := [] |} = Returned handler ->
    this.(stripe_validateWebhookSignature) (stripeClient handler)
      rawBodyPayload signature <> None.

(** The helpers answer: run in any world they return, and they neither
    throw nor call. What they answer may hang on the world, so that the
    clock may show a later instant every time it is read. *)
Definition answers {StartDate} (util : Util.t StartDate) : Prop :=
  (forall w, exists now, Util.newDate util w = (Returned now, w))
  /\ (forall total interval count w,
        exists rate,
          Util.getDayRate util total interval count w = (Returned rate, w))
  /\ (forall now interval startDate w,
        exists date,
          Util.getNextStartDate util now interval startDate w
          = (Returned date, w))
  /\ (forall from to w,
        exists days,
          Util.getDaysUntilNextStartDate util from to w
          = (Returned days, w)).

(** A subscription less its start date. *)
Definition undated (a : Subscription.t) : Subscription.t :=
  {| Subscription.customerId := Subscription.customerId a;
     Subscription.productId := Subscription.productId a;
     Subscription.currencyCode := Subscription.currencyCode a;
     Subscription.amount := Subscription.amount a;
     Subscription.interval := Subscription.interval a;
     Subscription.intervalCount := Subscription.intervalCount a;
     Subscription.paymentMethodId := Subscription.paymentMethodId a;
     Subscription.startDate := 0;
     Subscription.proration := Subscription.proration a;
     Subscription.description := Subscription.description a |}.

(** What the lines of an order ask of Stripe when nothing fails, less the
    start dates. *)
Definition asked {StartDate} (this : Service StartDate)
    (ctx : RequestContext) (now : Date) (order : Order.t)
    (productId stripeCustomerId stripePaymentMethodId : string)
  : list Subscription.t :=
  flat_map
    (fun orderLine =>
       map undated
         (lineSubscriptions this ctx now order productId stripeCustomerId
            stripePaymentMethodId orderLine))
    (Order.lines order).

(** ** More of the shop *)

Module Desk.

Local Open Scope string_scope.

(** The shop's service with other answers from the signature check, the
    state transition, the payment and the creation of subscriptions. *)
Definition service (checks : bool)
    (validate : option Error) (transition payment : option string)
    (create : Subscription.t -> Outcome string) : Service unit :=
  {| schedules := Shop.service.(schedules);
     getDayRate := Shop.service.(getDayRate);
     getNextStartDate := Shop.service.(getNextStartDate);
     getDaysUntilNextStartDate := Shop.service.(getDaysUntilNextStartDate);
     stripeSubscriptionHandler_code :=
       Shop.service.(stripeSubscriptionHandler_code);
     disableWebhookSignatureChecking := negb checks;
     variantService_findOne := Shop.service.(variantService_findOne);
     channelService_getChannelFromToken :=
       Shop.service.(channelService_getChannelFromToken);
     orderService_findOneByCode := Shop.service.(orderService_findOneByCode);
     orderService_getEligiblePaymentMethods :=
       Shop.service.(orderService_getEligiblePaymentMethods);
     paymentMethodService_findOne :=
       Shop.service.(paymentMethodService_findOne);
     orderService_transitionToState := fun _ _ _ => transition;
     orderService_addPaymentToOrder := fun _ _ _ => payment;
     stripe_validateWebhookSignature := fun _ _ _ => validate;
     stripe_customers_retrieve := Shop.service.(stripe_customers_retrieve);
     stripe_products_create := Shop.service.(stripe_products_create);
     stripe_createOffSessionSubscription := fun _ => create |}.

(** The shop's service with other payment methods. *)
Definition serviceWith (quotes : list PaymentMethodQuote)
    (method : option PaymentMethod) : Service unit :=
  {| schedules := Shop.service.(schedules);
     getDayRate := Shop.service.(getDayRate);
     getNextStartDate := Shop.service.(getNextStartDate);
     getDaysUntilNextStartDate := Shop.service.(getDaysUntilNextStartDate);
     stripeSubscriptionHandler_code :=
       Shop.service.(stripeSubscriptionHandler_code);
     disableWebhookSignatureChecking := false;
     variantService_findOne := Shop.service.(variantService_findOne);
     channelService_getChannelFromToken :=
       Shop.service.(channelService_getChannelFromToken);
     orderService_findOneByCode := Shop.service.(orderService_findOneByCode);
     orderService_getEligiblePaymentMethods := fun _ _ => quotes;
     paymentMethodService_findOne := fun _ _ => method;
     orderService_transitionToState :=
       Shop.service.(orderService_transitionToState);
     orderService_addPaymentToOrder :=
       Shop.service.(orderService_addPaymentToOrder);
     stripe_validateWebhookSignature :=
       Shop.service.(stripe_validateWebhookSignature);
     stripe_customers_retrieve := Shop.service.(stripe_customers_retrieve);
     stripe_products_create := Shop.service.(stripe_products_create);
     stripe_createOffSessionSubscription :=
       Shop.service.(stripe_createOffSessionSubscription) |}.

(** The shop's service with other schedules, and with a Stripe account
    that knows no customer. *)
Definition withSchedules (l : list (Schedule.t unit)) : Service unit :=
  {| schedules := l;
     getDayRate := Shop.service.(getDayRate);
     getNextStartDate := Shop.service.(getNextStartDate);
     getDaysUntilNextStartDate := Shop.service.(getDaysUntilNextStartDate);
     stripeSubscriptionHandler_code :=
       Shop.service.(stripeSubscriptionHandler_code);
     disableWebhookSignatureChecking := false;
     variantService_findOne := Shop.service.(variantService_findOne);
     channelService_getChannelFromToken :=
       Shop.service.(channelService_getChannelFromToken);
     orderService_findOneByCode := Shop.service.(orderService_findOneByCode);
     orderService_getEligiblePaymentMethods :=
       Shop.service.(orderService_getEligiblePaymentMethods);
     paymentMethodService_findOne :=
       Shop.service.(paymentMethodService_findOne);
     orderService_transitionToState :=
       Shop.service.(orderService_transitionToState);
     orderService_addPaymentToOrder :=
       Shop.service.(orderService_addPaymentToOrder);
     stripe_validateWebhookSignature :=
       Shop.service.(stripe_validateWebhookSignature);
     stripe_customers_retrieve := fun _ _ => None;
     stripe_products_create := Shop.service.(stripe_products_create);
     stripe_createOffSessionSubscription :=
       Shop.service.(stripe_createOffSessionSubscription) |}.

(** A schedule without a billing count, and a variant on it. *)
Definition unbilled : Schedule.t unit :=
  Shop.schedule "never billed" 300 Month 6 Month 0.

Definition unbilledBox : Variant.t := Shop.variant 7 1000 "never billed".

(** The shop's service with a Stripe that refuses the signatures checked by
    the client of the shop's handler, and by no other client. *)
Definition guarded : Service unit :=
  {| schedules := Shop.service.(schedules);
     getDayRate := Shop.service.(getDayRate);
     getNextStartDate := Shop.service.(getNextStartDate);
     getDaysUntilNextStartDate := Shop.service.(getDaysUntilNextStartDate);
     stripeSubscriptionHandler_code :=
       Shop.service.(stripeSubscriptionHandler_code);
     disableWebhookSignatureChecking := false;
     variantService_findOne := Shop.service.(variantService_findOne);
     channelService_getChannelFromToken :=
       Shop.service.(channelService_getChannelFromToken);
     orderService_findOneByCode := Shop.service.(orderService_findOneByCode);
     orderService_getEligiblePaymentMethods :=
       Shop.service.(orderService_getEligiblePaymentMethods);
     paymentMethodService_findOne :=
       Shop.service.(paymentMethodService_findOne);
     orderService_transitionToState :=
       Shop.service.(orderService_transitionToState);
     orderService_addPaymentToOrder :=
       Shop.service.(orderService_addPaymentToOrder);
     stripe_validateWebhookSignature :=
       fun client _ _ =>
         if client_webhookSecret client =? "whsec_test"
         then Some (StripeError "bad signature")
         else None;
     stripe_customers_retrieve := Shop.service.(stripe_customers_retrieve);
     stripe_products_create := Shop.service.(stripe_products_create);
     stripe_createOffSessionSubscription :=
       Shop.service.(stripe_createOffSessionSubscription) |}.

(** The helpers of the shop with a clock that shows a day more for every
    call made so far. *)
Definition ticking : Util.t unit :=
  {| Util.getDayRate :=
       fun total interval count =>
         ret (Shop.service.(getDayRate) total interval count);
     Util.getNextStartDate :=
       fun now interval startDate =>
         ret (Shop.service.(getNextStartDate) now interval startDate);
     Util.getDaysUntilNextStartDate :=
       fun from to =>
         ret (Shop.service.(getDaysUntilNextStartDate) from to);
     Util.newDate :=
       fun w =>
         (Returned (clock w + Z.of_nat (List.length (calls w)) * msPerDay),
          w) |}.

(** Stripe creates the subscriptions of the shop's order, whatever their
    start date, and no other. *)
Definition ordered (args : Subscription.t) : Outcome string :=
  if existsb
       (fun a =>
          (Subscription.description a =? Subscription.description args)
          && Bool.eqb (Subscription.proration a)
               (Subscription.proration args))
       (asked Shop.service Shop.ctx 0 Shop.order "prod_1" "cus_1" "pm_1")
  then Returned (if Subscription.proration args then "sub_recurring"
                 else "sub_downpayment")
  else Thrown (StripeError "not ordered").

(** Helpers that throw as soon as they are run, and a clock that cannot be
    read. *)
Definition brokenUtil : Util.t unit :=
  {| Util.getDayRate := fun _ _ _ => throw (UtilError "getDayRate");
     Util.getNextStartDate :=
       fun _ _ _ => throw (UtilError "getNextStartDate");
     Util.getDaysUntilNextStartDate :=
       fun _ _ => throw (UtilError "getDaysUntilNextStartDate");
     Util.newDate := throw (UtilError "new Date") |}.

(** An input that sets the downpayment. *)
Definition paying (downpayment : Z) : PricingInput.t :=
  {| PricingInput.productVariantId := None;
     PricingInput.downpayment := Some downpayment;
     PricingInput.startDate := None |}.

(** A webhook with the given metadata and customer. *)
Definition webhook (orderCode channelToken customer : option string)
  : Webhook.t :=
  {| Webhook.type := "setup_intent.succeeded";
     Webhook.object :=
       {| Webhook.id := "seti_1";
          Webhook.metadata :=
            {| Webhook.orderCode := orderCode;
               Webhook.channelToken := channelToken;
               Webhook.amount := Some "12000" |};
          Webhook.customer := customer;
          Webhook.payment_method := "pm_1" |} |}.

Definition quote : PaymentMethodQuote :=
  {| quote_id := IdNum 30; quote_code := "stripe-subscription-1" |}.

Definition method (args : list ConfigArg) : PaymentMethod :=
  {| method_code := "stripe-subscription-1";
     handler_code := "stripe-subscription";
     handler_args := args |}.

Definition handler : StripeHandlerConfig :=
  {| paymentMethodCode := "stripe-subscription-1";
     stripeClient := Shop.client;
     webhookSecret := "whsec_test";
     downpaymentLabel := None;
     prorationLabel := None |}.

Definition created (args : Subscription.t) : Outcome string :=
  Returned (if Subscription.proration args then "sub_recurring"
            else "sub_downpayment").

(** Stripe creates recurring subscriptions and refuses the others. *)
Definition recurringOnly (args : Subscription.t) : Outcome string :=
  if Subscription.proration args then Returned "sub_recurring"
  else Thrown (StripeError "card declined").

Definition refused (args : Subscription.t) : Outcome string :=
  Thrown (StripeError "card declined").

End Desk.

(** ** Facts about numbers *)

Lemma Interval_eqb_eq (a b : Interval) : Interval_eqb a b = true <-> a = b.
Proof. destruct a, b; simpl; split; intro H; try reflexivity; discriminate. Qed.

Lemma Interval_eqb_neq (a b : Interval) : Interval_eqb a b = false <-> a <> b.
Proof.
  rewrite <- Interval_eqb_eq. destruct (Interval_eqb a b); split; congruence.
Qed.

Lemma Qnum_zero (q : Q) : Qnum q = 0 <-> (q == 0)%Q.
Proof. unfold Qeq. simpl. lia. Qed.

Lemma Qred_inject_Z (z : Z) : Qred (inject_Z z) = inject_Z z.
Proof.
  unfold Qred, inject_Z.
  generalize (Z.ggcd_gcd z 1) (Z.ggcd_correct_divisors z 1).
  destruct (Z.ggcd z 1) as [g [a b]]. simpl.
  rewrite Z.gcd_1_r. intros -> [Ha Hb].
  rewrite Z.mul_1_l in Ha, Hb. subst a b. reflexivity.
Qed.

(** A finite result that is zero is +0 unless the sign says otherwise. *)
Lemma finite_false (q : Q) : finite false q = Fin (Qred q).
Proof.
  unfold finite. destruct (Z.eqb_spec (Qnum q) 0) as [H | H]; [| reflexivity].
  simpl. f_equal. apply Qnum_zero in H.
  rewrite (Qred_complete _ _ H). reflexivity.
Qed.

Lemma finite_integer (z : Z) (q : Q) :
  (q == inject_Z z)%Q -> finite false q = ofZ z.
Proof.
  intro H. rewrite finite_false, (Qred_complete _ _ H), Qred_inject_Z.
  reflexivity.
Qed.

Lemma xorb_same (b : bool) : xorb b b = false.
Proof. destruct b; reflexivity. Qed.

Lemma div_self (c : Z) : c <> 0 -> div (ofZ c) (ofZ c) = ofZ 1.
Proof.
  intro H. unfold div, ofZ. simpl.
  destruct (Z.eqb_spec c 0) as [E | _]; [contradiction |].
  rewrite xorb_same. apply finite_integer.
  apply Qmult_inv_r. intro E. apply H. apply Qnum_zero in E. exact E.
Qed.

Lemma div_one (d : Z) : div (ofZ d) (ofZ 1) = ofZ d.
Proof.
  unfold div, ofZ. simpl. rewrite xorb_false_r.
  unfold finite.
  destruct (Z.eqb_spec (Qnum (inject_Z d / inject_Z 1)) 0) as [E | E].
  - simpl in E. rewrite Z.mul_1_r in E. subst d. reflexivity.
  - f_equal. transitivity (Qred (inject_Z d)); [| apply Qred_inject_Z].
    apply Qred_complete.
    unfold Qdiv. change (/ inject_Z 1)%Q with 1%Q. apply Qmult_1_r.
Qed.

Lemma sub_integers (p d : Z) : sub (ofZ p) (ofZ d) = ofZ (p - d).
Proof.
  unfold sub, ofZ, opp. simpl.
  destruct (Z.eqb_spec d 0) as [-> | Hd].
  - unfold add. simpl.
    replace ((p <? 0) && true && (p =? 0) && true) with false
      by (destruct (Z.ltb_spec p 0), (Z.eqb_spec p 0); simpl; lia).
    apply finite_integer. rewrite Z.sub_0_r. apply Qplus_0_r.
  - unfold add. simpl.
    destruct (Z.eqb_spec (- d) 0) as [E | _]; [lia |].
    rewrite andb_false_r. apply finite_integer.
    unfold Z.sub. rewrite inject_Z_plus, inject_Z_opp. reflexivity.
Qed.

Lemma floor_integer (z : Z) : floor (ofZ z) = ofZ z.
Proof. unfold floor, ofZ. rewrite Qfloor_Z. reflexivity. Qed.

(** *** Rounding *)

Lemma inject_Z_nonzero (z : Z) : z <> 0 -> ~ (inject_Z z == 0)%Q.
Proof. intros Hz E. apply Hz. unfold Qeq in E. simpl in E. lia. Qed.

Lemma rounded_refl (x : Q) : rounded x x.
Proof.
  split; [| reflexivity].
  setoid_replace (x - x)%Q with 0%Q by ring. 
  apply Qmult_le_0_compat; [discriminate | apply Qabs_nonneg].
Qed.

Lemma rounded_integer (x y : Q) (z : Z) :
  safeInteger z -> (x == inject_Z z)%Q -> rounded x y -> (y == inject_Z z)%Q.
Proof. intros Hz Hx [_ H]. rewrite (H z Hz Hx). exact Hx. Qed.

Lemma roundoff_safe (n : Z) :
  safeInteger n -> (roundoff * inject_Z (Z.abs n) < 1)%Q.
Proof.
  unfold safeInteger, roundoff. intro H.
  unfold Qlt, Qmult, inject_Z. cbn [Qnum Qden].
  rewrite Z.mul_1_l, Z.mul_1_r, Z.mul_1_l.
  change (Z.pos (2 ^ 53 * 1)) with (2 ^ 53)%Z. exact H.
Qed.

Lemma Qfloor_between (q : Z) (y : Q) :
  (inject_Z q < y)%Q -> (y < inject_Z q + 1)%Q -> Qfloor y = q.
Proof.
  intros H1 H2.
  assert (L : q <= Qfloor y).
  { rewrite <- (Qfloor_Z q). apply Qfloor_resp_le. apply Qlt_le_weak, H1. }
  assert (U : Qfloor y < q + 1).
  { rewrite Zlt_Qlt. apply Qle_lt_trans with y; [apply Qfloor_le |].
    rewrite inject_Z_plus. exact H2. }
  lia.
Qed.

(** A number closer to a fraction [n / m] that is no integer than [1 / m] is
    strictly between the integers around the fraction. *)
Lemma near_quotient_pos (n m : Z) (y : Q) :
  0 < m -> n mod m <> 0 ->
  (Qabs (y - inject_Z n / inject_Z m) * inject_Z m < 1)%Q ->
  (inject_Z (n / m) < y /\ y < inject_Z (n / m) + 1)%Q.
Proof.
  intros Hm Hr Hy.
  pose proof (Z.div_mod n m ltac:(lia)) as E.
  pose proof (Z.mod_pos_bound n m Hm) as Hb.
  set (q := n / m) in *. set (r := n mod m) in *.
  assert (Hr1 : (1 <= inject_Z r)%Q).
  { change (inject_Z 1 <= inject_Z r)%Q. rewrite <- Zle_Qle. lia. }
  assert (Hr2 : (inject_Z r <= inject_Z m - 1)%Q).
  { setoid_replace (inject_Z m - 1)%Q with (inject_Z (m - 1)).
    - rewrite <- (Zle_Qle r (m - 1)). lia.
    - unfold Z.sub. rewrite inject_Z_plus. reflexivity. }
  assert (Hm' : (0 < inject_Z m)%Q).
  { change (inject_Z 0 < inject_Z m)%Q. rewrite <- Zlt_Qlt. exact Hm. }
  assert (En : (inject_Z n == inject_Z m * inject_Z q + inject_Z r)%Q).
  { rewrite E at 1. rewrite inject_Z_plus, inject_Z_mult. reflexivity. }
  set (x := (inject_Z n / inject_Z m)%Q) in *.
  assert (Hx : (x * inject_Z m == inject_Z n)%Q).
  { unfold x. field. intro Z0. rewrite Z0 in Hm'. discriminate. }
  pose proof (Qle_Qabs (y - x)) as U1.
  pose proof (Qle_Qabs (- (y - x))) as U2. rewrite Qabs_opp in U2.
  clearbody x.
  remember (Qabs (y - x)) as a eqn:Ea. clear Ea.
  remember (inject_Z n) as N eqn:EN. clear EN.
  remember (inject_Z m) as b eqn:Eb. clear Eb.
  remember (inject_Z q) as qq eqn:Eq. clear Eq.
  remember (inject_Z r) as rr eqn:Err. clear Err.
  assert (B1 : (b * (y - x) <= a * b)%Q) by nra.
  assert (B2 : (- (a * b) <= b * (y - x))%Q) by nra.
  assert (B3 : (b * qq < b * y)%Q) by nra.
  assert (B4 : (b * y < b * (qq + 1))%Q) by nra.
  split.
  - apply (Qmult_lt_l _ _ b Hm'). exact B3.
  - apply (Qmult_lt_l _ _ b Hm'). exact B4.
Qed.

Lemma near_quotient (n m : Z) (y : Q) :
  m <> 0 -> ~ (m | n) ->
  (Qabs (y - inject_Z n / inject_Z m) * inject_Z (Z.abs m) < 1)%Q ->
  (inject_Z (n / m) < y /\ y < inject_Z (n / m) + 1)%Q.
Proof.
  intros Hm Hd Hy.
  assert (Hr : n mod m <> 0).
  { intro E. apply Hd. apply Z.mod_divide; assumption. }
  destruct (Z.lt_trichotomy m 0) as [Neg | [Z0 | Pos]]; [| contradiction |].
  - rewrite <- (Z.div_opp_opp n m Hm).
    apply near_quotient_pos; [lia | |].
    + rewrite (Z.mod_opp_opp n m Hm). lia.
    + rewrite (Z.abs_neq m) in Hy by lia.
      setoid_replace (inject_Z (- n) / inject_Z (- m))%Q
        with (inject_Z n / inject_Z m)%Q; [exact Hy |].
      rewrite !inject_Z_opp. field. apply inject_Z_nonzero. exact Hm.
  - rewrite (Z.abs_eq m) in Hy by lia.
    apply near_quotient_pos; assumption.
Qed.

Lemma Qabs_quotient (n m : Z) :
  m <> 0 ->
  (Qabs (inject_Z n / inject_Z m) * inject_Z (Z.abs m)
   == inject_Z (Z.abs n))%Q.
Proof.
  intro Hm.
  change (inject_Z (Z.abs m)) with (Qabs (inject_Z m)).
  change (inject_Z (Z.abs n)) with (Qabs (inject_Z n)).
  rewrite <- Qabs_Qmult. apply Qabs_wd. field.
  apply inject_Z_nonzero. exact Hm.
Qed.

(** The rounded quotient of two integers, the first one safe, is closer to
    the quotient than [1 / m]. *)
Lemma rounded_near (n m : Z) (y : Q) :
  m <> 0 -> safeInteger n ->
  rounded (inject_Z n / inject_Z m) y ->
  (Qabs (y - inject_Z n / inject_Z m) * inject_Z (Z.abs m) < 1)%Q.
Proof.
  intros Hm Hn [Hy _].
  pose proof (Qabs_quotient n Hm) as Ha.
  pose proof (roundoff_safe Hn) as He.
  assert (Hb : (0 < inject_Z (Z.abs m))%Q).
  { change (inject_Z 0 < inject_Z (Z.abs m))%Q. rewrite <- Zlt_Qlt. lia. }
  change roundoff with (1 # 9007199254740992)%Q in *.
  remember (Qabs (y - inject_Z n / inject_Z m)) as d eqn:Ed. clear Ed.
  remember (Qabs (inject_Z n / inject_Z m)) as a eqn:Ea. clear Ea.
  remember (inject_Z (Z.abs m)) as b eqn:Eb. clear Eb.
  remember (inject_Z (Z.abs n)) as An eqn:EAn. clear EAn.
  nra.
Qed.

Lemma rounded_wd (x x' y : Q) : (x == x')%Q -> rounded x y -> rounded x' y.
Proof.
  intros E [H1 H2]. split.
  - rewrite <- E. exact H1.
  - intros z Hz Hx. rewrite <- E. apply (H2 z Hz). rewrite E. exact Hx.
Qed.

Lemma Qfloor_integer (y : Q) (z : Z) : (y == inject_Z z)%Q -> Qfloor y = z.
Proof. intro E. rewrite (Qfloor_comp _ _ E). apply Qfloor_Z. Qed.

Lemma inject_Z_bound (a b : Z) :
  a < b -> (inject_Z a < inject_Z b)%Q.
Proof. intro H. rewrite <- Zlt_Qlt. exact H. Qed.

(** With equal counts nothing is rounded. *)
Lemma recurringPrice_rounded_same (price downpayment count r : Z) :
  count <> 0 -> safeInteger downpayment -> safeInteger (price - downpayment) ->
  recurringPrice_rounded price downpayment count count r ->
  r = price - downpayment.
Proof.
  intros Hc Sd Sr (t1 & t2 & t3 & H1 & H2 & H3 & ->).
  assert (S1 : safeInteger 1) by reflexivity.
  assert (E1 : (t1 == inject_Z 1)%Q).
  { apply (rounded_integer S1) with (2 := H1).
    field. apply inject_Z_nonzero. exact Hc. }
  assert (E2 : (t2 == inject_Z downpayment)%Q).
  { apply (rounded_integer Sd) with (2 := H2).
    rewrite E1. field. }
  assert (E3 : (t3 == inject_Z (price - downpayment))%Q).
  { apply (rounded_integer Sr) with (2 := H3).
    rewrite E2. unfold Z.sub. rewrite inject_Z_plus, inject_Z_opp.
    reflexivity. }
  apply (Qfloor_integer E3).
Qed.

(** The exact results are among the rounded ones. *)
Lemma recurringPrice_rounded_exact (price downpayment durationCount
    billingCount : Z) :
  recurringPrice_rounded price downpayment durationCount billingCount
    (Qfloor (inject_Z price
             - inject_Z downpayment
               / (inject_Z durationCount / inject_Z billingCount))).
Proof.
  eexists _, _, _. repeat split; try apply rounded_refl.
Qed.

(** With a whole number [n] of billings in the duration the quotient is not
    rounded, and the rounding of the share and of the rest is too small to
    reach the next integer. *)
Lemma recurringPrice_rounded_formula (price downpayment n billingCount r : Z) :
  billingCount <> 0 -> n <> 0 -> safeInteger n ->
  Z.abs (price * n) + 3 * Z.abs downpayment < 2 ^ 53 ->
  recurringPrice_rounded price downpayment (n * billingCount) billingCount r ->
  r = (price * n - downpayment) / n.
Proof.
  intros Hb Hn Sn Hbound (t1 & t2 & t3 & H1 & H2 & H3 & ->).
  pose proof (inject_Z_nonzero Hb) as Hb'.
  pose proof (inject_Z_nonzero Hn) as Hn'.
  assert (E1 : (t1 == inject_Z n)%Q).
  { apply (rounded_integer Sn) with (2 := H1).
    rewrite inject_Z_mult. field. exact Hb'. }
  assert (H2' : rounded (inject_Z downpayment / inject_Z n) t2).
  { apply rounded_wd with (2 := H2). rewrite E1. reflexivity. }
  clear H1 H2 E1 t1.
  destruct (Z.eq_dec (downpayment mod n) 0) as [Hmod | Hmod].
  - apply (Z.mod_divide _ _ Hn) in Hmod. destruct Hmod as [k Hk].
    assert (Sk : safeInteger k) by (unfold safeInteger; nia).
    assert (E2 : (t2 == inject_Z k)%Q).
    { apply (rounded_integer Sk) with (2 := H2').
      rewrite Hk, inject_Z_mult. field. exact Hn'. }
    assert (Sr : safeInteger (price - k)) by (unfold safeInteger; nia).
    assert (E3 : (t3 == inject_Z (price - k))%Q).
    { apply (rounded_integer Sr) with (2 := H3).
      rewrite E2. unfold Z.sub. rewrite inject_Z_plus, inject_Z_opp.
      reflexivity. }
    rewrite (Qfloor_integer E3). subst downpayment.
    replace (price * n - k * n) with ((price - k) * n) by ring.
    symmetry. apply Z.div_mul. exact Hn.
  - assert (Hnd : ~ (n | downpayment)).
    { intro D. apply Hmod. apply Z.mod_divide; assumption. }
    set (N := price * n - downpayment).
    assert (HN : ~ (n | N)).
    { intros [c Hc]. apply Hnd. exists (price - c). unfold N in Hc. lia. }
    destruct (@near_quotient N n t3 Hn HN) as [L U];
      [| apply Qfloor_between; assumption].
    pose proof (Qabs_quotient downpayment Hn) as A2.
    pose proof (Qabs_quotient N Hn) as AN.
    assert (EN : (inject_Z N / inject_Z n
                  == inject_Z price - inject_Z downpayment / inject_Z n)%Q).
    { unfold N, Z.sub. rewrite inject_Z_plus, inject_Z_opp, inject_Z_mult.
      field. exact Hn'. }
    destruct H2' as [D2 _]. destruct H3 as [D3 _].
    assert (T3 : (Qabs (inject_Z price - t2)
                  <= Qabs (inject_Z N / inject_Z n)
                     + Qabs (t2 - inject_Z downpayment / inject_Z n))%Q).
    { setoid_replace (inject_Z price - t2)%Q
        with (inject_Z N / inject_Z n
              + - (t2 - inject_Z downpayment / inject_Z n))%Q
        by (rewrite EN; ring).
      eapply Qle_trans; [apply Qabs_triangle |]. rewrite Qabs_opp.
      apply Qle_refl. }
    assert (T : (Qabs (t3 - inject_Z N / inject_Z n)
                 <= Qabs (t3 - (inject_Z price - t2))
                    + Qabs (t2 - inject_Z downpayment / inject_Z n))%Q).
    { setoid_replace (t3 - inject_Z N / inject_Z n)%Q
        with ((t3 - (inject_Z price - t2))
              + - (t2 - inject_Z downpayment / inject_Z n))%Q
        by (rewrite EN; ring).
      eapply Qle_trans; [apply Qabs_triangle |]. rewrite Qabs_opp.
      apply Qle_refl. }
    assert (BN : (inject_Z (Z.abs N)
                  <= inject_Z (Z.abs (price * n))
                     + inject_Z (Z.abs downpayment))%Q).
    { rewrite <- inject_Z_plus, <- Zle_Qle. unfold N. lia. }
    assert (BB : (inject_Z (Z.abs (price * n))
                  + 3 * inject_Z (Z.abs downpayment)
                  < 9007199254740992)%Q).
    { change 3%Q with (inject_Z 3).
      change 9007199254740992%Q with (inject_Z (2 ^ 53)).
      rewrite <- inject_Z_mult, <- inject_Z_plus, <- Zlt_Qlt. exact Hbound. }
    assert (P0 : (0 <= inject_Z (Z.abs downpayment))%Q).
    { change (inject_Z 0 <= inject_Z (Z.abs downpayment))%Q.
      rewrite <- Zle_Qle. lia. }
    assert (B0 : (1 <= inject_Z (Z.abs n))%Q).
    { change (inject_Z 1 <= inject_Z (Z.abs n))%Q.
      rewrite <- Zle_Qle. lia. }
    pose proof (Qabs_nonneg (inject_Z downpayment / inject_Z n)) as N2.
    pose proof (Qabs_nonneg (t2 - inject_Z downpayment / inject_Z n)) as N3.
    change roundoff with (1 # 9007199254740992)%Q in *.
    remember (Qabs (t3 - inject_Z N / inject_Z n)) as d eqn:E. clear E.
    remember (Qabs (t3 - (inject_Z price - t2))) as d3 eqn:E. clear E.
    remember (Qabs (t2 - inject_Z downpayment / inject_Z n)) as d2 eqn:E.
    clear E.
    remember (Qabs (inject_Z price - t2)) as a3 eqn:E. clear E.
    remember (Qabs (inject_Z N / inject_Z n)) as ay eqn:E. clear E.
    remember (Qabs (inject_Z downpayment / inject_Z n)) as a2 eqn:E. clear E.
    remember (inject_Z (Z.abs n)) as b eqn:E. clear E.
    remember (inject_Z (Z.abs N)) as an eqn:E. clear E.
    remember (inject_Z (Z.abs downpayment)) as p eqn:E. clear E.
    remember (inject_Z (Z.abs (price * n))) as pn eqn:E. clear E.
    clear - T3 T BN BB P0 B0 N2 N3 D2 D3 A2 AN.
    assert (C1 : (d * b <= (d3 + d2) * b)%Q) by nra.
    assert (C2 : (d2 * b <= (1 # 9007199254740992) * p)%Q) by nra.
    assert (C3 : (d3 * b <= (1 # 9007199254740992) * (a3 * b))%Q) by nra.
    assert (C4 : (a3 * b <= an + d2 * b)%Q) by nra.
    nra.
Qed.

(** An integer of 53 bits is a binary64 number. *)
Lemma binary64_ofZ (z : Z) : safeInteger z -> binary64 (ofZ z).
Proof.
  intro H. exists z, 0. split; [exact H |]. split; [lia |].
  simpl. symmetry. apply Qmult_1_r.
Qed.

Lemma finite_value (neg : bool) (q : Q) : (value (finite neg q) == q)%Q.
Proof.
  unfold finite. destruct (Z.eqb_spec (Qnum q) 0) as [E | _].
  - apply Qnum_zero in E. rewrite E. destruct neg; reflexivity.
  - apply Qred_correct.
Qed.

Lemma finite_is_finite (neg : bool) (q : Q) :
  is_nan (finite neg q) = false /\ is_infinite (finite neg q) = false.
Proof.
  unfold finite. destruct (Qnum q =? 0); [destruct neg |]; split; reflexivity.
Qed.

Lemma finite_is_integer (neg : bool) (q : Q) :
  is_integer (finite neg q) = true -> (q == inject_Z (Qfloor q))%Q.
Proof.
  unfold finite. destruct (Z.eqb_spec (Qnum q) 0) as [E | _].
  - intros _. apply Qnum_zero in E. rewrite E. reflexivity.
  - simpl. intro H. apply Qeq_bool_iff in H.
    rewrite (Qred_correct q) in H. exact H.
Qed.

(** A fraction of integers is an integer only when the division is exact. *)
Lemma Qdiv_integer (n m : Z) :
  m <> 0 ->
  (inject_Z n / inject_Z m == inject_Z (Qfloor (inject_Z n / inject_Z m)))%Q ->
  (m | n).
Proof.
  intros Hm H. rewrite <- Zdiv_Qdiv in H.
  exists (n / m).
  assert (Hm' : ~ (inject_Z m == 0)%Q)
    by (intro E; apply Hm; apply Qnum_zero in E; exact E).
  apply (Qmult_inj_r _ _ (inject_Z m)) in H; [| exact Hm'].
  unfold Qdiv in H. rewrite <- Qmult_assoc, (Qmult_comm (/ _)) in H.
  rewrite Qmult_inv_r, Qmult_1_r, <- inject_Z_mult in H by exact Hm'.
  unfold Qeq in H. simpl in H. lia.
Qed.

Lemma nonneg_Qle (q : Q) : nonneg (Fin q) = true <-> (0 <= q)%Q.
Proof. unfold nonneg, Qle. simpl. rewrite Z.leb_le. lia. Qed.

(** A whole, non-negative number of days times a finite, non-negative rate
    is not negative. *)
Lemma mul_nonneg (n : Z) (x : number) :
  0 <= n -> is_infinite x = false -> nonneg x = true ->
  nonneg (mul (ofZ n) x) = true.
Proof.
  intros Hn Hfin Hx. destruct x as [q | | | |]; try discriminate.
  - unfold mul, ofZ. simpl.
    replace (n <? 0) with false by (symmetry; apply Z.ltb_ge; exact Hn).
    replace (Qnum q <? 0) with false
      by (symmetry; apply Z.ltb_ge; simpl in Hx; apply Z.leb_le; exact Hx).
    simpl. rewrite finite_false. apply nonneg_Qle.
    change 0%Q with (Qred 0). apply Qred_le.
    apply Qmult_le_0_compat; [| apply nonneg_Qle; exact Hx].
    unfold Qle. simpl. lia.
  - unfold mul, ofZ, finite. simpl.
    rewrite Z.mul_0_r. simpl.
    replace (n <? 0) with false by (symmetry; apply Z.ltb_ge; exact Hn).
    reflexivity.
Qed.

Lemma calendarDaysBetween_nonneg (from to : Date) :
  from <= to -> 0 <= calendarDaysBetween from to.
Proof.
  intro H. unfold calendarDaysBetween, dayOf.
  assert (from / msPerDay <= to / msPerDay)
    by (apply Z.div_le_mono; [reflexivity | exact H]).
  lia.
Qed.

Lemma bind_returned {A B} (m : M A) (k : A -> M B) (w w' : World) (a : A) :
  m w = (Returned a, w') -> bind m k w = k a w'.
Proof. intro H. unfold bind. rewrite H. reflexivity. Qed.

Lemma bind_thrown {A B} (m : M A) (k : A -> M B) (w w' : World)
    (e : Error) :
  m w = (Thrown e, w') -> bind m k w = (Thrown e, w').
Proof. intro H. unfold bind. rewrite H. reflexivity. Qed.

Lemma subscriptions_created_app (cs cs' : list Call) :
  subscriptions_created (cs ++ cs')
  = subscriptions_created cs ++ subscriptions_created cs'.
Proof.
  induction cs as [| c cs IH]; simpl; [reflexivity |].
  destruct c; simpl; rewrite IH; reflexivity.
Qed.

Lemma filter_changes_state_log (cs : list Call) (l : LogLevel)
    (m : LogMessage) :
  filter changes_state (cs ++ [LoggerCall l m]) = filter changes_state cs.
Proof. rewrite filter_app. simpl. apply app_nil_r. Qed.

(** ** Properties of the service *)

Ltac tidy :=
  repeat rewrite subscriptions_created_app; simpl;
  repeat rewrite app_nil_r; repeat rewrite <- app_assoc; simpl.

(** Open the body of the loop, keeping the calculator folded. *)
Ltac line_open :=
  unfold createSubscriptionsForLine, createSubscriptionsForLineWith;
  repeat match goal with
         | |- context [getSubscriptionPricingWith ?t (util_of ?t) ?c ?i ?v] =>
             change (getSubscriptionPricingWith t (util_of t) c i v)
               with (getSubscriptionPricing t c i v)
         end.

Ltac run :=
  unfold outcome, after, getSubscriptionPricing, getSubscriptionPricingWith,
    util_of, getSchedule, pricedVariant, bind, ret, throw, call, newDate
    in *;
  simpl in *.

Section Properties.

Variable StartDate : Type.
Variable this : Service StartDate.

Implicit Types (ctx : RequestContext) (input : option PricingInput.t)
  (variant : option Variant.t) (v : Variant.t) (s : Schedule.t StartDate)
  (w : World) (p : Pricing.t).

(** The calculator only reads the clock of the world. *)
Lemma getSubscriptionPricing_clock ctx input variant w :
  clock (after (getSubscriptionPricing this ctx input variant) w) = clock w.
Proof.
  run.
  destruct variant as [v |]; simpl.
  - destruct (scheduleOf this v) as [s |]; simpl; [| reflexivity].
    destruct (Interval_eqb _ _); reflexivity.
  - destruct (input_productVariantId input) as [i |]; simpl;
      [| reflexivity].
    destruct (ID_truthy i); simpl; [| reflexivity].
    destruct (variantService_findOne this ctx i) as [v |]; simpl;
      [| reflexivity].
    destruct (scheduleOf this v) as [s |]; simpl; [| reflexivity].
    destruct (Interval_eqb _ _); reflexivity.
Qed.

(** Given the variant, the calculator calls nothing. *)
Lemma getSubscriptionPricing_given ctx input v w :
  after (getSubscriptionPricing this ctx input (Some v)) w = w.
Proof.
  run.
  destruct (scheduleOf this v) as [s |]; simpl; [| reflexivity].
  destruct (Interval_eqb _ _); reflexivity.
Qed.

(** What the calculator returns once the variant and its schedule are
    known and the intervals agree. *)
Lemma getSubscriptionPricing_returns ctx input variant w v s :
  pricedVariant this ctx input variant = Some v ->
  scheduleOf this v = Some s ->
  Schedule.billingInterval s = Schedule.durationInterval s ->
  exists p,
    outcome (getSubscriptionPricing this ctx input variant) w = Returned p
    /\ Pricing.downpayment p = effective_downpayment input s
    /\ Pricing.recurringPrice p
       = floor (sub (ofZ (Variant.price v))
                    (div (ofZ (effective_downpayment input s))
                         (billingsPerDuration s)))
    /\ Pricing.interval p = Schedule.billingInterval s
    /\ Pricing.intervalCount p = Schedule.billingCount s.
Proof.
  intros Hv Hs Hi. apply Interval_eqb_eq in Hi.
  run.
  destruct variant as [v' |]; simpl in *.
  - injection Hv as ->. rewrite Hs. simpl. rewrite Hi. simpl.
    eexists. repeat split.
  - destruct (input_productVariantId input) as [i |]; [| discriminate].
    destruct (ID_truthy i); [| discriminate]. simpl.
    rewrite Hv. simpl. rewrite Hs. simpl. rewrite Hi. simpl.
    eexists. repeat split.
Qed.

(** Every quote the calculator returns is the quote of a variant, of the
    schedule found for it and of the clock. *)
Lemma getSubscriptionPricing_inv ctx input variant w p :
  outcome (getSubscriptionPricing this ctx input variant) w = Returned p ->
  exists v s,
    pricedVariant this ctx input variant = Some v
    /\ scheduleOf this v = Some s
    /\ Schedule.billingInterval s = Schedule.durationInterval s
    /\ Pricing.subscriptionStartDate p
       = getNextStartDate this (clock w) (Schedule.billingInterval s)
           (Schedule.startDate s)
    /\ Pricing.proratedDays p
       = getDaysUntilNextStartDate this
           (match input_startDate input with
            | Some d => d
            | None => clock w
            end)
           (Pricing.subscriptionStartDate p)
    /\ Pricing.totalProratedAmount p
       = mul (Pricing.proratedDays p) (Pricing.dayRate p)
    /\ Pricing.amountDueNow p
       = add (ofZ (Pricing.downpayment p)) (Pricing.totalProratedAmount p).
Proof.
  run.
  destruct variant as [v |]; simpl.
  - destruct (scheduleOf this v) as [s |] eqn:Hs; simpl; [| discriminate].
    destruct (Interval_eqb _ _) eqn:Hi; simpl; [| discriminate].
    intro H. injection H as <-. exists v, s. simpl.
    apply Interval_eqb_eq in Hi. repeat split; auto.
  - destruct (input_productVariantId input) as [i |]; simpl;
      [| discriminate].
    destruct (ID_truthy i); simpl; [| discriminate].
    destruct (variantService_findOne this ctx i) as [v |]; simpl;
      [| discriminate].
    destruct (scheduleOf this v) as [s |] eqn:Hs; simpl; [| discriminate].
    destruct (Interval_eqb _ _) eqn:Hi; simpl; [| discriminate].
    intro H. injection H as <-. exists v, s. simpl.
    apply Interval_eqb_eq in Hi. repeat split; auto.
Qed.

(** *** The calculator *)

(** C1. Two calls of the calculator with the same input and variant, from
    two worlds whose clocks show the same [now], have the same outcome: the
    same quote in every field, or the same error. Nothing else of the world
    is read, and a call leaves the clock as it found it. *)
Theorem getSubscriptionPricing_deterministic ctx input variant w1 w2 :
  clock w1 = clock w2 ->
  outcome (getSubscriptionPricing this ctx input variant) w1
  = outcome (getSubscriptionPricing this ctx input variant) w2
  /\ clock (after (getSubscriptionPricing this ctx input variant) w1)
     = clock w1.
Proof.
  intro Hnow. split; [| apply getSubscriptionPricing_clock].
  run.
  destruct variant as [v |]; simpl.
  - destruct (scheduleOf this v) as [s |]; simpl; [| reflexivity].
    destruct (Interval_eqb _ _); simpl; [| reflexivity].
    rewrite Hnow. reflexivity.
  - destruct (input_productVariantId input) as [i |]; simpl;
      [| reflexivity].
    destruct (ID_truthy i); simpl; [| reflexivity].
    destruct (variantService_findOne this ctx i) as [v |]; simpl;
      [| reflexivity].
    destruct (scheduleOf this v) as [s |]; simpl; [| reflexivity].
    destruct (Interval_eqb _ _); simpl; [| reflexivity].
    rewrite Hnow. reflexivity.
Qed.

(** C2. When the schedule of the priced variant has a billing interval
    other than its duration interval, the calculator throws the
    not-implemented error and returns no quote, and it does so before it
    computes anything: whatever [getDayRate], [getNextStartDate],
    [getDaysUntilNextStartDate] and [new Date()] would do when run, be it
    throw, call or log, the outcome is that error and the world is as it was
    after the variant was found. None of them is run. *)
Theorem getSubscriptionPricing_mixed_intervals (util : Util.t StartDate) ctx
    input variant w v s :
  pricedVariant this ctx input variant = Some v ->
  scheduleOf this v = Some s ->
  Schedule.billingInterval s <> Schedule.durationInterval s ->
  getSubscriptionPricingWith this util ctx input variant w
  = (Thrown NotImplementedIntervals,
     match variant with
     | Some _ => w
     | None =>
         {| clock := clock w;
            calls :=
              calls w ++ [VariantFindOne ctx (input_productVariantId input)]
         |}
     end)
  /\ outcome (getSubscriptionPricing this ctx input variant) w
     = Thrown NotImplementedIntervals.
Proof.
  intros Hv Hs Hi. apply Interval_eqb_neq in Hi.
  assert (Hany : forall u,
             getSubscriptionPricingWith this u ctx input variant w
             = (Thrown NotImplementedIntervals,
                match variant with
                | Some _ => w
                | None =>
                    {| clock := clock w;
                       calls :=
                         calls w
                         ++ [VariantFindOne ctx
                               (input_productVariantId input)] |}
                end)).
  { intro u.
    unfold getSubscriptionPricingWith, getSchedule, pricedVariant, bind, ret,
      throw, call in *.
    destruct variant as [v' |]; simpl in *.
    - injection Hv as ->. rewrite Hs. simpl. rewrite Hi. reflexivity.
    - destruct (input_productVariantId input) as [i |]; [| discriminate].
      destruct (ID_truthy i); [| discriminate]. simpl.
      rewrite Hv. simpl. rewrite Hs. simpl. rewrite Hi. reflexivity. }
  split; [apply Hany |].
  unfold outcome, getSubscriptionPricing. rewrite Hany. reflexivity.
Qed.


(** C4, amended. For a schedule with equal intervals and with
    [billingCount] equal to [durationCount] and not 0, and for a price and
    a downpayment that are safe integers with a safe difference, the
    recurring price is the variant's price less the downpayment. Every
    number on the way is a binary64 number, so nothing is rounded: the
    quotient of the counts is 1, the downpayment divided by it is the
    downpayment, and the difference is an integer of 53 bits. The price less
    the downpayment is therefore the one result binary64 has for
    [Math.floor(price - downpayment / (durationCount / billingCount))]. *)
Theorem getSubscriptionPricing_recurringPrice ctx input variant w v s :
  pricedVariant this ctx input variant = Some v ->
  scheduleOf this v = Some s ->
  Schedule.billingInterval s = Schedule.durationInterval s ->
  Schedule.billingCount s = Schedule.durationCount s ->
  Schedule.billingCount s <> 0 ->
  safeInteger (Schedule.billingCount s) ->
  safeInteger (Variant.price v) ->
  safeInteger (effective_downpayment input s) ->
  safeInteger (Variant.price v - effective_downpayment input s) ->
  exists p,
    outcome (getSubscriptionPricing this ctx input variant) w = Returned p
    /\ Pricing.recurringPrice p
       = ofZ (Variant.price v - Pricing.downpayment p)
    /\ (let quotient := billingsPerDuration s in
        let share := div (ofZ (Pricing.downpayment p)) quotient in
        let rest := sub (ofZ (Variant.price v)) share in
        quotient = ofZ 1
        /\ share = ofZ (Pricing.downpayment p)
        /\ rest = ofZ (Variant.price v - Pricing.downpayment p)
        /\ Pricing.recurringPrice p = floor rest
        /\ Forall binary64
             [ofZ (Schedule.durationCount s); ofZ (Schedule.billingCount s);
              quotient; ofZ (Pricing.downpayment p); share;
              ofZ (Variant.price v); rest; Pricing.recurringPrice p])
    /\ (forall r,
          recurringPrice_rounded (Variant.price v) (Pricing.downpayment p)
            (Schedule.durationCount s) (Schedule.billingCount s) r
          <-> r = Variant.price v - Pricing.downpayment p).
Proof.
  intros Hv Hs Hi Hc Hnz Sc Sp Sd Sr.
  destruct (@getSubscriptionPricing_returns ctx input variant w v s
              Hv Hs Hi) as (p & Hp & Hd & Hr & _).
  assert (Hq : billingsPerDuration s = ofZ 1).
  { unfold billingsPerDuration. rewrite <- Hc. apply (div_self Hnz). }
  assert (Hrest : sub (ofZ (Variant.price v))
                    (div (ofZ (effective_downpayment input s))
                         (billingsPerDuration s))
                  = ofZ (Variant.price v - effective_downpayment input s)).
  { rewrite Hq, div_one. apply sub_integers. }
  assert (Hprice : Pricing.recurringPrice p
                   = ofZ (Variant.price v - effective_downpayment input s)).
  { rewrite Hr, Hrest. apply floor_integer. }
  assert (Hone : forall r,
             recurringPrice_rounded (Variant.price v)
               (effective_downpayment input s)
               (Schedule.durationCount s) (Schedule.billingCount s) r ->
             r = Variant.price v - effective_downpayment input s).
  { intros r Hrun. rewrite <- Hc in Hrun.
    apply (recurringPrice_rounded_same Hnz Sd Sr Hrun). }
  exists p. split; [exact Hp |]. rewrite Hd.
  split; [exact Hprice |]. split.
  - cbv zeta.
    split; [exact Hq |].
    split; [rewrite Hq; apply div_one |].
    split; [exact Hrest |].
    split; [rewrite Hr; reflexivity |].
    rewrite Hrest, Hprice, Hq, div_one, <- Hc.
    repeat constructor; apply binary64_ofZ; try assumption.
    reflexivity.
  - intro r. split; [apply Hone |]. intros ->.
    rewrite <- (Hone _ (recurringPrice_rounded_exact _ _ _ _)).
    apply recurringPrice_rounded_exact.
Qed.

(** C5. The three failures of the calculator before it prices.
    - With no variant and no [input.productVariantId] (or a falsy one) it
      throws at once, having called nothing.
    - With an id for which [variantService.findOne] finds nothing it throws
      the not-found [UserInputError] after that one look-up.
    - With a variant whose schedule name matches no schedule, [getSchedule]
      and with it the calculator throw "no schedule found", having called
      nothing.
    No look-up is repeated and nothing is called after the failure. *)
Theorem getSubscriptionPricing_failures ctx input w :
  ((forall i, input_productVariantId input = Some i ->
              ID_truthy i = false) ->
   getSubscriptionPricing this ctx input None w
   = (Thrown EitherVariantOrIdNeeded, w))
  /\ (forall i,
        input_productVariantId input = Some i ->
        ID_truthy i = true ->
        variantService_findOne this ctx i = None ->
        getSubscriptionPricing this ctx input None w
        = (Thrown (NoVariantFound (Some i)),
           {| clock := clock w;
              calls := calls w ++ [VariantFindOne ctx (Some i)] |})
        /\ isUserInputError (NoVariantFound (Some i)) = true)
  /\ (forall v,
        scheduleOf this v = None ->
        let e :=
          NoScheduleFound
            (Variant.subscriptionSchedule (Variant.customFields v)) in
        getSchedule this v w = (Thrown e, w)
        /\ getSubscriptionPricing this ctx input (Some v) w = (Thrown e, w)).
Proof.
  split; [| split].
  - intro Hid. run.
    destruct (input_productVariantId input) as [i |]; [| reflexivity].
    rewrite (Hid i eq_refl). reflexivity.
  - intros i Hid Hi Hnone. split; [| reflexivity]. run.
    rewrite Hid. simpl. rewrite Hi. simpl. rewrite Hnone. reflexivity.
  - intros v Hnone e. run. rewrite Hnone. split; reflexivity.
Qed.

(** C6, amended. [billingsPerDuration] is the quotient of the numbers
    [durationCount] and [billingCount], not an integer division. For safe
    integer counts, a [billingCount] other than 0 that does not divide
    [durationCount] gives a finite number that is no integer: it lies
    strictly between the truncated quotient and the next integer, and so
    does every number that is the quotient up to the rounding of binary64.
    Nothing is truncated. There is no check of the remainder either: with
    equal intervals the calculator returns a quote. *)
Theorem billingsPerDuration_not_truncated s :
  Schedule.billingCount s <> 0 ->
  safeInteger (Schedule.durationCount s) ->
  safeInteger (Schedule.billingCount s) ->
  ~ (Schedule.billingCount s | Schedule.durationCount s) ->
  is_nan (billingsPerDuration s) = false
  /\ is_infinite (billingsPerDuration s) = false
  /\ is_integer (billingsPerDuration s) = false
  /\ (inject_Z (Schedule.durationCount s / Schedule.billingCount s)
      < value (billingsPerDuration s)
      /\ value (billingsPerDuration s)
         < inject_Z (Schedule.durationCount s / Schedule.billingCount s)
           + 1)%Q
  /\ rounded (inject_Z (Schedule.durationCount s)
              / inject_Z (Schedule.billingCount s))
       (value (billingsPerDuration s))
  /\ (forall y : Q,
        rounded (inject_Z (Schedule.durationCount s)
                 / inject_Z (Schedule.billingCount s)) y ->
        (inject_Z (Schedule.durationCount s / Schedule.billingCount s) < y
         /\ y < inject_Z (Schedule.durationCount s
                          / Schedule.billingCount s) + 1)%Q)
  /\ Forall binary64
       [ofZ (Schedule.durationCount s); ofZ (Schedule.billingCount s)]
  /\ (forall ctx input variant w v,
        pricedVariant this ctx input variant = Some v ->
        scheduleOf this v = Some s ->
        Schedule.billingInterval s = Schedule.durationInterval s ->
        exists p,
          outcome (getSubscriptionPricing this ctx input variant) w
          = Returned p).
Proof.
  intros Hnz Sd Sb Hdiv.
  assert (E : exists neg,
             billingsPerDuration s
             = finite neg (inject_Z (Schedule.durationCount s)
                           / inject_Z (Schedule.billingCount s))).
  { unfold billingsPerDuration, div, ofZ. simpl.
    destruct (Z.eqb_spec (Schedule.billingCount s) 0) as [E | _];
      [contradiction |].
    eexists. reflexivity. }
  destruct E as [neg E]. rewrite E.
  destruct (finite_is_finite neg
              (inject_Z (Schedule.durationCount s)
               / inject_Z (Schedule.billingCount s))) as [Hnan Hinf].
  assert (Hnear : forall y : Q,
             rounded (inject_Z (Schedule.durationCount s)
                      / inject_Z (Schedule.billingCount s)) y ->
             (inject_Z (Schedule.durationCount s / Schedule.billingCount s)
              < y
              /\ y < inject_Z (Schedule.durationCount s
                               / Schedule.billingCount s) + 1)%Q).
  { intros y Hy. apply (near_quotient Hnz Hdiv).
    apply (rounded_near Hnz Sd Hy). }
  assert (Hexact : rounded (inject_Z (Schedule.durationCount s)
                            / inject_Z (Schedule.billingCount s))
                     (value (finite neg
                               (inject_Z (Schedule.durationCount s)
                                / inject_Z (Schedule.billingCount s))))).
  { split.
    - rewrite finite_value.
      setoid_replace (inject_Z (Schedule.durationCount s)
                      / inject_Z (Schedule.billingCount s)
                      - inject_Z (Schedule.durationCount s)
                        / inject_Z (Schedule.billingCount s))%Q
        with 0%Q by ring.
      apply Qmult_le_0_compat; [discriminate | apply Qabs_nonneg].
    - intros _ _ _. apply finite_value. }
  split; [exact Hnan |]. split; [exact Hinf |]. split.
  { destruct (is_integer (finite neg _)) eqn:Hint; [| reflexivity].
    exfalso. apply Hdiv.
    apply Qdiv_integer; [exact Hnz |].
    apply (finite_is_integer _ _ Hint). }
  split; [apply Hnear; exact Hexact |].
  split; [exact Hexact |].
  split; [exact Hnear |].
  split; [repeat constructor; apply binary64_ofZ; assumption |].
  intros ctx input variant w v Hv Hs Hi.
  destruct (@getSubscriptionPricing_returns ctx input variant w v s
              Hv Hs Hi) as (p & Hp & _).
  exists p. exact Hp.
Qed.

(** C7. In every quote the calculator returns, the amount due now is the
    quote's downpayment plus its total prorated amount, and the total
    prorated amount is its prorated days times its day rate. *)
Theorem getSubscriptionPricing_amountDueNow ctx input variant w p :
  outcome (getSubscriptionPricing this ctx input variant) w = Returned p ->
  Pricing.amountDueNow p
  = add (ofZ (Pricing.downpayment p)) (Pricing.totalProratedAmount p)
  /\ Pricing.totalProratedAmount p
     = mul (Pricing.proratedDays p) (Pricing.dayRate p).
Proof.
  intro Hp.
  destruct (getSubscriptionPricing_inv _ _ _ _ Hp)
    as (v & s & _ & _ & _ & _ & _ & Ht & Ha).
  split; assumption.
Qed.

(** *** The webhook *)

(** C9. For an event of any type but ['setup_intent.succeeded'] the handler
    returns without throwing, and the one call it makes is the info line
    of the logger: no job is added, no order changes state, no payment is
    added, no history entry is written. *)
Theorem handlePaymentCompleteEvent_other_type event signature
    rawBodyPayload w :
  Webhook.type event <> "setup_intent.succeeded"%string ->
  let handle :=
    handlePaymentCompleteEvent this event signature rawBodyPayload in
  outcome handle w = Returned tt
  /\ clock (after handle w) = clock w
  /\ calls (after handle w)
     = calls w ++ [LoggerCall Info (NotProcessingEvent (Webhook.type event))]
  /\ filter changes_state (calls (after handle w))
     = filter changes_state (calls w).
Proof.
  intros Htype handle. subst handle.
  unfold outcome, after, handlePaymentCompleteEvent.
  destruct (String.eqb_spec (Webhook.type event) "setup_intent.succeeded")
    as [E | _]; [contradiction |].
  simpl. repeat split. apply filter_changes_state_log.
Qed.

(** *** Creating the subscriptions *)

(** C10. For an order line whose quote is [pricing]:
    - with a downpayment of 0 the one subscription asked of Stripe is the
      recurring, prorated one;
    - with another downpayment, and the recurring subscription created, a
      second one is asked for: the downpayment subscription, not prorated,
      with the schedule's [durationInterval] and [durationCount];
    - when creating the recurring subscription fails, it stays the only one
      asked for. *)
Theorem createSubscriptionsForLine_subscriptions ctx client order productId
    stripeCustomerId stripePaymentMethodId orderLine w pricing :
  outcome (getSubscriptionPricing this ctx None
             (Some (productVariant orderLine))) w = Returned pricing ->
  let w' :=
    after (createSubscriptionsForLine this ctx client order productId
             stripeCustomerId stripePaymentMethodId orderLine) w in
  let recurring :=
    recurringSubscription order productId stripeCustomerId
      stripePaymentMethodId orderLine pricing in
  Subscription.proration recurring = true
  /\ (Pricing.downpayment pricing = 0 ->
      subscriptions_created (calls w')
      = subscriptions_created (calls w) ++ [recurring])
  /\ (Pricing.downpayment pricing <> 0 ->
      forall id,
        stripe_createOffSessionSubscription this client recurring
        = Returned id ->
        exists s downpayment,
          scheduleOf this (productVariant orderLine) = Some s
          /\ downpayment
             = downpaymentSubscription order productId stripeCustomerId
                 stripePaymentMethodId s pricing
          /\ Subscription.proration downpayment = false
          /\ Subscription.interval downpayment
             = Schedule.durationInterval s
          /\ Subscription.intervalCount downpayment
             = Schedule.durationCount s
          /\ subscriptions_created (calls w')
             = subscriptions_created (calls w) ++ [recurring; downpayment])
  /\ (forall e,
        stripe_createOffSessionSubscription this client recurring
        = Thrown e ->
        subscriptions_created (calls w')
        = subscriptions_created (calls w) ++ [recurring]).
Proof.
  intros Hp w' recurring.
  destruct (getSubscriptionPricing_inv _ _ _ _ Hp)
    as (v & s & Hv & Hs & _).
  simpl in Hv. injection Hv as <-.
  assert (Hrun :
            getSubscriptionPricing this ctx None
              (Some (productVariant orderLine)) w = (Returned pricing, w)).
  { rewrite (surjective_pairing (getSubscriptionPricing _ _ _ _ _)).
    f_equal; [exact Hp | apply getSubscriptionPricing_given]. }
  split; [reflexivity |].
  subst w'. unfold after. line_open.
  rewrite (@bind_returned _ _ _ _ _ _ _ Hrun).
  fold recurring. clearbody recurring.
  unfold try_catch, createOffSessionSubscription, logOrderHistory,
    getSchedule, bind, call, ret, throw.
  rewrite Hs. simpl.
  destruct (stripe_createOffSessionSubscription this client recurring)
    as [id | e] eqn:Hr; simpl.
  - split; [| split].
    + intro Hzero. rewrite Hzero. simpl. tidy. reflexivity.
    + intros Hnz id' _.
      destruct (Z.eqb_spec (Pricing.downpayment pricing) 0) as [E | _];
        [contradiction |].
      simpl. exists s. eexists. split; [reflexivity |].
      split; [reflexivity |]. repeat split.
      destruct (stripe_createOffSessionSubscription this client
                  (downpaymentSubscription _ _ _ _ _ _));
        simpl; tidy; reflexivity.
    + discriminate.
  - split; [| split].
    + intros _. tidy. reflexivity.
    + discriminate.
    + intros _ _. tidy. reflexivity.
Qed.

End Properties.

(** With the day count of the spec the days are counted from
    [input.startDate] when the input has one: a start date on a later day
    than the subscription's makes them negative, whatever the service. *)
Lemma proratedDays_counted_from_input (StartDate : Type)
    (this : Service StartDate) (ctx : RequestContext)
    (input : option PricingInput.t) (variant : option Variant.t) (w : World)
    (p : Pricing.t) (d : Date) :
  outcome (getSubscriptionPricing (withCalendarDays this) ctx input variant)
    w = Returned p ->
  input_startDate input = Some d ->
  dayOf (Pricing.subscriptionStartDate p) < dayOf d ->
  nonneg (Pricing.proratedDays p) = false.
Proof.
  intros Hp Hd Hlt.
  destruct (getSubscriptionPricing_inv _ _ _ _ _ Hp)
    as (v & s & _ & _ & _ & _ & Hdays & _).
  rewrite Hd in Hdays. simpl in Hdays. rewrite Hdays.
  apply Z.leb_gt. simpl. unfold calendarDaysBetween. lia.
Qed.

(** C8, amended. With the day count of the spec: when the date the days
    are counted from, [input.startDate] if the input has one and [now]
    otherwise, is on or before the subscription's start date, the prorated
    days are not negative, and neither is the total prorated amount for a
    finite day rate that is not negative. *)
Theorem getSubscriptionPricing_proratedDays (StartDate : Type)
    (this : Service StartDate) (ctx : RequestContext)
    (input : option PricingInput.t) (variant : option Variant.t) (w : World)
    (p : Pricing.t) :
  outcome (getSubscriptionPricing (withCalendarDays this) ctx input variant)
    w = Returned p ->
  match input_startDate input with
  | Some d => d
  | None => clock w
  end <= Pricing.subscriptionStartDate p ->
  nonneg (Pricing.proratedDays p) = true
  /\ (is_infinite (Pricing.dayRate p) = false ->
      nonneg (Pricing.dayRate p) = true ->
      nonneg (Pricing.totalProratedAmount p) = true).
Proof.
  intros Hp Hle.
  destruct (getSubscriptionPricing_inv _ _ _ _ _ Hp)
    as (v & s & _ & _ & _ & _ & Hd & Ht & _).
  simpl in Hd. apply calendarDaysBetween_nonneg in Hle.
  split.
  - rewrite Hd. apply Z.leb_le. exact Hle.
  - intros Hfin Hrate. rewrite Ht, Hd. apply mul_nonneg; assumption.
Qed.


(** ** The service at work in the shop *)

Local Open Scope string_scope.

(** The quote of the spec's monthly example, a day before the start. *)
Example monthly_quote :
  outcome (getSubscriptionPricing Shop.service Shop.ctx None
             (Some Shop.monthlyBox)) Shop.world
  = Returned
      {| Pricing.downpayment := 0;
         Pricing.totalProratedAmount := ofZ 400;
         Pricing.proratedDays := ofZ 1;
         Pricing.dayRate := ofZ 400;
         Pricing.recurringPrice := ofZ 12000;
         Pricing.interval := Month;
         Pricing.intervalCount := 1;
         Pricing.amountDueNow := ofZ 400;
         Pricing.subscriptionStartDate := 20001 * msPerDay |}.
Proof. reflexivity. Qed.

(** A completed setup intent adds the job, moves the order and adds the
    payment. *)
Example setup_intent_succeeded :
  filter changes_state
    (calls (after (handlePaymentCompleteEvent Shop.service
                     (Shop.webhook "setup_intent.succeeded") None Shop.payload)
              Shop.world))
  = [ JobQueueAdd
        {| action := "createSubscriptionsForOrder";
           ctx := Shop.ctx;
           job_orderCode := "ORDER10";
           stripeCustomerId := "cus_1";
           stripePaymentMethodId := "pm_1" |} 1;
      TransitionToState Shop.ctx (IdNum 10) "ArrangingPayment";
      AddPaymentToOrder Shop.ctx (IdNum 10) "stripe-subscription-1" "seti_1"
        (Some "12000") ].
Proof. reflexivity. Qed.

(** The order of the shop has a line without and a line with a downpayment:
    three subscriptions. *)
Example createSubscriptions_order :
  map (fun a => (Subscription.amount a, Subscription.intervalCount a,
                 Subscription.proration a))
    (subscriptions_created
       (calls (after (createSubscriptions Shop.service Shop.ctx "ORDER10"
                        "cus_1" "pm_1") Shop.world)))
  = [ (ofZ 12000, 1, true); (ofZ 5683, 1, true); (ofZ 19900, 6, false) ].
Proof. reflexivity. Qed.

(** With equal intervals the helpers are run: the first one that throws
    ends the calculator. *)
Example broken_helpers_are_run :
  outcome (getSubscriptionPricingWith Shop.service Desk.brokenUtil Shop.ctx
             None (Some Shop.monthlyBox)) Shop.world
  = Thrown (UtilError "getDayRate").
Proof. reflexivity. Qed.

(** *** Witnesses and counterexamples *)

Lemma getSubscriptionPricing_deterministic_witness :
  clock Shop.world = clock Shop.busy
  /\ outcome (getSubscriptionPricing Shop.service Shop.ctx (Some (Shop.byId 2))
                None) Shop.world
     = outcome (getSubscriptionPricing Shop.service Shop.ctx
                  (Some (Shop.byId 2)) None) Shop.busy.
Proof.
  split; [reflexivity |].
  apply (@getSubscriptionPricing_deterministic unit Shop.service Shop.ctx
           (Some (Shop.byId 2)) None Shop.world Shop.busy).
  reflexivity.
Defined.

Lemma getSubscriptionPricing_mixed_intervals_witness :
  Schedule.billingInterval Shop.mixed <> Schedule.durationInterval Shop.mixed
  /\ getSubscriptionPricingWith Shop.service Desk.brokenUtil Shop.ctx None
       (Some Shop.mixedBox) Shop.world
     = (Thrown NotImplementedIntervals, Shop.world)
  /\ outcome (getSubscriptionPricing Shop.service Shop.ctx None
                (Some Shop.mixedBox)) Shop.world
     = Thrown NotImplementedIntervals.
Proof.
  assert (H : Schedule.billingInterval Shop.mixed
              <> Schedule.durationInterval Shop.mixed) by discriminate.
  split; [exact H |].
  apply (@getSubscriptionPricing_mixed_intervals unit Shop.service
           Desk.brokenUtil Shop.ctx None (Some Shop.mixedBox) Shop.world
           Shop.mixedBox Shop.mixed);
    [reflexivity | reflexivity | exact H].
Defined.


Lemma getSubscriptionPricing_recurringPrice_witness :
  Schedule.billingCount Shop.monthly = Schedule.durationCount Shop.monthly
  /\ Schedule.billingCount Shop.monthly <> 0
  /\ safeInteger (Variant.price Shop.monthlyBox)
  /\ safeInteger
       (effective_downpayment (Some (Desk.paying 2000)) Shop.monthly)
  /\ exists p,
       outcome (getSubscriptionPricing Shop.service Shop.ctx
                  (Some (Desk.paying 2000)) (Some Shop.monthlyBox))
         Shop.world
       = Returned p
       /\ Pricing.downpayment p = 2000
       /\ Pricing.recurringPrice p = ofZ 10000
       /\ forall r,
            recurringPrice_rounded 12000 2000 1 1 r <-> r = 10000.
Proof.
  assert (H : Schedule.billingCount Shop.monthly <> 0) by discriminate.
  split; [reflexivity |]. split; [exact H |].
  split; [reflexivity |]. split; [reflexivity |].
  destruct (@getSubscriptionPricing_recurringPrice unit Shop.service Shop.ctx
              (Some (Desk.paying 2000)) (Some Shop.monthlyBox) Shop.world
              Shop.monthlyBox Shop.monthly
              eq_refl eq_refl eq_refl eq_refl H
              eq_refl eq_refl eq_refl eq_refl)
    as (p & Hp & Hr & _ & Hall).
  exists p. split; [exact Hp |].
  assert (Hd : Pricing.downpayment p = 2000).
  { vm_compute in Hp. injection Hp as <-. reflexivity. }
  rewrite Hd in Hr, Hall.
  split; [exact Hd |]. split; [exact Hr |]. exact Hall.
Defined.

(** C4 as stated fails for a schedule whose two counts are 0: the quotient
    0 / 0 is NaN, and so is the recurring price. *)
Lemma getSubscriptionPricing_recurringPrice_counterexample :
  ~ (forall (this : Service unit) ctx input variant w v s p,
       pricedVariant this ctx input variant = Some v ->
       scheduleOf this v = Some s ->
       Schedule.billingInterval s = Schedule.durationInterval s ->
       Schedule.billingCount s = Schedule.durationCount s ->
       outcome (getSubscriptionPricing this ctx input variant) w
       = Returned p ->
       Pricing.recurringPrice p
       = ofZ (Variant.price v - Pricing.downpayment p)).
Proof.
  intro H.
  specialize (H Shop.service Shop.ctx None (Some Shop.countlessBox)
                Shop.world Shop.countlessBox Shop.countless _
                eq_refl eq_refl eq_refl eq_refl eq_refl).
  discriminate H.
Qed.

Lemma getSubscriptionPricing_failures_witness :
  getSubscriptionPricing Shop.service Shop.ctx None None Shop.world
  = (Thrown EitherVariantOrIdNeeded, Shop.world)
  /\ getSubscriptionPricing Shop.service Shop.ctx (Some (Shop.byId 9)) None
       Shop.world
     = (Thrown (NoVariantFound (Some (IdNum 9))),
        {| clock := Shop.noon;
           calls := [VariantFindOne Shop.ctx (Some (IdNum 9))] |})
  /\ getSubscriptionPricing Shop.service Shop.ctx None (Some Shop.strayBox)
       Shop.world
     = (Thrown (NoScheduleFound (Some "weekly")), Shop.world).
Proof.
  split; [| split].
  - apply (proj1 (@getSubscriptionPricing_failures unit Shop.service Shop.ctx
                    None Shop.world)).
    intros i Hi. discriminate Hi.
  - apply (proj1 (proj2 (@getSubscriptionPricing_failures unit Shop.service
                           Shop.ctx (Some (Shop.byId 9)) Shop.world))
             (IdNum 9)); reflexivity.
  - apply (proj2 (proj2 (@getSubscriptionPricing_failures unit Shop.service
                           Shop.ctx None Shop.world))
             Shop.strayBox). reflexivity.
Defined.

Lemma billingsPerDuration_not_truncated_witness :
  Schedule.billingCount Shop.uneven <> 0
  /\ ~ (Schedule.billingCount Shop.uneven
        | Schedule.durationCount Shop.uneven)
  /\ is_integer (billingsPerDuration Shop.uneven) = false
  /\ (inject_Z (3 / 2) < value (billingsPerDuration Shop.uneven)
      /\ value (billingsPerDuration Shop.uneven) < inject_Z (3 / 2) + 1)%Q.
Proof.
  assert (H : Schedule.billingCount Shop.uneven <> 0) by discriminate.
  assert (D : ~ (Schedule.billingCount Shop.uneven
                 | Schedule.durationCount Shop.uneven)).
  { intros [k Hk]. simpl in Hk. lia. }
  destruct (@billingsPerDuration_not_truncated unit Shop.service Shop.uneven
              H eq_refl eq_refl D)
    as (_ & _ & Hi & Hv & _).
  split; [exact H |]. split; [exact D |]. split; [exact Hi |]. exact Hv.
Defined.

(** C6 as stated fails for 3 months paid every 2: the quotient is 3/2, not
    the 1 of an integer division, and it shows in the recurring price:
    1000 - 300 / 1.5 = 800, where a truncated quotient would give 700. *)
Lemma billingsPerDuration_truncated_counterexample :
  billingsPerDuration Shop.uneven
  <> ofZ (Schedule.durationCount Shop.uneven
          / Schedule.billingCount Shop.uneven)
  /\ billingsPerDuration Shop.uneven = Fin (3 # 2)
  /\ is_integer (billingsPerDuration Shop.uneven) = false
  /\ exists p,
       outcome (getSubscriptionPricing Shop.service Shop.ctx None
                  (Some Shop.unevenBox)) Shop.world
       = Returned p
       /\ Pricing.recurringPrice p = ofZ 800.
Proof.
  split; [discriminate |]. split; [reflexivity |]. split; [reflexivity |].
  eexists. split; reflexivity.
Qed.

Lemma getSubscriptionPricing_amountDueNow_witness :
  exists p,
    outcome (getSubscriptionPricing Shop.service Shop.ctx None
               (Some Shop.halfYearBox)) Shop.world
    = Returned p
    /\ Pricing.amountDueNow p
       = add (ofZ (Pricing.downpayment p)) (Pricing.totalProratedAmount p)
    /\ Pricing.amountDueNow p = ofZ 20200.
Proof.
  eexists. split; [reflexivity |]. split; [| reflexivity].
  apply (@getSubscriptionPricing_amountDueNow unit Shop.service Shop.ctx None
           (Some Shop.halfYearBox) Shop.world).
  reflexivity.
Defined.

Lemma getSubscriptionPricing_proratedDays_witness :
  exists p,
    outcome (getSubscriptionPricing (withCalendarDays Shop.service) Shop.ctx
               None (Some Shop.monthlyBox)) Shop.world
    = Returned p
    /\ clock Shop.world <= Pricing.subscriptionStartDate p
    /\ nonneg (Pricing.proratedDays p) = true.
Proof.
  eexists. split; [reflexivity |]. split; [discriminate |].
  apply (@getSubscriptionPricing_proratedDays unit Shop.service Shop.ctx None
           (Some Shop.monthlyBox) Shop.world); [reflexivity | discriminate].
Defined.

(** C8 as stated fails when the input names a start date after the
    subscription's start date: [now] is before the start date, and the days
    are counted from [input.startDate], two days after it. By
    [proratedDays_counted_from_input] this does not hang on the helpers of
    the shop. *)
Lemma getSubscriptionPricing_proratedDays_counterexample :
  exists p,
    outcome (getSubscriptionPricing (withCalendarDays Shop.service) Shop.ctx
               (Some Shop.lateStart) (Some Shop.monthlyBox)) Shop.world
    = Returned p
    /\ clock Shop.world <= Pricing.subscriptionStartDate p
    /\ Pricing.proratedDays p = ofZ (-2)
    /\ nonneg (Pricing.proratedDays p) = false
    /\ nonneg (Pricing.dayRate p) = true
    /\ nonneg (Pricing.totalProratedAmount p) = false.
Proof.
  eexists. split; [reflexivity |]. split; [discriminate |].
  repeat split.
Qed.

Lemma handlePaymentCompleteEvent_other_type_witness :
  outcome (handlePaymentCompleteEvent Shop.service
             (Shop.webhook "payment_intent.succeeded") None Shop.payload)
    Shop.busy
  = Returned tt
  /\ calls (after (handlePaymentCompleteEvent Shop.service
                     (Shop.webhook "payment_intent.succeeded") None
                     Shop.payload)
              Shop.busy)
     = [ GetChannelFromToken "shop";
         LoggerCall Info (NotProcessingEvent "payment_intent.succeeded") ].
Proof.
  assert (H : Webhook.type (Shop.webhook "payment_intent.succeeded")
              <> "setup_intent.succeeded") by discriminate.
  destruct (@handlePaymentCompleteEvent_other_type unit Shop.service
              (Shop.webhook "payment_intent.succeeded") None Shop.payload
              Shop.busy H)
    as (Ho & _ & Hcalls & _).
  split; [exact Ho | exact Hcalls].
Defined.

Lemma createSubscriptionsForLine_subscriptions_witness :
  List.length
    (subscriptions_created
       (calls (after (createSubscriptionsForLine Shop.service Shop.ctx
                        Shop.client Shop.order "prod_1" "cus_1" "pm_1"
                        {| productVariant := Shop.monthlyBox |})
                 Shop.world))) = 1%nat
  /\ List.length
       (subscriptions_created
          (calls (after (createSubscriptionsForLine Shop.service Shop.ctx
                           Shop.client Shop.order "prod_1" "cus_1" "pm_1"
                           {| productVariant := Shop.halfYearBox |})
                    Shop.world))) = 2%nat.
Proof.
  split.
  - destruct (@createSubscriptionsForLine_subscriptions unit Shop.service
                Shop.ctx Shop.client Shop.order "prod_1" "cus_1" "pm_1"
                {| productVariant := Shop.monthlyBox |} Shop.world _ eq_refl)
      as (_ & Hzero & _).
    rewrite (Hzero eq_refl). reflexivity.
  - destruct (@createSubscriptionsForLine_subscriptions unit Shop.service
                Shop.ctx Shop.client Shop.order "prod_1" "cus_1" "pm_1"
                {| productVariant := Shop.halfYearBox |} Shop.world _ eq_refl)
      as (_ & _ & Hsome & _).
    destruct (Hsome ltac:(discriminate) "sub_recurring" eq_refl)
      as (s & d & _ & _ & _ & _ & _ & Hsubs).
    rewrite Hsubs. reflexivity.
Defined.

(** ** More properties of the service *)

Local Close Scope string_scope.

(** *** Runs and their traces *)

Lemma extend_nil (w : World) : extend w [] = w.
Proof. destruct w. unfold extend. simpl. rewrite app_nil_r. reflexivity. Qed.

Lemma extend_extend (w : World) (cs cs' : list Call) :
  extend (extend w cs) cs' = extend w (cs ++ cs').
Proof. unfold extend. simpl. rewrite app_assoc. reflexivity. Qed.

Lemma runs_ret {A} (now : Date) (a : A) : runs_at now (ret a) (Returned a) [].
Proof. intros w _. unfold ret. rewrite extend_nil. reflexivity. Qed.

Lemma runs_throw {A} (now : Date) (e : Error) :
  runs_at now (@throw A e) (Thrown e) [].
Proof. intros w _. unfold throw. rewrite extend_nil. reflexivity. Qed.

Lemma runs_call (now : Date) (c : Call) :
  runs_at now (call c) (Returned tt) [c].
Proof. intros w _. reflexivity. Qed.

Lemma runs_bind {A B} (now : Date) (m : M A) (k : A -> M B) (a : A)
    (o : Outcome B) (cs cs' : list Call) :
  runs_at now m (Returned a) cs ->
  runs_at now (k a) o cs' ->
  runs_at now (bind m k) o (cs ++ cs').
Proof.
  intros Hm Hk w Hw. unfold bind. rewrite (Hm w Hw).
  rewrite (Hk (extend w cs) Hw). rewrite extend_extend. reflexivity.
Qed.

Lemma flat_map_in_ext {A B} (f g : A -> list B) (l : list A) :
  (forall a, In a l -> f a = g a) -> flat_map f l = flat_map g l.
Proof.
  induction l as [| a l IH]; simpl; intro H; [reflexivity |].
  rewrite (H a (or_introl eq_refl)), IH; [reflexivity |].
  intros b Hb. apply H. right. exact Hb.
Qed.

(** After a run that returns, the rest goes on in the world it left. *)
Lemma runs_then {A B} (now : Date) (m : M A) (k : A -> M B) (a : A)
    (cs : list Call) (w : World) (r : Outcome B * World) :
  runs_at now m (Returned a) cs ->
  clock w = now ->
  k a (extend w cs) = r ->
  bind m k w = r.
Proof. intros Hm Hw <-. unfold bind. rewrite (Hm w Hw). reflexivity. Qed.

Lemma runs_bind_thrown {A B} (now : Date) (m : M A) (k : A -> M B)
    (e : Error) (cs : list Call) :
  runs_at now m (Thrown e) cs ->
  runs_at now (bind m k) (Thrown e) cs.
Proof. intros Hm w Hw. unfold bind. rewrite (Hm w Hw). reflexivity. Qed.

Lemma runs_try_returned {A} (now : Date) (m : M A) (h : Error -> M A)
    (a : A) (cs : list Call) :
  runs_at now m (Returned a) cs ->
  runs_at now (try_catch m h) (Returned a) cs.
Proof. intros Hm w Hw. unfold try_catch. rewrite (Hm w Hw). reflexivity. Qed.

Lemma runs_try_thrown {A} (now : Date) (m : M A) (h : Error -> M A)
    (e : Error) (o : Outcome A) (cs cs' : list Call) :
  runs_at now m (Thrown e) cs ->
  runs_at now (h e) o cs' ->
  runs_at now (try_catch m h) o (cs ++ cs').
Proof.
  intros Hm Hh w Hw. unfold try_catch. rewrite (Hm w Hw).
  rewrite (Hh (extend w cs) Hw). rewrite extend_extend. reflexivity.
Qed.

(** A run determines the outcome and the calls from any world. *)
Lemma runs_outcome {A} (m : M A) (o : Outcome A) (cs : list Call)
    (w : World) :
  runs_at (clock w) m o cs ->
  outcome m w = o /\ after m w = extend w cs.
Proof.
  intro H. unfold outcome, after. rewrite (H w eq_refl). split; reflexivity.
Qed.

Lemma filter_none {A} (f : A -> bool) (l : list A) :
  Forall (fun a => f a = false) l -> filter f l = [].
Proof.
  induction 1 as [| a l Ha _ IH]; simpl; [reflexivity |].
  rewrite Ha. exact IH.
Qed.

Lemma handler_lookup_quiet (c : Call) :
  handler_lookup c = true ->
  changes_state c = false /\ settles c = false /\ validates c = false.
Proof. destruct c; simpl; try discriminate; repeat split. Qed.

Lemma handler_lookups_quiet (cs : list Call) :
  forallb handler_lookup cs = true ->
  filter changes_state cs = [] /\ filter settles cs = []
  /\ filter validates cs = [] /\ subscriptions_created cs = [].
Proof.
  induction cs as [| c cs IH]; simpl; [repeat split |].
  intro H. apply andb_prop in H. destruct H as [Hc Hcs].
  destruct (IH Hcs) as (H1 & H2 & H3 & H4).
  destruct (handler_lookup_quiet c Hc) as (C1 & C2 & C3).
  rewrite C1, C2, C3. repeat split; try assumption.
  destruct c; simpl in *; try discriminate; assumption.
Qed.

Section MoreProperties.

Variable StartDate : Type.
Variable this : Service StartDate.

Implicit Types (ctx : RequestContext) (input : option PricingInput.t)
  (variant : option Variant.t) (v : Variant.t) (s : Schedule.t StartDate)
  (w : World) (p : Pricing.t) (now : Date).

(** *** [getStripeHandler] *)

(** The handler look-up runs the same from every world, and makes no call
    but its two look-ups and its warning. *)
Lemma getStripeHandler_runs ctx (orderId : ID) :
  exists o cs,
    (forall now, runs_at now (getStripeHandler this ctx orderId) o cs)
    /\ forallb handler_lookup cs = true.
Proof.
  unfold getStripeHandler.
  destruct (find _ _) as [q |].
  2: { eexists. eexists. split; [| shelve].
       intros now w _. unfold bind, call, throw, extend. simpl.
       reflexivity. }
  destruct (paymentMethodService_findOne this ctx (quote_id q)) as [pm |].
  2: { eexists. eexists. split; [| shelve].
       intros now w _. unfold bind, call, throw, extend. simpl.
       rewrite <- app_assoc. reflexivity. }
  destruct (negb _).
  { eexists. eexists. split; [| shelve].
    intros now w _. unfold bind, call, throw, extend. simpl.
    rewrite <- app_assoc. reflexivity. }
  destruct (arg_named "apiKey" (handler_args pm)) as [k |];
    destruct (arg_named "webhookSecret" (handler_args pm)) as [sec |];
    try destruct (negb (k =? EmptyString)%string
                  && negb (sec =? EmptyString)%string);
    (eexists; eexists; split; [| shelve];
     intros now w _; unfold bind, call, throw, ret, extend; simpl;
     repeat rewrite <- app_assoc; reflexivity).
  Unshelve. all: reflexivity.
Qed.

(** X1. A handler that [getStripeHandler] returns comes from the first
    eligible payment method whose code contains ['stripe-subscription'];
    that method has the handler of this plugin, and its [apiKey] and
    [webhookSecret] arguments are the non-empty key and secret of the
    client. *)
Theorem getStripeHandler_returned ctx (orderId : ID) w
    (h : StripeHandlerConfig) :
  outcome (getStripeHandler this ctx orderId) w = Returned h ->
  exists q pm,
    find (fun pm => includes "stripe-subscription" (quote_code pm))
      (orderService_getEligiblePaymentMethods this ctx orderId) = Some q
    /\ includes "stripe-subscription" (quote_code q) = true
    /\ paymentMethodService_findOne this ctx (quote_id q) = Some pm
    /\ handler_code pm = stripeSubscriptionHandler_code this
    /\ paymentMethodCode h = method_code pm
    /\ arg_named "apiKey" (handler_args pm)
       = Some (client_apiKey (stripeClient h))
    /\ arg_named "webhookSecret" (handler_args pm) = Some (webhookSecret h)
    /\ client_webhookSecret (stripeClient h) = webhookSecret h
    /\ client_apiKey (stripeClient h) <> EmptyString
    /\ webhookSecret h <> EmptyString.
Proof.
  unfold outcome, getStripeHandler, bind, call, ret, throw. simpl.
  destruct (find _ _) as [q |] eqn:Hq; simpl; [| discriminate].
  destruct (paymentMethodService_findOne this ctx (quote_id q))
    as [pm |] eqn:Hpm; simpl; [| discriminate].
  destruct (String.eqb_spec (handler_code pm)
              (stripeSubscriptionHandler_code this)) as [Hcode | _];
    simpl; [| discriminate].
  destruct (arg_named "apiKey" (handler_args pm)) as [k |] eqn:Hk;
    destruct (arg_named "webhookSecret" (handler_args pm))
      as [sec |] eqn:Hsec; simpl; try discriminate.
  destruct (String.eqb_spec k EmptyString) as [| Hkne]; simpl;
    [discriminate |].
  destruct (String.eqb_spec sec EmptyString) as [| Hsne]; simpl;
    [discriminate |].
  intro H. injection H as <-. simpl.
  exists q, pm. destruct (find_some _ _ Hq) as [_ Hin].
  repeat split; auto.
Qed.

(** X2. The failures of [getStripeHandler], each after the look-ups made so
    far and nothing else:
    - no eligible payment method has ['stripe-subscription'] in its code;
    - the payment method of the first such quote is not found, or has
      another handler: the later quotes are not tried;
    - the [apiKey] or the [webhookSecret] argument is missing or empty: a
      warning is logged first. *)
Theorem getStripeHandler_failures ctx (orderId : ID) w :
  let quotes := orderService_getEligiblePaymentMethods this ctx orderId in
  let matches :=
    fun pm => includes "stripe-subscription" (quote_code pm) in
  (find matches quotes = None ->
   getStripeHandler this ctx orderId w
   = (Thrown NoPaymentMethodFound,
      extend w [GetEligiblePaymentMethods ctx orderId]))
  /\ (forall q,
        find matches quotes = Some q ->
        match paymentMethodService_findOne this ctx (quote_id q) with
        | Some pm => handler_code pm <> stripeSubscriptionHandler_code this
        | None => True
        end ->
        getStripeHandler this ctx orderId w
        = (Thrown (HandlerNotConfigured (quote_code q)),
           extend w [GetEligiblePaymentMethods ctx orderId;
                     PaymentMethodFindOne ctx (quote_id q)]))
  /\ (forall q pm,
        find matches quotes = Some q ->
        paymentMethodService_findOne this ctx (quote_id q) = Some pm ->
        handler_code pm = stripeSubscriptionHandler_code this ->
        string_truthy (arg_named "apiKey" (handler_args pm))
        && string_truthy (arg_named "webhookSecret" (handler_args pm))
        = false ->
        getStripeHandler this ctx orderId w
        = (Thrown (NoApiKeyOrSecret (method_code pm)),
           extend w [GetEligiblePaymentMethods ctx orderId;
                     PaymentMethodFindOne ctx (quote_id q);
                     LoggerCall Warn (NoApiKeyConfigured (method_code pm))])).
Proof.
  intros quotes matches. subst quotes matches.
  unfold getStripeHandler, bind, call, ret, throw, extend. simpl.
  split; [| split].
  - intros ->. reflexivity.
  - intros q -> Hpm. simpl.
    destruct (paymentMethodService_findOne this ctx (quote_id q))
      as [pm |]; simpl.
    + destruct (String.eqb_spec (handler_code pm)
                  (stripeSubscriptionHandler_code this)) as [E | _];
        [contradiction |].
      simpl. rewrite <- app_assoc. reflexivity.
    + rewrite <- app_assoc. reflexivity.
  - intros q pm -> -> Hcode Hargs. simpl.
    rewrite Hcode, String.eqb_refl. simpl.
    destruct (arg_named "apiKey" (handler_args pm)) as [k |];
      destruct (arg_named "webhookSecret" (handler_args pm)) as [sec |];
      simpl in *; try rewrite Hargs; simpl;
      repeat rewrite <- app_assoc; reflexivity.
Qed.

(** X3. [getStripeHandler] changes nothing: whatever it answers, it adds
    no job, no transition, no payment, no history entry and nothing on
    Stripe's side, and it checks no signature. *)
Theorem getStripeHandler_quiet ctx (orderId : ID) w :
  let w' := after (getStripeHandler this ctx orderId) w in
  filter changes_state (calls w') = filter changes_state (calls w)
  /\ filter validates (calls w') = filter validates (calls w).
Proof.
  intro w'. subst w'.
  destruct (getStripeHandler_runs ctx orderId) as (o & cs & Hrun & Hcs).
  destruct (@runs_outcome _ _ _ _ w (Hrun (clock w))) as [_ ->].
  destruct (handler_lookups_quiet cs Hcs) as (H1 & _ & H3 & _).
  unfold extend. simpl. rewrite !filter_app, H1, H3, !app_nil_r.
  repeat split.
Qed.

(** *** [handlePaymentCompleteEvent] *)

Lemma handlePaymentCompleteEvent_accepted (event : Webhook.t)
    (signature : option string) (rawBodyPayload : string)
    (channelToken customer : string) (order : Order.t)
    (handler : StripeHandlerConfig) w :
  accepted this event signature rawBodyPayload channelToken customer order
    handler ->
  let ctx := adminContext this channelToken in
  let job := JobQueueAdd (subscriptionsJob ctx order event customer) 1 in
  let transition :=
    TransitionToState ctx (Order.id order) "ArrangingPayment" in
  let payment :=
    AddPaymentToOrder ctx (Order.id order) (paymentMethodCode handler)
      (Webhook.id (Webhook.object event))
      (Webhook.amount (Webhook.metadata (Webhook.object event))) in
  exists cs,
    filter changes_state cs = []
    /\ filter validates cs
       = (if disableWebhookSignatureChecking this then []
          else [ValidateWebhookSignature rawBodyPayload signature])
    /\ handlePaymentCompleteEvent this event signature rawBodyPayload w
       = if (Order.state order =? "ArrangingPayment")%string then
           match orderService_addPaymentToOrder this ctx (Order.id order)
                   (paymentMethodCode handler) with
           | Some message =>
               (Thrown (AddPaymentError (Order.code order) message),
                extend w (cs ++ [job; payment]))
           | None =>
               (Returned tt,
                extend w (cs ++ [job; payment;
                                 LoggerCall Info
                                   (SettledPayment (Order.code order)
                                      channelToken)]))
           end
         else
           match orderService_transitionToState this ctx (Order.id order)
                   "ArrangingPayment" with
           | Some message =>
               (Thrown (TransitionError (Order.code order) message),
                extend w (cs ++ [job; transition]))
           | None =>
               match orderService_addPaymentToOrder this ctx (Order.id order)
                       (paymentMethodCode handler) with
               | Some message =>
                   (Thrown (AddPaymentError (Order.code order) message),
                    extend w (cs ++ [job; transition; payment]))
               | None =>
                   (Returned tt,
                    extend w (cs ++ [job; transition; payment;
                                     LoggerCall Info
                                       (SettledPayment (Order.code order)
                                          channelToken)]))
               end
           end.
Proof.
  intros (Htype & (oc & Hoc & Hocne & Horder) & Hct & Hctne & Hcus & Hcusne
          & Hh & Hsig) ctx job transition payment.
  subst job transition payment ctx.
  destruct (getStripeHandler_runs (adminContext this channelToken)
              (Order.id order)) as (o & csh & Hrun & Hcsh).
  destruct (handler_lookups_quiet csh Hcsh) as (Hq1 & _ & Hq3 & _).
  assert (o = Returned handler) as ->.
  { destruct (@runs_outcome _ _ _ _ {| clock := 0; calls := [] |}
                (Hrun 0)) as [Ho _].
    congruence. }
  apply String.eqb_neq in Hocne, Hctne, Hcusne.
  exists ([GetChannelFromToken channelToken;
           OrderFindOneByCode (adminContext this channelToken) oc]
          ++ csh
          ++ (if disableWebhookSignatureChecking this then []
              else [ValidateWebhookSignature rawBodyPayload signature])).
  split; [| split].
  - simpl. rewrite filter_app, Hq1.
    destruct (disableWebhookSignatureChecking this); reflexivity.
  - simpl. rewrite filter_app, Hq3.
    destruct (disableWebhookSignatureChecking this); reflexivity.
  - unfold handlePaymentCompleteEvent.
    rewrite Htype, Hoc, Hct, Hcus. simpl. rewrite Hocne, Hctne.
    unfold createContext, logOrderHistory, bind at 1 2 3. simpl.
    fold (adminContext this channelToken).
    rewrite Horder, Hcusne. simpl.
    erewrite bind_returned by (apply (Hrun (clock w)); reflexivity).
    assert (Hcheck :
              forall w0,
                (if negb (disableWebhookSignatureChecking this)
                 then
                   call (ValidateWebhookSignature rawBodyPayload signature) ;;
                   match stripe_validateWebhookSignature this
                           (stripeClient handler) rawBodyPayload signature
                   with
                   | Some e => throw e
                   | None => ret tt
                   end
                 else ret tt) w0
                = (Returned tt,
                   extend w0
                     (if disableWebhookSignatureChecking this then []
                      else [ValidateWebhookSignature rawBodyPayload
                              signature]))).
    { intro w0. destruct Hsig as [Hoff | Hok].
      - rewrite Hoff. simpl. unfold ret. rewrite extend_nil. reflexivity.
      - destruct (disableWebhookSignatureChecking this); simpl.
        + unfold ret. rewrite extend_nil. reflexivity.
        + unfold bind, call. rewrite Hok. reflexivity. }
    erewrite bind_returned by apply Hcheck.
    unfold bind, call, ret, throw, extend. simpl.
    destruct (Order.state order =? "ArrangingPayment")%string; simpl.
    + destruct (orderService_addPaymentToOrder this _ _ _); simpl;
        repeat rewrite <- app_assoc; simpl; reflexivity.
    + destruct (orderService_transitionToState this _ _ _); simpl;
        [repeat rewrite <- app_assoc; simpl; reflexivity |].
      destruct (orderService_addPaymentToOrder this _ _ _); simpl;
        repeat rewrite <- app_assoc; simpl; reflexivity.
Qed.

(** X4. A completed setup intent without [metadata.orderCode], or with an
    empty one, is refused before anything is called; so is one with an order
    code and without [metadata.channelToken]. The order code is tested
    first. *)
Theorem handlePaymentCompleteEvent_missing_metadata (event : Webhook.t)
    (signature : option string) (rawBodyPayload : string) w :
  Webhook.type event = "setup_intent.succeeded"%string ->
  let metadata := Webhook.metadata (Webhook.object event) in
  let handle :=
    handlePaymentCompleteEvent this event signature rawBodyPayload in
  (string_truthy (Webhook.orderCode metadata) = false ->
   handle w = (Thrown MissingOrderCode, w))
  /\ (string_truthy (Webhook.orderCode metadata) = true ->
      string_truthy (Webhook.channelToken metadata) = false ->
      handle w = (Thrown MissingChannelToken, w)).
Proof.
  intros Htype metadata handle. subst metadata handle.
  unfold handlePaymentCompleteEvent. rewrite Htype. simpl.
  destruct (Webhook.orderCode _) as [oc |]; simpl.
  - destruct (oc =? EmptyString)%string; simpl.
    + split; [reflexivity | discriminate].
    + split; [discriminate |]. intros _.
      destruct (Webhook.channelToken _) as [ct |]; simpl; [| reflexivity].
      destruct (ct =? EmptyString)%string; simpl;
        [reflexivity | discriminate].
  - split; [reflexivity | discriminate].
Qed.

(** X5. A completed setup intent for an order code that no order of the
    channel has is refused after the two look-ups: nothing is changed. *)
Theorem handlePaymentCompleteEvent_unknown_order (event : Webhook.t)
    (signature : option string) (rawBodyPayload : string) w
    (orderCode channelToken : string) :
  Webhook.type event = "setup_intent.succeeded"%string ->
  let metadata := Webhook.metadata (Webhook.object event) in
  let ctx := adminContext this channelToken in
  Webhook.orderCode metadata = Some orderCode ->
  orderCode <> EmptyString ->
  Webhook.channelToken metadata = Some channelToken ->
  channelToken <> EmptyString ->
  orderService_findOneByCode this ctx orderCode = None ->
  handlePaymentCompleteEvent this event signature rawBodyPayload w
  = (Thrown (CannotFindOrder orderCode),
     extend w [GetChannelFromToken channelToken;
               OrderFindOneByCode ctx orderCode]).
Proof.
  intros Htype metadata ctx Hoc Hocne Hct Hctne Hnone.
  subst metadata ctx.
  apply String.eqb_neq in Hocne, Hctne.
  unfold handlePaymentCompleteEvent.
  rewrite Htype, Hoc, Hct. simpl. rewrite Hocne, Hctne.
  unfold createContext, bind, call, ret, throw, extend. simpl.
  fold (adminContext this channelToken). rewrite Hnone.
  rewrite <- app_assoc. reflexivity.
Qed.

(** X6. A completed setup intent without a customer writes the "no
    customer" note in the history of the order and then fails. It does so
    before any handler is looked up and before the signature is checked:
    the note is written whatever the signature is. *)
Theorem handlePaymentCompleteEvent_no_customer (event : Webhook.t)
    (signature : option string) (rawBodyPayload : string) w
    (orderCode channelToken : string) (order : Order.t) :
  Webhook.type event = "setup_intent.succeeded"%string ->
  let metadata := Webhook.metadata (Webhook.object event) in
  let ctx := adminContext this channelToken in
  Webhook.orderCode metadata = Some orderCode ->
  orderCode <> EmptyString ->
  Webhook.channelToken metadata = Some channelToken ->
  channelToken <> EmptyString ->
  orderService_findOneByCode this ctx orderCode = Some order ->
  string_truthy (Webhook.customer (Webhook.object event)) = false ->
  handlePaymentCompleteEvent this event signature rawBodyPayload w
  = (Thrown (NoCustomerInWebhook (Order.code order)),
     extend w [GetChannelFromToken channelToken;
               OrderFindOneByCode ctx orderCode;
               CreateHistoryEntry ctx (Order.id order) NoCustomerIdFound]).
Proof.
  intros Htype metadata ctx Hoc Hocne Hct Hctne Horder Hcus.
  subst metadata ctx.
  apply String.eqb_neq in Hocne, Hctne.
  unfold handlePaymentCompleteEvent.
  rewrite Htype, Hoc, Hct. simpl. rewrite Hocne, Hctne.
  unfold createContext, logOrderHistory, bind, call, ret, throw, extend.
  simpl. fold (adminContext this channelToken). rewrite Horder, Hcus.
  simpl. repeat rewrite <- app_assoc. reflexivity.
Qed.

(** X7. With the signature check on, an event whose signature is refused by
    the client of the handler of its order settles nothing: no job is
    added, no order changes state and no payment is added, whatever the
    event holds; a completed setup intent ends in an error. What other
    clients would say of the signature does not matter. *)
Theorem handlePaymentCompleteEvent_refused_signature (event : Webhook.t)
    (signature : option string) (rawBodyPayload : string) w :
  disableWebhookSignatureChecking this = false ->
  signature_refused this event signature rawBodyPayload ->
  let handle :=
    handlePaymentCompleteEvent this event signature rawBodyPayload in
  filter settles (calls (after handle w)) = filter settles (calls w)
  /\ (Webhook.type event = "setup_intent.succeeded"%string ->
      exists e, outcome handle w = Thrown e).
Proof.
  intros Hon Hbad handle. subst handle.
  unfold outcome, after, handlePaymentCompleteEvent.
  destruct (String.eqb_spec (Webhook.type event) "setup_intent.succeeded")
    as [Htype | Htype]; simpl.
  2: { split; [| contradiction]. rewrite filter_app. simpl.
       apply app_nil_r. }
  destruct (Webhook.orderCode _) as [oc |] eqn:Hoc; simpl;
    [| split; [reflexivity | eexists; reflexivity]].
  destruct (oc =? EmptyString)%string; simpl;
    [split; [reflexivity | eexists; reflexivity] |].
  destruct (Webhook.channelToken _) as [ct |] eqn:Hct; simpl;
    [| split; [reflexivity | eexists; reflexivity]].
  destruct (ct =? EmptyString)%string; simpl;
    [split; [reflexivity | eexists; reflexivity] |].
  unfold createContext, logOrderHistory, bind, call, ret, throw. simpl.
  fold (adminContext this ct).
  destruct (orderService_findOneByCode this (adminContext this ct) oc)
    as [order |] eqn:Horder; simpl.
  2: { split; [| eexists; reflexivity].
       rewrite !filter_app. simpl. rewrite !app_nil_r. reflexivity. }
  destruct (Webhook.customer _) as [customer |]; simpl.
  2: { split; [| eexists; reflexivity].
       rewrite !filter_app. simpl. rewrite !app_nil_r. reflexivity. }
  destruct (customer =? EmptyString)%string; simpl.
  { split; [| eexists; reflexivity].
    rewrite !filter_app. simpl. rewrite !app_nil_r. reflexivity. }
  destruct (getStripeHandler_runs (adminContext this ct) (Order.id order))
    as (o & csh & Hrun & Hcsh).
  destruct (handler_lookups_quiet csh Hcsh) as (_ & Hq2 & _ & _).
  rewrite (Hrun (clock w) {| clock := clock w; calls := _ |} eq_refl).
  destruct o as [h | e]; unfold extend; simpl.
  - rewrite Hon. simpl.
    assert (Hh : outcome (getStripeHandler this (adminContext this ct)
                            (Order.id order))
                   {| clock := 0; calls := [] |} = Returned h).
    { unfold outcome.
      rewrite (Hrun 0 {| clock := 0; calls := [] |} eq_refl). reflexivity. }
    destruct (stripe_validateWebhookSignature this (stripeClient h)
                rawBodyPayload signature) as [e |] eqn:Hsig;
      [| exfalso; apply (Hbad oc ct order h Hoc Hct Horder Hh Hsig)].
    simpl. split; [| eexists; reflexivity].
    rewrite !filter_app, Hq2. simpl. rewrite !app_nil_r. reflexivity.
  - split; [| eexists; reflexivity].
    rewrite !filter_app, Hq2. simpl. rewrite !app_nil_r. reflexivity.
Qed.

(** X8. An accepted webhook whose order takes the transition (or is in
    [ArrangingPayment] already) and the payment is settled: the handler
    returns, and what it changed is, in this order, the job added with one
    try, the transition to [ArrangingPayment] unless the order is in that
    state, and the payment with the handler's method and the id of the
    setup intent. The signature is checked once, or not at all when the
    check is disabled. *)
Theorem handlePaymentCompleteEvent_settled (event : Webhook.t)
    (signature : option string) (rawBodyPayload : string)
    (channelToken customer : string) (order : Order.t)
    (handler : StripeHandlerConfig) w :
  accepted this event signature rawBodyPayload channelToken customer order
    handler ->
  let ctx := adminContext this channelToken in
  let arranging := (Order.state order =? "ArrangingPayment")%string in
  (if arranging then None
   else orderService_transitionToState this ctx (Order.id order)
          "ArrangingPayment") = None ->
  orderService_addPaymentToOrder this ctx (Order.id order)
    (paymentMethodCode handler) = None ->
  let handle :=
    handlePaymentCompleteEvent this event signature rawBodyPayload in
  outcome handle w = Returned tt
  /\ filter changes_state (calls (after handle w))
     = filter changes_state (calls w)
       ++ JobQueueAdd (subscriptionsJob ctx order event customer) 1
          :: (if arranging then []
              else [TransitionToState ctx (Order.id order)
                      "ArrangingPayment"])
          ++ [AddPaymentToOrder ctx (Order.id order)
                (paymentMethodCode handler)
                (Webhook.id (Webhook.object event))
                (Webhook.amount (Webhook.metadata (Webhook.object event)))]
  /\ filter validates (calls (after handle w))
     = filter validates (calls w)
       ++ (if disableWebhookSignatureChecking this then []
           else [ValidateWebhookSignature rawBodyPayload signature]).
Proof.
  intros Hacc ctx arranging Htrans Hpay handle.
  subst ctx arranging handle.
  destruct (handlePaymentCompleteEvent_accepted w Hacc)
    as (cs & Hcs & Hval & Hrun).
  unfold outcome, after. rewrite Hrun. clear Hrun.
  destruct (Order.state order =? "ArrangingPayment")%string.
  - rewrite Hpay. unfold extend. simpl.
    rewrite !filter_app, Hcs, Hval. simpl. rewrite !app_nil_r.
    repeat split.
  - rewrite Htrans, Hpay. unfold extend. simpl.
    rewrite !filter_app, Hcs, Hval. simpl. rewrite !app_nil_r.
    repeat split.
Qed.

(** X9. The job is added before the order is settled, and it stays when
    settling fails. For an accepted webhook, a refused transition throws
    with the job in the queue and no payment added; a refused payment throws
    with the job in the queue as well. *)
Theorem handlePaymentCompleteEvent_job_stays (event : Webhook.t)
    (signature : option string) (rawBodyPayload : string)
    (channelToken customer : string) (order : Order.t)
    (handler : StripeHandlerConfig) w :
  accepted this event signature rawBodyPayload channelToken customer order
    handler ->
  let ctx := adminContext this channelToken in
  let handle :=
    handlePaymentCompleteEvent this event signature rawBodyPayload in
  let job := JobQueueAdd (subscriptionsJob ctx order event customer) 1 in
  let transition :=
    TransitionToState ctx (Order.id order) "ArrangingPayment" in
  let payment :=
    AddPaymentToOrder ctx (Order.id order) (paymentMethodCode handler)
      (Webhook.id (Webhook.object event))
      (Webhook.amount (Webhook.metadata (Webhook.object event))) in
  (forall message,
      Order.state order <> "ArrangingPayment"%string ->
      orderService_transitionToState this ctx (Order.id order)
        "ArrangingPayment" = Some message ->
      outcome handle w = Thrown (TransitionError (Order.code order) message)
      /\ filter settles (calls (after handle w))
         = filter settles (calls w) ++ [job; transition])
  /\ (forall message,
        orderService_addPaymentToOrder this ctx (Order.id order)
          (paymentMethodCode handler) = Some message ->
        (exists e, outcome handle w = Thrown e)
        /\ In job (calls (after handle w))).
Proof.
  intros Hacc ctx handle job transition payment.
  destruct (handlePaymentCompleteEvent_accepted w Hacc)
    as (cs & Hcs & Hval & Hrun).
  fold ctx job transition payment handle in Hrun.
  assert (Hsettles : filter settles cs = []).
  { apply filter_none. rewrite Forall_forall. intros c Hin.
    destruct (settles c) eqn:Hc; [| reflexivity].
    assert (Hin' : In c (filter changes_state cs)).
    { apply filter_In. split; [exact Hin |].
      destruct c; simpl in Hc; try discriminate; reflexivity. }
    rewrite Hcs in Hin'. destruct Hin'. }
  unfold outcome, after. rewrite Hrun. clear Hrun.
  split.
  - intros message Hstate Htrans. apply String.eqb_neq in Hstate.
    rewrite Hstate, Htrans. unfold extend. simpl.
    rewrite !filter_app, Hsettles. split; reflexivity.
  - intros message Hpay.
    destruct (Order.state order =? "ArrangingPayment")%string.
    + rewrite Hpay. unfold extend. simpl.
      split; [eexists; reflexivity |].
      apply in_or_app. right. apply in_or_app. right. left. reflexivity.
    + destruct (orderService_transitionToState this ctx (Order.id order)
                  "ArrangingPayment"); [| rewrite Hpay];
        unfold extend; simpl;
        (split; [eexists; reflexivity |]);
        apply in_or_app; right; apply in_or_app; right; left; reflexivity.
Qed.

(** *** [createSubscriptions] *)

(** Given the variant, the calculator runs without a call, and its outcome
    hangs on the clock alone. *)
Lemma getSubscriptionPricing_given_runs ctx input v now :
  runs_at now (getSubscriptionPricing this ctx input (Some v))
    (outcome (getSubscriptionPricing this ctx input (Some v))
       {| clock := now; calls := [] |})
    [].
Proof.
  intros w Hw. rewrite extend_nil. run.
  destruct (scheduleOf this v) as [s |]; simpl; [| reflexivity].
  destruct (Interval_eqb _ _); simpl; [| reflexivity].
  rewrite Hw. reflexivity.
Qed.

Lemma getSubscriptionPricing_given_at ctx input v w now :
  clock w = now ->
  getSubscriptionPricing this ctx input (Some v) w
  = (outcome (getSubscriptionPricing this ctx input (Some v))
       {| clock := now; calls := [] |}, w).
Proof.
  intro Hw. rewrite (@getSubscriptionPricing_given_runs ctx input v now w Hw).
  rewrite extend_nil. reflexivity.
Qed.

Ltac line_run Hp :=
  let w := fresh "w" in
  let Hw := fresh "Hw" in
  intros w Hw; line_open;
  first [ erewrite bind_returned
            by (rewrite <- Hp; apply getSubscriptionPricing_given_at;
                exact Hw)
        | erewrite bind_thrown
            by (rewrite <- Hp; apply getSubscriptionPricing_given_at;
                exact Hw) ];
  unfold try_catch, createOffSessionSubscription, logOrderHistory,
    getSchedule, bind, call, ret, throw, extend; simpl.

(** X10. When the quote of an order line fails, the line fails with the
    same error and nothing is called: no log line, no history entry, no
    subscription. The error of the calculator is not caught. *)
Theorem createSubscriptionsForLine_pricing_error ctx (client : StripeClient)
    (order : Order.t) (productId stripeCustomerId stripePaymentMethodId :
                         string)
    (orderLine : OrderLine) w (e : Error) :
  outcome (getSubscriptionPricing this ctx None
             (Some (productVariant orderLine))) w = Thrown e ->
  createSubscriptionsForLine this ctx client order productId
    stripeCustomerId stripePaymentMethodId orderLine w
  = (Thrown e, w).
Proof.
  intro Hp. line_open.
  apply bind_thrown.
  rewrite (surjective_pairing (getSubscriptionPricing _ _ _ _ _)).
  f_equal; [exact Hp | apply getSubscriptionPricing_given].
Qed.

(** X11. When Stripe refuses a subscription of an order line, the line
    writes the failure in the history of the order and throws the error of
    Stripe. A refused downpayment subscription leaves the recurring one
    created, with its history entry: nothing is undone. *)
Theorem createSubscriptionsForLine_stripe_error ctx (client : StripeClient)
    (order : Order.t) (productId stripeCustomerId stripePaymentMethodId :
                         string)
    (orderLine : OrderLine) now (pricing : Pricing.t) (e : Error) :
  outcome (getSubscriptionPricing this ctx None
             (Some (productVariant orderLine)))
    {| clock := now; calls := [] |} = Returned pricing ->
  let line :=
    createSubscriptionsForLine this ctx client order productId
      stripeCustomerId stripePaymentMethodId orderLine in
  let recurring :=
    recurringSubscription order productId stripeCustomerId
      stripePaymentMethodId orderLine pricing in
  let failure :=
    CreateHistoryEntry ctx (Order.id order) (FailedToCreateSubscriptions e) in
  (stripe_createOffSessionSubscription this client recurring = Thrown e ->
   runs_at now line (Thrown e)
     [LoggerCall Info (CreatingSubscriptions pricing);
      CreateOffSessionSubscription recurring;
      failure])
  /\ (forall id s,
        stripe_createOffSessionSubscription this client recurring
        = Returned id ->
        Pricing.downpayment pricing <> 0 ->
        scheduleOf this (productVariant orderLine) = Some s ->
        let downpayment :=
          downpaymentSubscription order productId stripeCustomerId
            stripePaymentMethodId s pricing in
        stripe_createOffSessionSubscription this client downpayment
        = Thrown e ->
        runs_at now line (Thrown e)
          [LoggerCall Info (CreatingSubscriptions pricing);
           CreateOffSessionSubscription recurring;
           LoggerCall Info (CreatedRecurring (Order.code order));
           CreateHistoryEntry ctx (Order.id order)
             (CreatedSubscription id (Pricing.recurringPrice pricing)
                (Pricing.intervalCount pricing) (Pricing.interval pricing));
           CreateOffSessionSubscription downpayment;
           failure]).
Proof.
  intros Hp line recurring failure. subst line failure.
  split.
  - intro Hr. line_run Hp. fold recurring. rewrite Hr. simpl.
    repeat rewrite <- app_assoc. reflexivity.
  - intros id s Hr Hnz Hs downpayment Hd. subst downpayment.
    apply Z.eqb_neq in Hnz.
    line_run Hp. fold recurring. rewrite Hr. simpl. rewrite Hnz. simpl.
    rewrite Hs. simpl. rewrite Hd. simpl.
    repeat rewrite <- app_assoc. reflexivity.
Qed.

(** Whatever happens to an order line, it asks Stripe for two
    subscriptions at most, each for the customer, the payment method, the
    product and the currency at hand. *)
Lemma createSubscriptionsForLine_any ctx (client : StripeClient)
    (order : Order.t) (productId stripeCustomerId stripePaymentMethodId :
                         string)
    (orderLine : OrderLine) now :
  exists o cs,
    runs_at now
      (createSubscriptionsForLine this ctx client order productId
         stripeCustomerId stripePaymentMethodId orderLine) o cs
    /\ Forall (fun a =>
                 Subscription.customerId a = stripeCustomerId
                 /\ Subscription.paymentMethodId a = stripePaymentMethodId
                 /\ Subscription.productId a = productId
                 /\ Subscription.currencyCode a = Order.currencyCode order)
         (subscriptions_created cs)
    /\ (List.length (subscriptions_created cs) <= 2)%nat.
Proof.
  destruct (outcome (getSubscriptionPricing this ctx None
                       (Some (productVariant orderLine)))
              {| clock := now; calls := [] |}) as [p | e] eqn:Hp.
  2: { exists (Thrown e), []. split; [| split; [constructor | simpl; lia]].
       intros w Hw. rewrite extend_nil. line_open.
       apply bind_thrown. rewrite <- Hp.
       apply getSubscriptionPricing_given_at. exact Hw. }
  destruct (stripe_createOffSessionSubscription this client
              (recurringSubscription order productId stripeCustomerId
                 stripePaymentMethodId orderLine p)) as [id | e] eqn:Hr.
  2: { eexists. eexists. split.
       - line_run Hp. rewrite Hr. simpl.
         repeat rewrite <- app_assoc. reflexivity.
       - simpl. split; [repeat constructor | lia]. }
  destruct (Pricing.downpayment p =? 0) eqn:Hz.
  { eexists. eexists. split.
    - line_run Hp. rewrite Hr. simpl. rewrite Hz. simpl.
      repeat rewrite <- app_assoc. reflexivity.
    - simpl. split; [repeat constructor | lia]. }
  destruct (scheduleOf this (productVariant orderLine)) as [s |] eqn:Hs.
  2: { eexists. eexists. split.
       - line_run Hp. rewrite Hr. simpl. rewrite Hz. simpl.
         rewrite Hs. simpl. repeat rewrite <- app_assoc. reflexivity.
       - simpl. split; [repeat constructor | lia]. }
  destruct (stripe_createOffSessionSubscription this client
              (downpaymentSubscription order productId stripeCustomerId
                 stripePaymentMethodId s p)) as [id' | e] eqn:Hd.
  - eexists. eexists. split.
    + line_run Hp. rewrite Hr. simpl. rewrite Hz. simpl.
      rewrite Hs. simpl. rewrite Hd. simpl.
      repeat rewrite <- app_assoc. reflexivity.
    + simpl. split; [repeat constructor | lia].
  - eexists. eexists. split.
    + line_run Hp. rewrite Hr. simpl. rewrite Hz. simpl.
      rewrite Hs. simpl. rewrite Hd. simpl.
      repeat rewrite <- app_assoc. reflexivity.
    + simpl. split; [repeat constructor | lia].
Qed.

Lemma forEach_lines_any ctx (client : StripeClient) (order : Order.t)
    (productId stripeCustomerId stripePaymentMethodId : string)
    (orderLines : list OrderLine) now :
  exists o cs,
    runs_at now
      (forEach
         (createSubscriptionsForLine this ctx client order productId
            stripeCustomerId stripePaymentMethodId) orderLines) o cs
    /\ Forall (fun a =>
                 Subscription.customerId a = stripeCustomerId
                 /\ Subscription.paymentMethodId a = stripePaymentMethodId
                 /\ Subscription.productId a = productId
                 /\ Subscription.currencyCode a = Order.currencyCode order)
         (subscriptions_created cs)
    /\ (List.length (subscriptions_created cs)
        <= 2 * List.length orderLines)%nat.
Proof.
  induction orderLines as [| l ls IH]; simpl.
  - exists (Returned tt), []. split; [apply runs_ret |].
    split; [constructor | simpl; lia].
  - destruct (createSubscriptionsForLine_any ctx client order productId
                stripeCustomerId stripePaymentMethodId l now)
      as (o & cs & Hrun & Hall & Hlen).
    destruct o as [[] | e].
    + destruct IH as (o' & cs' & Hrun' & Hall' & Hlen').
      exists o', (cs ++ cs'). split; [| split].
      * eapply runs_bind; [exact Hrun | exact Hrun'].
      * rewrite subscriptions_created_app. apply Forall_app. split; assumption.
      * rewrite subscriptions_created_app, length_app. lia.
    + exists (Thrown e), cs. split; [| split].
      * apply runs_bind_thrown. exact Hrun.
      * exact Hall.
      * lia.
Qed.

(** With helpers that answer, a given variant with a schedule of equal
    intervals has a quote, and the calculator calls nothing. Whatever the
    clock shows, the downpayment, the recurring price and the billing
    interval of the quote are the same. *)
Lemma getSubscriptionPricingWith_given (util : Util.t StartDate) ctx input v
    s w :
  answers util ->
  scheduleOf this v = Some s ->
  Schedule.billingInterval s = Schedule.durationInterval s ->
  exists p,
    getSubscriptionPricingWith this util ctx input (Some v) w
    = (Returned p, w)
    /\ Pricing.downpayment p = effective_downpayment input s
    /\ Pricing.recurringPrice p
       = floor (sub (ofZ (Variant.price v))
                    (div (ofZ (effective_downpayment input s))
                         (billingsPerDuration s)))
    /\ Pricing.interval p = Schedule.billingInterval s
    /\ Pricing.intervalCount p = Schedule.billingCount s.
Proof.
  intros (Hnow & Hrate & Hnext & Hdays) Hs Hi. apply Interval_eqb_eq in Hi.
  unfold getSubscriptionPricingWith, getSchedule, bind, ret. simpl.
  rewrite Hs. simpl. rewrite Hi. simpl.
  destruct (Hrate (mul (ofZ (Variant.price v)) (billingsPerDuration s))
              (Schedule.durationInterval s) (Schedule.durationCount s) w)
    as [rate ->].
  destruct (Hnow w) as [now ->].
  destruct (Hnext now (Schedule.billingInterval s) (Schedule.startDate s) w)
    as [date ->].
  destruct (Hdays (match input_startDate input with
                   | Some d => d
                   | None => now
                   end) date w) as [days ->].
  eexists. repeat split.
Qed.

(** The helpers of the service answer. *)
Lemma util_of_answers : answers (util_of this).
Proof.
  repeat split; intros; eexists; reflexivity.
Qed.

(** The subscriptions of a line, less the start dates, in the terms of any
    quote of the line. *)
Lemma lineSubscriptions_undated ctx now (order : Order.t)
    (productId stripeCustomerId stripePaymentMethodId : string)
    (orderLine : OrderLine) s p :
  scheduleOf this (productVariant orderLine) = Some s ->
  Schedule.billingInterval s = Schedule.durationInterval s ->
  Pricing.downpayment p = effective_downpayment None s ->
  Pricing.recurringPrice p
  = floor (sub (ofZ (Variant.price (productVariant orderLine)))
               (div (ofZ (effective_downpayment None s))
                    (billingsPerDuration s))) ->
  Pricing.interval p = Schedule.billingInterval s ->
  Pricing.intervalCount p = Schedule.billingCount s ->
  map undated
    (lineSubscriptions this ctx now order productId stripeCustomerId
       stripePaymentMethodId orderLine)
  = undated (recurringSubscription order productId stripeCustomerId
               stripePaymentMethodId orderLine p)
    :: (if Pricing.downpayment p =? 0 then []
        else [undated (downpaymentSubscription order productId
                         stripeCustomerId stripePaymentMethodId s p)]).
Proof.
  intros Hs Hi Hd Hr Hint Hcount.
  destruct (@getSubscriptionPricing_returns _ this ctx None
              (Some (productVariant orderLine))
              {| clock := now; calls := [] |} (productVariant orderLine) s
              eq_refl Hs Hi) as (p0 & Hp0 & Hd0 & Hr0 & Hint0 & Hcount0).
  unfold lineSubscriptions. rewrite Hp0, Hs.
  unfold recurringSubscription, downpaymentSubscription, undated. simpl.
  rewrite Hd0, Hr0, Hint0, Hcount0, Hd, Hr, Hint, Hcount.
  destruct (effective_downpayment None s =? 0); reflexivity.
Qed.

(** With helpers that answer and a Stripe that creates what the line asks, a
    line that can be priced asks for its subscriptions, whatever the clock
    shows when it is priced. *)
Lemma createSubscriptionsForLineWith_ok (util : Util.t StartDate) ctx
    (client : StripeClient) (order : Order.t)
    (productId stripeCustomerId stripePaymentMethodId : string)
    (orderLine : OrderLine) now s :
  answers util ->
  scheduleOf this (productVariant orderLine) = Some s ->
  Schedule.billingInterval s = Schedule.durationInterval s ->
  (forall args,
      In (undated args)
        (map undated
           (lineSubscriptions this ctx now order productId stripeCustomerId
              stripePaymentMethodId orderLine)) ->
      exists id,
        stripe_createOffSessionSubscription this client args = Returned id) ->
  forall w,
  exists cs,
    createSubscriptionsForLineWith this util ctx client order productId
      stripeCustomerId stripePaymentMethodId orderLine w
    = (Returned tt, extend w cs)
    /\ map undated (subscriptions_created cs)
       = map undated
           (lineSubscriptions this ctx now order productId stripeCustomerId
              stripePaymentMethodId orderLine)
    /\ filter creates_product cs = [].
Proof.
  intros Hans Hs Hi Hstripe w.
  destruct (@getSubscriptionPricingWith_given util ctx None
              (productVariant orderLine) s w Hans Hs Hi)
    as (p & Hp & Hd & Hr & Hint & Hcount).
  rewrite (@lineSubscriptions_undated ctx now order productId
             stripeCustomerId stripePaymentMethodId orderLine s p
             Hs Hi Hd Hr Hint Hcount) in *.
  destruct (Hstripe (recurringSubscription order productId stripeCustomerId
                       stripePaymentMethodId orderLine p)
              (or_introl eq_refl)) as [id Hrec].
  unfold createSubscriptionsForLineWith.
  rewrite (@bind_returned _ _ _ _ _ _ _ Hp).
  unfold try_catch, createOffSessionSubscription, logOrderHistory,
    getSchedule, bind, call, ret, throw, extend. simpl.
  rewrite Hrec. simpl.
  destruct (Pricing.downpayment p =? 0) eqn:Hz; simpl.
  - eexists. split.
    + repeat rewrite <- app_assoc. reflexivity.
    + split; reflexivity.
  - destruct (Hstripe (downpaymentSubscription order productId
                         stripeCustomerId stripePaymentMethodId s p)
                (or_intror (or_introl eq_refl))) as [id' Hdown].
    rewrite Hs. simpl. rewrite Hdown. simpl.
    eexists. split.
    + repeat rewrite <- app_assoc. reflexivity.
    + split; reflexivity.
Qed.

Lemma forEach_lines_ok (util : Util.t StartDate) ctx (client : StripeClient)
    (order : Order.t)
    (productId stripeCustomerId stripePaymentMethodId : string)
    (orderLines : list OrderLine) now :
  answers util ->
  (forall orderLine,
      In orderLine orderLines ->
      exists s,
        scheduleOf this (productVariant orderLine) = Some s
        /\ Schedule.billingInterval s = Schedule.durationInterval s) ->
  (forall args,
      In (undated args)
        (flat_map
           (fun orderLine =>
              map undated
                (lineSubscriptions this ctx now order productId
                   stripeCustomerId stripePaymentMethodId orderLine))
           orderLines) ->
      exists id,
        stripe_createOffSessionSubscription this client args = Returned id) ->
  forall w,
  exists cs,
    forEach
      (createSubscriptionsForLineWith this util ctx client order productId
         stripeCustomerId stripePaymentMethodId) orderLines w
    = (Returned tt, extend w cs)
    /\ map undated (subscriptions_created cs)
       = flat_map
           (fun orderLine =>
              map undated
                (lineSubscriptions this ctx now order productId
                   stripeCustomerId stripePaymentMethodId orderLine))
           orderLines
    /\ filter creates_product cs = [].
Proof.
  intro Hans.
  induction orderLines as [| l ls IH]; simpl; intros Hlines Hstripe w.
  - exists []. rewrite extend_nil. split; [reflexivity | split; reflexivity].
  - destruct (Hlines l (or_introl eq_refl)) as (s & Hs & Hi).
    destruct (@createSubscriptionsForLineWith_ok util ctx client order
                productId stripeCustomerId stripePaymentMethodId l now s
                Hans Hs Hi) with (w := w) as (cs & Hrun & Hsubs & Hprod).
    { intros args Hin. apply Hstripe. apply in_or_app. left. exact Hin. }
    destruct IH with (w := extend w cs) as (cs' & Hrun' & Hsubs' & Hprod').
    { intros l' Hin. apply Hlines. right. exact Hin. }
    { intros args Hin. apply Hstripe. apply in_or_app. right. exact Hin. }
    exists (cs ++ cs'). split; [| split].
    + rewrite (@bind_returned _ _ _ _ _ _ _ Hrun), Hrun'.
      rewrite extend_extend. reflexivity.
    + rewrite subscriptions_created_app, map_app, Hsubs, Hsubs'.
      reflexivity.
    + rewrite filter_app, Hprod, Hprod'. reflexivity.
Qed.

(** X12. [createSubscriptions] fails before it asks anything of Stripe's
    products and subscriptions when the order is not found, when the order
    has no handler, and when Stripe does not know the customer: in each
    case nothing is changed. *)
Theorem createSubscriptions_refused ctx
    (orderCode stripeCustomerId stripePaymentMethodId : string) w :
  let create :=
    createSubscriptions this ctx orderCode stripeCustomerId
      stripePaymentMethodId in
  (orderService_findOneByCode this ctx orderCode = None ->
   create w
   = (Thrown (CannotFindOrder orderCode),
      extend w [OrderFindOneByCode ctx orderCode]))
  /\ (forall order e,
        orderService_findOneByCode this ctx orderCode = Some order ->
        outcome (getStripeHandler this ctx (Order.id order)) w = Thrown e ->
        outcome create w = Thrown e
        /\ filter changes_state (calls (after create w))
           = filter changes_state (calls w))
  /\ (forall order h,
        orderService_findOneByCode this ctx orderCode = Some order ->
        outcome (getStripeHandler this ctx (Order.id order)) w = Returned h ->
        stripe_customers_retrieve this (stripeClient h) stripeCustomerId
        = None ->
        outcome create w = Thrown (CustomerDoesNotExist stripeCustomerId)
        /\ filter changes_state (calls (after create w))
           = filter changes_state (calls w)).
Proof.
  intro create. subst create.
  split; [| split].
  - intros Hnone.
    unfold createSubscriptions, createSubscriptionsWith, bind, call, throw,
      extend.
    simpl. rewrite Hnone. reflexivity.
  - intros order e Horder Hh.
    destruct (getStripeHandler_runs ctx (Order.id order))
      as (o & cs & Hrun & Hcs).
    destruct (handler_lookups_quiet cs Hcs) as (Hq & _).
    destruct (@runs_outcome _ _ _ _ w (Hrun (clock w))) as [Ho _].
    rewrite Hh in Ho. subst o.
    assert (Hall : runs_at (clock w)
                     (createSubscriptions this ctx orderCode stripeCustomerId
                        stripePaymentMethodId)
                     (Thrown e) ([OrderFindOneByCode ctx orderCode] ++ cs)).
    { unfold createSubscriptions, createSubscriptionsWith.
      eapply runs_bind; [apply runs_call |]. rewrite Horder.
      apply runs_bind_thrown. apply Hrun. }
    destruct (runs_outcome w Hall) as [-> ->].
    split; [reflexivity |]. unfold extend. simpl.
    rewrite filter_app. simpl. rewrite Hq. apply app_nil_r.
  - intros order h Horder Hh Hnone.
    destruct (getStripeHandler_runs ctx (Order.id order))
      as (o & cs & Hrun & Hcs).
    destruct (handler_lookups_quiet cs Hcs) as (Hq & _).
    destruct (@runs_outcome _ _ _ _ w (Hrun (clock w))) as [Ho _].
    rewrite Hh in Ho. subst o.
    assert (Hall : runs_at (clock w)
                     (createSubscriptions this ctx orderCode stripeCustomerId
                        stripePaymentMethodId)
                     (Thrown (CustomerDoesNotExist stripeCustomerId))
                     ([OrderFindOneByCode ctx orderCode]
                      ++ cs ++ [CustomersRetrieve stripeCustomerId] ++ [])).
    { unfold createSubscriptions, createSubscriptionsWith.
      eapply runs_bind; [apply runs_call |]. rewrite Horder.
      eapply runs_bind; [apply Hrun |]. cbv beta.
      eapply runs_bind; [apply runs_call |]. rewrite Hnone.
      apply runs_throw. }
    destruct (runs_outcome w Hall) as [-> ->].
    split; [reflexivity |]. unfold extend. simpl.
    rewrite filter_app. simpl. rewrite filter_app, Hq. simpl.
    rewrite app_nil_r. reflexivity.
Qed.

(** X13. When the order, its handler and the customer are found, every line
    has a quote and Stripe creates the subscriptions the lines ask for,
    whatever their start dates, [createSubscriptions] returns, and the
    subscriptions it asked of Stripe are, start dates apart, those of the
    lines in the order of the lines: for each line the recurring
    subscription, followed by the downpayment subscription when the
    downpayment is not 0. All are for the one product created for the
    order. This holds for every clock and for all helpers that answer, so
    also when each line is priced at an instant of its own;
    [createSubscriptions] is the case of the helpers of the service. *)
Theorem createSubscriptions_all_lines (util : Util.t StartDate) ctx
    (orderCode stripeCustomerId stripePaymentMethodId : string) w
    (order : Order.t) (h : StripeHandlerConfig) (customer : string) :
  answers util ->
  orderService_findOneByCode this ctx orderCode = Some order ->
  outcome (getStripeHandler this ctx (Order.id order)) w = Returned h ->
  stripe_customers_retrieve this (stripeClient h) stripeCustomerId
  = Some customer ->
  (forall orderLine,
      In orderLine (Order.lines order) ->
      exists pricing,
        outcome (getSubscriptionPricing this ctx None
                   (Some (productVariant orderLine))) w = Returned pricing) ->
  let productId :=
    stripe_products_create this (stripeClient h) (productName order) in
  (forall args,
      In (undated args)
        (asked this ctx (clock w) order productId stripeCustomerId
           stripePaymentMethodId) ->
      exists id,
        stripe_createOffSessionSubscription this (stripeClient h) args
        = Returned id) ->
  let create :=
    createSubscriptionsWith this util ctx orderCode stripeCustomerId
      stripePaymentMethodId in
  outcome create w = Returned tt
  /\ (forall now,
        map undated (subscriptions_created (calls (after create w)))
        = (map undated (subscriptions_created (calls w))
           ++ asked this ctx now order productId stripeCustomerId
                stripePaymentMethodId)%list)
  /\ filter creates_product (calls (after create w))
     = (filter creates_product (calls w)
        ++ [ProductsCreate (productName order)])%list
  /\ (createSubscriptions this ctx orderCode stripeCustomerId
        stripePaymentMethodId
      = createSubscriptionsWith this (util_of this) ctx orderCode
          stripeCustomerId stripePaymentMethodId
      /\ answers (util_of this)).
Proof.
  intros Hans Horder Hh Hcus Hlines productId Hstripe create.
  subst create productId.
  destruct (getStripeHandler_runs ctx (Order.id order))
    as (o & cs & Hrun & Hcs).
  destruct (handler_lookups_quiet cs Hcs) as (Hq1 & _ & _ & Hq).
  destruct (@runs_outcome _ _ _ _ w (Hrun (clock w))) as [Ho _].
  rewrite Hh in Ho. subst o.
  assert (Hsched : forall orderLine,
             In orderLine (Order.lines order) ->
             exists s,
               scheduleOf this (productVariant orderLine) = Some s
               /\ Schedule.billingInterval s = Schedule.durationInterval s).
  { intros l Hin. destruct (Hlines l Hin) as [pricing Hp].
    destruct (getSubscriptionPricing_inv _ _ _ _ _ Hp)
      as (v & s & Hv & Hs & Hi & _).
    simpl in Hv. injection Hv as <-. exists s. split; assumption. }
  set (w1 := extend w ([OrderFindOneByCode ctx orderCode]
                       ++ cs ++ [CustomersRetrieve stripeCustomerId]
                       ++ [ProductsCreate (productName order)])).
  destruct (@forEach_lines_ok util ctx (stripeClient h) order
              (stripe_products_create this (stripeClient h)
                 (productName order))
              stripeCustomerId stripePaymentMethodId (Order.lines order)
              (clock w) Hans Hsched Hstripe w1)
    as (cs' & Hrun' & Hsubs & Hprod').
  assert (Hall : createSubscriptionsWith this util ctx orderCode
                   stripeCustomerId stripePaymentMethodId w
                 = (Returned tt, extend w1 cs')).
  { unfold createSubscriptionsWith.
    eapply runs_then; [apply runs_call | reflexivity |]. rewrite Horder.
    eapply runs_then; [apply Hrun | reflexivity |]. cbv beta zeta.
    eapply runs_then; [apply runs_call | reflexivity |]. rewrite Hcus.
    eapply runs_then; [apply runs_call | reflexivity |].
    rewrite !extend_extend. exact Hrun'. }
  assert (Hprod : forall l,
             filter changes_state l = [] -> filter creates_product l = []).
  { induction l as [| c l IH]; simpl; [reflexivity |].
    destruct c; simpl; try discriminate; exact IH. }
  assert (Hnow : forall now,
             asked this ctx now order
               (stripe_products_create this (stripeClient h)
                  (productName order))
               stripeCustomerId stripePaymentMethodId
             = asked this ctx (clock w) order
                 (stripe_products_create this (stripeClient h)
                    (productName order))
                 stripeCustomerId stripePaymentMethodId).
  { intro now. unfold asked. apply flat_map_in_ext. intros l Hin.
    destruct (Hsched l Hin) as (s & Hs & Hi).
    destruct (@getSubscriptionPricing_returns _ this ctx None
                (Some (productVariant l)) w (productVariant l) s
                eq_refl Hs Hi) as (p & _ & Hd & Hr & Hint & Hcount).
    rewrite !(@lineSubscriptions_undated ctx _ order _ stripeCustomerId
                stripePaymentMethodId l s p Hs Hi Hd Hr Hint Hcount).
    reflexivity. }
  unfold outcome, after. rewrite Hall. simpl.
  split; [reflexivity |]. split; [| split].
  - intro now. rewrite Hnow. unfold asked.
    rewrite !subscriptions_created_app. simpl.
    rewrite subscriptions_created_app, Hq. simpl.
    rewrite !map_app, Hsubs. simpl. rewrite app_nil_r. reflexivity.
  - rewrite !filter_app. simpl. rewrite filter_app, (Hprod cs Hq1). simpl.
    rewrite Hprod'. rewrite app_nil_r. reflexivity.
  - split; [reflexivity | apply util_of_answers].
Qed.

(** X14. Whatever the services answer, the subscriptions that
    [createSubscriptions] asks of Stripe are all for the customer and the
    payment method of the job and in the currency of the order, and there
    are at most two of them for each line of the order; there is none when
    the order is not found. *)
Theorem createSubscriptions_bounds ctx
    (orderCode stripeCustomerId stripePaymentMethodId : string) w :
  exists cs,
    after (createSubscriptions this ctx orderCode stripeCustomerId
             stripePaymentMethodId) w = extend w cs
    /\ match orderService_findOneByCode this ctx orderCode with
       | None => subscriptions_created cs = []
       | Some order =>
           Forall (fun a =>
                     Subscription.customerId a = stripeCustomerId
                     /\ Subscription.paymentMethodId a = stripePaymentMethodId
                     /\ Subscription.currencyCode a
                        = Order.currencyCode order)
             (subscriptions_created cs)
           /\ (List.length (subscriptions_created cs)
               <= 2 * List.length (Order.lines order))%nat
       end.
Proof.
  assert (Hall : exists o cs,
             runs_at (clock w)
               (createSubscriptions this ctx orderCode stripeCustomerId
                  stripePaymentMethodId) o cs
             /\ match orderService_findOneByCode this ctx orderCode with
                | None => subscriptions_created cs = []
                | Some order =>
                    Forall (fun a =>
                              Subscription.customerId a = stripeCustomerId
                              /\ Subscription.paymentMethodId a
                                 = stripePaymentMethodId
                              /\ Subscription.currencyCode a
                                 = Order.currencyCode order)
                      (subscriptions_created cs)
                    /\ (List.length (subscriptions_created cs)
                        <= 2 * List.length (Order.lines order))%nat
                end).
  { unfold createSubscriptions, createSubscriptionsWith.
    destruct (orderService_findOneByCode this ctx orderCode) as [order |].
    2: { eexists. eexists. split.
         - eapply runs_bind; [apply runs_call | apply runs_throw].
         - reflexivity. }
    destruct (getStripeHandler_runs ctx (Order.id order))
      as (o & cs & Hrun & Hcs).
    destruct (handler_lookups_quiet cs Hcs) as (_ & _ & _ & Hq).
    destruct o as [h | e].
    2: { eexists. eexists. split.
         - eapply runs_bind; [apply runs_call |].
           apply runs_bind_thrown. apply Hrun.
         - simpl. rewrite Hq. split; [constructor | simpl; lia]. }
    destruct (stripe_customers_retrieve this (stripeClient h)
                stripeCustomerId) as [customer |] eqn:Hcus.
    2: { eexists. eexists. split.
         - eapply runs_bind; [apply runs_call |].
           eapply runs_bind; [apply Hrun |]. cbv beta zeta.
           eapply runs_bind; [apply runs_call |]. rewrite Hcus.
           apply runs_throw.
         - simpl. rewrite subscriptions_created_app, Hq.
           split; [constructor | simpl; lia]. }
    destruct (forEach_lines_any ctx (stripeClient h) order
                (stripe_products_create this (stripeClient h)
                   (productName order))
                stripeCustomerId stripePaymentMethodId (Order.lines order)
                (clock w)) as (o' & cs' & Hrun' & Hall' & Hlen').
    exists o'. eexists. split.
    - eapply runs_bind; [apply runs_call |].
      eapply runs_bind; [apply Hrun |]. cbv beta zeta.
      eapply runs_bind; [apply runs_call |]. rewrite Hcus.
      eapply runs_bind; [apply runs_call |]. exact Hrun'.
    - simpl. rewrite subscriptions_created_app, Hq. simpl. split.
      + eapply Forall_impl; [| exact Hall'].
        intros a (H1 & H2 & _ & H4). auto.
      + exact Hlen'. }
  destruct Hall as (o & cs & Hrun & Hprop).
  exists cs. split; [| exact Hprop].
  apply (runs_outcome w Hrun).
Qed.

(** *** More of the calculator *)

Lemma add_Fin (a : Q) (y : number) :
  is_nan y = false -> is_infinite y = false ->
  add (Fin a) y = Fin (Qred (a + value y)).
Proof.
  intros Hnan Hinf. unfold add. simpl. rewrite Hnan, Hinf.
  replace ((Qnum a <? 0) && negative y && (Qnum a =? 0) && is_zero y)
    with false; [apply finite_false |].
  destruct (Z.ltb_spec (Qnum a) 0), (Z.eqb_spec (Qnum a) 0),
    (negative y); simpl; try reflexivity; lia.
Qed.

Lemma opp_finite (y : number) :
  is_nan y = false -> is_infinite y = false ->
  is_nan (opp y) = false /\ is_infinite (opp y) = false
  /\ (value (opp y) == - value y)%Q.
Proof.
  destruct y as [q | | | |]; simpl; try discriminate; intros _ _.
  - destruct (Z.eqb_spec (Qnum q) 0) as [E | _]; simpl.
    + split; [reflexivity | split; [reflexivity |]].
      apply Qnum_zero in E. rewrite E. reflexivity.
    + split; [reflexivity | split; reflexivity].
  - split; [reflexivity | split; reflexivity].
Qed.

Lemma div_by_Fin (x : number) (q : Q) :
  is_nan x = false -> is_infinite x = false -> Qnum q <> 0 ->
  exists neg, div x (Fin q) = finite neg (value x / q).
Proof.
  intros Hnan Hinf Hq. unfold div. simpl. rewrite Hnan, Hinf.
  destruct (Z.eqb_spec (Qnum q) 0) as [E | _]; [contradiction |].
  eexists. reflexivity.
Qed.

(** The recurring price for counts other than 0. *)
Lemma recurringPrice_value (price downpayment durationCount billingCount : Z) :
  durationCount <> 0 -> billingCount <> 0 ->
  floor (sub (ofZ price)
             (div (ofZ downpayment)
                  (div (ofZ durationCount) (ofZ billingCount))))
  = ofZ ((price * durationCount - downpayment * billingCount)
         / durationCount).
Proof.
  intros Hd Hb.
  pose proof (inject_Z_nonzero Hd) as Hd'.
  pose proof (inject_Z_nonzero Hb) as Hb'.
  set (ratio := (inject_Z durationCount / inject_Z billingCount)%Q).
  assert (Hratio : ~ (ratio == 0)%Q).
  { unfold ratio. intro E. apply Hd'.
    rewrite <- (@Qmult_div_r (inject_Z durationCount)
                  (inject_Z billingCount) Hb').
    rewrite E. apply Qmult_0_r. }
  assert (Hbpd : div (ofZ durationCount) (ofZ billingCount)
                 = Fin (Qred ratio)).
  { unfold div, ofZ. simpl.
    destruct (Z.eqb_spec billingCount 0) as [E | _]; [contradiction |].
    fold ratio. unfold finite.
    destruct (Z.eqb_spec (Qnum ratio) 0) as [E | _]; [| reflexivity].
    exfalso. apply Hratio. apply Qnum_zero. exact E. }
  rewrite Hbpd.
  assert (Hred : Qnum (Qred ratio) <> 0).
  { intro E. apply Hratio. rewrite <- (Qred_correct ratio).
    apply Qnum_zero. exact E. }
  destruct (@div_by_Fin (ofZ downpayment) (Qred ratio) eq_refl eq_refl Hred)
    as [neg Hdiv].
  rewrite Hdiv. clear Hdiv. simpl value.
  set (part := (inject_Z downpayment / Qred ratio)%Q).
  destruct (finite_is_finite neg part) as [Hnan Hinf].
  destruct (opp_finite _ Hnan Hinf) as (Hnan' & Hinf' & Hval).
  unfold sub. change (ofZ price) with (Fin (inject_Z price)).
  rewrite (add_Fin _ _ Hnan' Hinf'). unfold floor. f_equal.
  rewrite Zdiv_Qdiv. apply Qfloor_comp.
  rewrite Qred_correct, Hval, (finite_value neg part).
  unfold part. rewrite (Qred_correct ratio). unfold ratio.
  unfold Z.sub. rewrite inject_Z_plus, inject_Z_opp, !inject_Z_mult.
  field. split; assumption.
Qed.

(** X15. For a schedule with equal intervals whose duration holds a whole
    number [n] of billings ([durationCount = n * billingCount], neither
    being 0), with safe integer counts and with
    [|price * n| + 3 * |downpayment|] below [2 ^ 53], the recurring price
    is the whole number [floor ((price * n - downpayment) / n)]: the price
    less an [n]-th of the downpayment, rounded down. It is the one result
    binary64 has for
    [Math.floor(price - downpayment / (durationCount / billingCount))]:
    the quotient is [n] itself, and the rounding of the share and of the
    rest is too small to reach the next integer. *)
Theorem getSubscriptionPricing_recurringPrice_formula ctx input variant w v
    s (n : Z) :
  pricedVariant this ctx input variant = Some v ->
  scheduleOf this v = Some s ->
  Schedule.billingInterval s = Schedule.durationInterval s ->
  Schedule.billingCount s <> 0 ->
  n <> 0 ->
  Schedule.durationCount s = n * Schedule.billingCount s ->
  safeInteger (Schedule.durationCount s) ->
  safeInteger (Schedule.billingCount s) ->
  Z.abs (Variant.price v * n) + 3 * Z.abs (effective_downpayment input s)
  < 2 ^ 53 ->
  exists p,
    outcome (getSubscriptionPricing this ctx input variant) w = Returned p
    /\ Pricing.recurringPrice p
       = ofZ ((Variant.price v * n - Pricing.downpayment p) / n)
    /\ (forall r,
          recurringPrice_rounded (Variant.price v) (Pricing.downpayment p)
            (Schedule.durationCount s) (Schedule.billingCount s) r
          <-> r = (Variant.price v * n - Pricing.downpayment p) / n).
Proof.
  intros Hv Hs Hi Hb Hn Hd Sd Sb Hbound.
  destruct (@getSubscriptionPricing_returns _ this ctx input variant w v s
              Hv Hs Hi) as (p & Hp & Hdp & Hr & _).
  assert (Sn : safeInteger n).
  { unfold safeInteger in *. rewrite Hd in Sd. nia. }
  assert (Hone : forall r,
             recurringPrice_rounded (Variant.price v)
               (effective_downpayment input s)
               (Schedule.durationCount s) (Schedule.billingCount s) r ->
             r = (Variant.price v * n - effective_downpayment input s) / n).
  { intros r Hrun. rewrite Hd in Hrun.
    apply (recurringPrice_rounded_formula Hb Hn Sn Hbound Hrun). }
  exists p. split; [exact Hp |]. rewrite Hdp. split.
  - rewrite Hr. unfold billingsPerDuration.
    rewrite recurringPrice_value by (try assumption; rewrite Hd; nia).
    f_equal. rewrite Hd.
    replace (Variant.price v * (n * Schedule.billingCount s)
             - effective_downpayment input s * Schedule.billingCount s)
      with ((Variant.price v * n - effective_downpayment input s)
            * Schedule.billingCount s) by ring.
    apply Z.div_mul_cancel_r; assumption.
  - intro r. split; [apply Hone |]. intros ->.
    rewrite <- (Hone _ (recurringPrice_rounded_exact _ _ _ _)).
    apply recurringPrice_rounded_exact.
Qed.

Lemma recurringPrice_no_duration (price downpayment billingCount : Z) :
  let r :=
    floor (sub (ofZ price)
               (div (ofZ downpayment) (div (ofZ 0) (ofZ billingCount)))) in
  is_nan r || is_infinite r = true.
Proof. destruct billingCount, downpayment; reflexivity. Qed.

Lemma recurringPrice_no_billing (price downpayment durationCount : Z) :
  durationCount <> 0 ->
  floor (sub (ofZ price)
             (div (ofZ downpayment) (div (ofZ durationCount) (ofZ 0))))
  = ofZ price.
Proof.
  intro Hd.
  assert (E : exists neg,
             div (ofZ downpayment) (div (ofZ durationCount) (ofZ 0))
             = zero neg).
  { destruct durationCount; [contradiction | |]; eexists; reflexivity. }
  destruct E as [neg ->].
  unfold sub. change (ofZ price) with (Fin (inject_Z price)).
  rewrite add_Fin by (destruct neg; reflexivity).
  unfold floor. apply (f_equal ofZ).
  transitivity (Qfloor (inject_Z price)); [| apply Qfloor_Z].
  apply Qfloor_comp.
  rewrite Qred_correct. destruct neg; simpl; apply Qplus_0_r.
Qed.

(** X16. The counts of a schedule are not checked. With a [durationCount]
    of 0 the recurring price of the quote is no number at all: it is NaN or
    infinite. With a [billingCount] of 0 and another [durationCount] the
    recurring price is the full price: the downpayment is not taken off. *)
Theorem getSubscriptionPricing_zero_counts ctx input variant w v s :
  pricedVariant this ctx input variant = Some v ->
  scheduleOf this v = Some s ->
  Schedule.billingInterval s = Schedule.durationInterval s ->
  exists p,
    outcome (getSubscriptionPricing this ctx input variant) w = Returned p
    /\ (Schedule.durationCount s = 0 ->
        is_nan (Pricing.recurringPrice p)
        || is_infinite (Pricing.recurringPrice p) = true)
    /\ (Schedule.billingCount s = 0 ->
        Schedule.durationCount s <> 0 ->
        Pricing.recurringPrice p = ofZ (Variant.price v)).
Proof.
  intros Hv Hs Hi.
  destruct (@getSubscriptionPricing_returns _ this ctx input variant w v s
              Hv Hs Hi) as (p & Hp & Hdp & Hr & _).
  exists p. split; [exact Hp |]. rewrite Hr. unfold billingsPerDuration.
  split.
  - intros ->. apply recurringPrice_no_duration.
  - intros -> Hd. apply recurringPrice_no_billing. exact Hd.
Qed.

(** X17. [input.startDate] changes the proration and nothing else. Two
    inputs that differ in their start date only give the same error, or two
    quotes with the same downpayment, day rate, recurring price, interval,
    interval count and start date of the subscription: the start date of the
    subscription comes from the clock, not from the input. *)
Theorem getSubscriptionPricing_startDate ctx input1 input2 variant w :
  input_productVariantId input1 = input_productVariantId input2 ->
  input_downpayment input1 = input_downpayment input2 ->
  match outcome (getSubscriptionPricing this ctx input1 variant) w,
        outcome (getSubscriptionPricing this ctx input2 variant) w with
  | Returned p1, Returned p2 =>
      Pricing.downpayment p1 = Pricing.downpayment p2
      /\ Pricing.dayRate p1 = Pricing.dayRate p2
      /\ Pricing.recurringPrice p1 = Pricing.recurringPrice p2
      /\ Pricing.interval p1 = Pricing.interval p2
      /\ Pricing.intervalCount p1 = Pricing.intervalCount p2
      /\ Pricing.subscriptionStartDate p1 = Pricing.subscriptionStartDate p2
  | Thrown e1, Thrown e2 => e1 = e2
  | _, _ => False
  end.
Proof.
  intros Hid Hdp. run. unfold effective_downpayment.
  rewrite <- Hid, <- Hdp.
  destruct variant as [v |]; simpl.
  - destruct (scheduleOf this v) as [s |]; simpl; [| reflexivity].
    destruct (Interval_eqb _ _); simpl; [| reflexivity].
    repeat split.
  - destruct (input_productVariantId input1) as [i |]; simpl;
      [| reflexivity].
    destruct (ID_truthy i); simpl; [| reflexivity].
    destruct (variantService_findOne this ctx i) as [v |]; simpl;
      [| reflexivity].
    destruct (scheduleOf this v) as [s |]; simpl; [| reflexivity].
    destruct (Interval_eqb _ _); simpl; [| reflexivity].
    repeat split.
Qed.

(** X18. A quote asked for by the id of a variant is the quote asked for
    with the variant itself: when [variantService.findOne] finds the variant
    of [input.productVariantId], the outcome is the one the calculator has
    when it is handed that variant, and the look-up is the one call made. *)
Theorem getSubscriptionPricing_by_id ctx input w (i : ID) v :
  input_productVariantId input = Some i ->
  ID_truthy i = true ->
  variantService_findOne this ctx i = Some v ->
  outcome (getSubscriptionPricing this ctx input None) w
  = outcome (getSubscriptionPricing this ctx input (Some v)) w
  /\ after (getSubscriptionPricing this ctx input None) w
     = extend w [VariantFindOne ctx (Some i)]
  /\ after (getSubscriptionPricing this ctx input (Some v)) w = w.
Proof.
  intros Hid Hi Hv. run. unfold extend.
  rewrite Hid. simpl. rewrite Hi. simpl. rewrite Hv. simpl.
  destruct (scheduleOf this v) as [s |]; simpl; [| repeat split].
  destruct (Interval_eqb _ _); simpl; repeat split.
Qed.

End MoreProperties.

(** *** The properties at work in the shop *)

Local Open Scope string_scope.

Lemma getStripeHandler_returned_witness :
  outcome (getStripeHandler Shop.service Shop.ctx (IdNum 10)) Shop.world
  = Returned Desk.handler
  /\ exists q pm,
       paymentMethodService_findOne Shop.service Shop.ctx (quote_id q)
       = Some pm
       /\ paymentMethodCode Desk.handler = method_code pm
       /\ webhookSecret Desk.handler <> EmptyString.
Proof.
  split; [reflexivity |].
  destruct (@getStripeHandler_returned unit Shop.service Shop.ctx (IdNum 10)
              Shop.world Desk.handler eq_refl)
    as (q & pm & _ & _ & Hpm & _ & Hcode & _ & _ & _ & _ & Hsecret).
  exists q, pm. split; [exact Hpm |]. split; [exact Hcode | exact Hsecret].
Defined.

Lemma getStripeHandler_failures_witness :
  outcome (getStripeHandler (Desk.serviceWith [] None) Shop.ctx (IdNum 10))
    Shop.world = Thrown NoPaymentMethodFound
  /\ outcome (getStripeHandler (Desk.serviceWith [Desk.quote] None) Shop.ctx
                (IdNum 10)) Shop.world
     = Thrown (HandlerNotConfigured "stripe-subscription-1")
  /\ getStripeHandler
       (Desk.serviceWith [Desk.quote]
          (Some (Desk.method
                   [ {| arg_name := "apiKey"; arg_value := "sk_test" |} ])))
       Shop.ctx (IdNum 10) Shop.world
     = (Thrown (NoApiKeyOrSecret "stripe-subscription-1"),
        extend Shop.world
          [ GetEligiblePaymentMethods Shop.ctx (IdNum 10);
            PaymentMethodFindOne Shop.ctx (IdNum 30);
            LoggerCall Warn (NoApiKeyConfigured "stripe-subscription-1") ]).
Proof.
  split; [| split].
  - unfold outcome.
    rewrite (proj1 (@getStripeHandler_failures unit
                      (Desk.serviceWith [] None) Shop.ctx (IdNum 10)
                      Shop.world) eq_refl).
    reflexivity.
  - unfold outcome.
    rewrite (proj1 (proj2 (@getStripeHandler_failures unit
                             (Desk.serviceWith [Desk.quote] None) Shop.ctx
                             (IdNum 10) Shop.world))
               Desk.quote eq_refl I).
    reflexivity.
  - apply (proj2 (proj2 (@getStripeHandler_failures unit
                           (Desk.serviceWith [Desk.quote]
                              (Some (Desk.method
                                       [ {| arg_name := "apiKey";
                                            arg_value := "sk_test" |} ])))
                           Shop.ctx (IdNum 10) Shop.world))
             Desk.quote
             (Desk.method
                [ {| arg_name := "apiKey"; arg_value := "sk_test" |} ]));
      reflexivity.
Defined.

Lemma handlePaymentCompleteEvent_missing_metadata_witness :
  handlePaymentCompleteEvent Shop.service
    (Desk.webhook None (Some "shop") (Some "cus_1")) None Shop.payload
    Shop.world
  = (Thrown MissingOrderCode, Shop.world)
  /\ handlePaymentCompleteEvent Shop.service
       (Desk.webhook (Some "ORDER10") None (Some "cus_1")) None Shop.payload
       Shop.world
     = (Thrown MissingChannelToken, Shop.world).
Proof.
  split.
  - apply (proj1 (@handlePaymentCompleteEvent_missing_metadata unit
                    Shop.service
                    (Desk.webhook None (Some "shop") (Some "cus_1")) None
                    Shop.payload Shop.world eq_refl)).
    reflexivity.
  - apply (proj2 (@handlePaymentCompleteEvent_missing_metadata unit
                    Shop.service
                    (Desk.webhook (Some "ORDER10") None (Some "cus_1")) None
                    Shop.payload Shop.world eq_refl)); reflexivity.
Defined.

Lemma handlePaymentCompleteEvent_unknown_order_witness :
  handlePaymentCompleteEvent Shop.service
    (Desk.webhook (Some "ORDER11") (Some "shop") (Some "cus_1")) None
    Shop.payload Shop.world
  = (Thrown (CannotFindOrder "ORDER11"),
     extend Shop.world
       [GetChannelFromToken "shop"; OrderFindOneByCode Shop.ctx "ORDER11"]).
Proof.
  apply (@handlePaymentCompleteEvent_unknown_order unit Shop.service
           (Desk.webhook (Some "ORDER11") (Some "shop") (Some "cus_1")) None
           Shop.payload Shop.world "ORDER11" "shop");
    try reflexivity; discriminate.
Defined.

Lemma handlePaymentCompleteEvent_no_customer_witness :
  handlePaymentCompleteEvent
    (Desk.service true (Some (StripeError "bad signature")) None None
       Desk.created)
    (Desk.webhook (Some "ORDER10") (Some "shop") None) None Shop.payload
    Shop.world
  = (Thrown (NoCustomerInWebhook "ORDER10"),
     extend Shop.world
       [GetChannelFromToken "shop"; OrderFindOneByCode Shop.ctx "ORDER10";
        CreateHistoryEntry Shop.ctx (IdNum 10) NoCustomerIdFound]).
Proof.
  apply (@handlePaymentCompleteEvent_no_customer unit
           (Desk.service true (Some (StripeError "bad signature")) None None
              Desk.created)
           (Desk.webhook (Some "ORDER10") (Some "shop") None) None
           Shop.payload Shop.world "ORDER10" "shop" Shop.order);
    try reflexivity; discriminate.
Defined.

Lemma handlePaymentCompleteEvent_refused_signature_witness :
  stripe_validateWebhookSignature Desk.guarded
    {| client_webhookSecret := "whsec_other"; client_apiKey := "sk_test" |}
    Shop.payload None = None
  /\ filter settles
       (calls (after (handlePaymentCompleteEvent Desk.guarded
                        (Shop.webhook "setup_intent.succeeded") None
                        Shop.payload)
                 Shop.world))
     = []
  /\ exists e,
       outcome (handlePaymentCompleteEvent Desk.guarded
                  (Shop.webhook "setup_intent.succeeded") None Shop.payload)
         Shop.world
       = Thrown e.
Proof.
  split; [reflexivity |].
  assert (H : signature_refused Desk.guarded
                (Shop.webhook "setup_intent.succeeded") None Shop.payload).
  { intros oc ct order h Hoc Hct Horder Hh.
    simpl in Hoc, Hct. injection Hoc as <-. injection Hct as <-.
    vm_compute in Horder. injection Horder as <-.
    vm_compute in Hh. injection Hh as <-.
    discriminate. }
  destruct (@handlePaymentCompleteEvent_refused_signature unit Desk.guarded
              (Shop.webhook "setup_intent.succeeded") None Shop.payload
              Shop.world eq_refl H) as [Hcalls Herr].
  split; [exact Hcalls | exact (Herr eq_refl)].
Defined.

Lemma shop_webhook_accepted (checks : bool) (transition payment :
                                              option string) :
  accepted (Desk.service checks None transition payment Desk.created)
    (Shop.webhook "setup_intent.succeeded") None Shop.payload "shop" "cus_1"
    Shop.order Desk.handler.
Proof.
  unfold accepted. simpl.
  split; [reflexivity |]. split.
  - exists "ORDER10". split; [reflexivity |]. split;
      [discriminate | reflexivity].
  - split; [reflexivity |]. split; [discriminate |].
    split; [reflexivity |]. split; [discriminate |].
    split; [reflexivity |]. right. reflexivity.
Defined.

Lemma handlePaymentCompleteEvent_settled_witness :
  filter changes_state
    (calls (after (handlePaymentCompleteEvent
                     (Desk.service true None None None Desk.created)
                     (Shop.webhook "setup_intent.succeeded") None
                     Shop.payload)
              Shop.world))
  = [ JobQueueAdd
        (subscriptionsJob Shop.ctx Shop.order
           (Shop.webhook "setup_intent.succeeded") "cus_1") 1;
      TransitionToState Shop.ctx (IdNum 10) "ArrangingPayment";
      AddPaymentToOrder Shop.ctx (IdNum 10) "stripe-subscription-1" "seti_1"
        (Some "12000") ].
Proof.
  destruct (@handlePaymentCompleteEvent_settled unit
              (Desk.service true None None None Desk.created)
              (Shop.webhook "setup_intent.succeeded") None Shop.payload
              "shop" "cus_1" Shop.order Desk.handler Shop.world
              (shop_webhook_accepted true None None) eq_refl eq_refl)
    as (_ & Hcalls & _).
  exact Hcalls.
Defined.

Lemma handlePaymentCompleteEvent_job_stays_witness :
  outcome (handlePaymentCompleteEvent
             (Desk.service true None (Some "refused") None Desk.created)
             (Shop.webhook "setup_intent.succeeded") None Shop.payload)
    Shop.world
  = Thrown (TransitionError "ORDER10" "refused")
  /\ filter settles
       (calls (after (handlePaymentCompleteEvent
                        (Desk.service true None (Some "refused") None
                           Desk.created)
                        (Shop.webhook "setup_intent.succeeded") None
                        Shop.payload)
                 Shop.world))
     = [ JobQueueAdd
           (subscriptionsJob Shop.ctx Shop.order
              (Shop.webhook "setup_intent.succeeded") "cus_1") 1;
         TransitionToState Shop.ctx (IdNum 10) "ArrangingPayment" ].
Proof.
  apply (proj1 (@handlePaymentCompleteEvent_job_stays unit
                  (Desk.service true None (Some "refused") None Desk.created)
                  (Shop.webhook "setup_intent.succeeded") None Shop.payload
                  "shop" "cus_1" Shop.order Desk.handler Shop.world
                  (shop_webhook_accepted true (Some "refused") None))
           "refused"); [discriminate | reflexivity].
Defined.

Lemma createSubscriptionsForLine_pricing_error_witness :
  createSubscriptionsForLine Shop.service Shop.ctx Shop.client Shop.order
    "prod_1" "cus_1" "pm_1" {| productVariant := Shop.strayBox |} Shop.world
  = (Thrown (NoScheduleFound (Some "weekly")), Shop.world).
Proof.
  apply (@createSubscriptionsForLine_pricing_error unit Shop.service
           Shop.ctx Shop.client Shop.order "prod_1" "cus_1" "pm_1"
           {| productVariant := Shop.strayBox |} Shop.world).
  reflexivity.
Defined.

Lemma createSubscriptionsForLine_stripe_error_witness :
  (exists cs,
     runs_at Shop.noon
       (createSubscriptionsForLine
          (Desk.service true None None None Desk.refused) Shop.ctx
          Shop.client Shop.order "prod_1" "cus_1" "pm_1"
          {| productVariant := Shop.halfYearBox |})
       (Thrown (StripeError "card declined")) cs
     /\ List.length (subscriptions_created cs) = 1%nat)
  /\ (exists cs,
        runs_at Shop.noon
          (createSubscriptionsForLine
             (Desk.service true None None None Desk.recurringOnly) Shop.ctx
             Shop.client Shop.order "prod_1" "cus_1" "pm_1"
             {| productVariant := Shop.halfYearBox |})
          (Thrown (StripeError "card declined")) cs
        /\ List.length (subscriptions_created cs) = 2%nat).
Proof.
  split.
  - eexists. split.
    + apply (proj1 (@createSubscriptionsForLine_stripe_error unit
                      (Desk.service true None None None Desk.refused)
                      Shop.ctx Shop.client Shop.order "prod_1" "cus_1" "pm_1"
                      {| productVariant := Shop.halfYearBox |} Shop.noon _
                      (StripeError "card declined") eq_refl)).
      reflexivity.
    + reflexivity.
  - eexists. split.
    + apply (proj2 (@createSubscriptionsForLine_stripe_error unit
                      (Desk.service true None None None Desk.recurringOnly)
                      Shop.ctx Shop.client Shop.order "prod_1" "cus_1" "pm_1"
                      {| productVariant := Shop.halfYearBox |} Shop.noon _
                      (StripeError "card declined") eq_refl)
               "sub_recurring" Shop.halfYear);
        [reflexivity | discriminate | reflexivity | reflexivity].
    + reflexivity.
Defined.

Lemma createSubscriptions_refused_witness :
  createSubscriptions Shop.service Shop.ctx "ORDER11" "cus_1" "pm_1"
    Shop.world
  = (Thrown (CannotFindOrder "ORDER11"),
     extend Shop.world [OrderFindOneByCode Shop.ctx "ORDER11"])
  /\ outcome (createSubscriptions (Desk.serviceWith [] None) Shop.ctx
                "ORDER10" "cus_1" "pm_1") Shop.world
     = Thrown NoPaymentMethodFound
  /\ outcome (createSubscriptions
                (Desk.withSchedules (schedules Shop.service)) Shop.ctx
                "ORDER10" "cus_9" "pm_1") Shop.world
     = Thrown (CustomerDoesNotExist "cus_9").
Proof.
  split; [| split].
  - apply (proj1 (@createSubscriptions_refused unit Shop.service Shop.ctx
                    "ORDER11" "cus_1" "pm_1" Shop.world)).
    reflexivity.
  - apply (proj1 (proj2 (@createSubscriptions_refused unit
                           (Desk.serviceWith [] None) Shop.ctx "ORDER10"
                           "cus_1" "pm_1" Shop.world))
             Shop.order NoPaymentMethodFound); reflexivity.
  - apply (proj2 (proj2 (@createSubscriptions_refused unit
                           (Desk.withSchedules (schedules Shop.service))
                           Shop.ctx "ORDER10" "cus_9" "pm_1" Shop.world))
             Shop.order Desk.handler); reflexivity.
Defined.

Lemma createSubscriptions_all_lines_witness :
  let create :=
    createSubscriptionsWith (Desk.service true None None None Desk.ordered)
      Desk.ticking Shop.ctx "ORDER10" "cus_1" "pm_1" in
  outcome create Shop.world = Returned tt
  /\ map (fun a => (Subscription.amount a, Subscription.proration a))
       (map undated
          (subscriptions_created (calls (after create Shop.world))))
     = [ (ofZ 12000, true); (ofZ 5683, true); (ofZ 19900, false) ]
  /\ map (fun a => dayOf (Subscription.startDate a) - dayOf Shop.noon)
       (subscriptions_created (calls (after create Shop.world)))
     = [ 6; 10; 10 ].
Proof.
  assert (Hans : answers Desk.ticking).
  { repeat split; intros; eexists; reflexivity. }
  destruct (@createSubscriptions_all_lines unit
              (Desk.service true None None None Desk.ordered) Desk.ticking
              Shop.ctx "ORDER10" "cus_1" "pm_1" Shop.world Shop.order
              Desk.handler "cus_1" Hans eq_refl eq_refl eq_refl)
    as (Hout & Hsubs & _).
  - intros l [<- | [<- | []]]; eexists; reflexivity.
  - intros args Hin. destruct args. vm_compute in Hin.
    destruct Hin as [H | [H | [H | []]]];
      injection H as; subst; eexists; reflexivity.
  - split; [exact Hout |]. split; [| reflexivity].
    rewrite (Hsubs 0). reflexivity.
Defined.

Lemma getSubscriptionPricing_recurringPrice_formula_witness :
  exists p,
    outcome (getSubscriptionPricing Shop.service Shop.ctx None
               (Some Shop.halfYearBox)) Shop.world = Returned p
    /\ Pricing.downpayment p = 19900
    /\ Pricing.recurringPrice p = ofZ 5683
    /\ forall r,
         recurringPrice_rounded 9000 19900 6 1 r <-> r = 5683.
Proof.
  destruct (@getSubscriptionPricing_recurringPrice_formula unit Shop.service
              Shop.ctx None (Some Shop.halfYearBox) Shop.world
              Shop.halfYearBox Shop.halfYear 6
              eq_refl eq_refl eq_refl ltac:(discriminate)
              ltac:(discriminate) eq_refl eq_refl eq_refl eq_refl)
    as (p & Hp & Hr & Hall).
  exists p. split; [exact Hp |].
  assert (Hd : Pricing.downpayment p = 19900).
  { vm_compute in Hp. injection Hp as <-. reflexivity. }
  rewrite Hd in Hr, Hall.
  split; [exact Hd |]. split; [exact Hr |]. exact Hall.
Defined.

Lemma getSubscriptionPricing_zero_counts_witness :
  exists p,
    outcome (getSubscriptionPricing (Desk.withSchedules [Desk.unbilled])
               Shop.ctx None (Some Desk.unbilledBox)) Shop.world
    = Returned p
    /\ Pricing.downpayment p = 300
    /\ Pricing.recurringPrice p = ofZ 1000.
Proof.
  destruct (@getSubscriptionPricing_zero_counts unit
              (Desk.withSchedules [Desk.unbilled]) Shop.ctx None
              (Some Desk.unbilledBox) Shop.world Desk.unbilledBox
              Desk.unbilled eq_refl eq_refl eq_refl)
    as (p & Hp & _ & Hfull).
  exists p. split; [exact Hp |]. split.
  - injection Hp as <-. reflexivity.
  - apply Hfull; [reflexivity | discriminate].
Defined.

Lemma getSubscriptionPricing_startDate_witness :
  match outcome (getSubscriptionPricing Shop.service Shop.ctx
                   (Some Shop.lateStart) (Some Shop.halfYearBox)) Shop.world,
        outcome (getSubscriptionPricing Shop.service Shop.ctx None
                   (Some Shop.halfYearBox)) Shop.world with
  | Returned p1, Returned p2 =>
      Pricing.recurringPrice p1 = Pricing.recurringPrice p2
      /\ Pricing.subscriptionStartDate p1 = Pricing.subscriptionStartDate p2
      /\ Pricing.proratedDays p1 <> Pricing.proratedDays p2
  | _, _ => False
  end.
Proof.
  pose proof (@getSubscriptionPricing_startDate unit Shop.service Shop.ctx
                (Some Shop.lateStart) None (Some Shop.halfYearBox)
                Shop.world eq_refl eq_refl) as H.
  simpl in H. destruct H as (_ & _ & Hr & _ & _ & Hd).
  simpl. split; [exact Hr |]. split; [exact Hd | discriminate].
Defined.

Lemma getSubscriptionPricing_by_id_witness :
  outcome (getSubscriptionPricing Shop.service Shop.ctx (Some (Shop.byId 2))
             None) Shop.world
  = outcome (getSubscriptionPricing Shop.service Shop.ctx
               (Some (Shop.byId 2)) (Some Shop.halfYearBox)) Shop.world.
Proof.
  apply (@getSubscriptionPricing_by_id unit Shop.service Shop.ctx
           (Some (Shop.byId 2)) Shop.world (IdNum 2) Shop.halfYearBox);
    reflexivity.
Defined.
